(** * govuk-datascrubber: a shallow embedding of the snapshot finder, the
    scrub workspace lifecycle and the PostgreSQL scrub task manager.

    Sources: [src/datascrubber/__init__.py] (classes [RdsSnapshotFinder]
    and [ScrubWorkspaceInstance]) and
    [src/datascrubber/task_managers/postgresql.py] (class [Postgresql]).

    Python objects with mutable attributes are modelled as records threaded
    through a state-and-exception monad [PyM]: a method either returns a
    value or raises an exception, and in both cases the attribute updates
    made before the raise persist, as in Python.  Calls to external services
    (boto3's RDS client, psycopg2) are logged in the state so that
    statements about "which calls were made" can be expressed. *)

From Stdlib Require Import String Ascii ZArith Lia HexString.
From stdpp Require Import base gmap strings list sorting.

Open Scope Z_scope.

(* ================================================================== *)
(** ** Python exceptions and the state/exception monad *)

Inductive exc : Type :=
| ClientError (code : string)   (** botocore ClientError; [e.response['Error']['Code']] *)
| TimeoutError (msg : string)
| TypeError                     (** e.g. [<] between an [int] and a [datetime] *)
| AttributeError                (** [e.response] on an exception without it *)
| IndexError
| KeyError (key : string)
| PyException (msg : string)    (** [raise Exception(msg)] *)
| DriverError (msg : string).   (** psycopg2 errors *)

(** The Python code only has [except Exception]: every [exc] is caught by it. *)

Definition PyM (S A : Type) : Type := S -> (exc + A) * S.

Definition py_ret {S A} (a : A) : PyM S A := fun s => (inr a, s).
Definition py_raise {S A} (e : exc) : PyM S A := fun s => (inl e, s).
Definition py_bind {S A B} (m : PyM S A) (k : A -> PyM S B) : PyM S B :=
  fun s => match m s with
           | (inl e, s') => (inl e, s')
           | (inr a, s') => k a s'
           end.
Definition py_get {S} : PyM S S := fun s => (inr s, s).
Definition py_modify {S} (f : S -> S) : PyM S unit := fun s => (inr tt, f s).
Definition py_lift {S A} (r : exc + A) : PyM S A := fun s => (r, s).

(** [try: body except Exception as e: handler(e)] *)
Definition py_try {S A} (body : PyM S A) (handler : exc -> PyM S A) : PyM S A :=
  fun s => match body s with
           | (inl e, s') => handler e s'
           | (inr a, s') => (inr a, s')
           end.

Notation "'let!' x ':=' m 'in' k" := (py_bind m (fun x => k))
  (at level 200, x name, m at level 100, k at level 200).

(** [d[k]] on a dict: [KeyError] when the key is absent. *)
Definition py_getitem {S V} (m : gmap string V) (k : string) : PyM S V :=
  match m !! k with
  | Some v => py_ret v
  | None => py_raise (KeyError k)
  end.

(* ================================================================== *)
(** ** [re.compile('{0}$'.format(db_suffix)).sub('', name)]

    The pattern is the suffix followed by [$].  For a suffix without
    regular-expression metacharacters (such as the default [_production])
    the pattern matches the literal suffix, and [$] (no MULTILINE flag)
    matches at the end of the string or just before a final newline.
    [re.sub] scans left to right and removes every non-overlapping match. *)

Definition newline : ascii := Ascii.ascii_of_nat 10.

(** Python's [$]: end of string, or just before a newline that ends it. *)
Definition at_end (r : string) : bool :=
  match r with
  | EmptyString => true
  | String c EmptyString => Ascii.eqb c newline
  | _ => false
  end.

Fixpoint drop_n (n : nat) (s : string) : string :=
  match n, s with
  | O, _ => s
  | S n', String _ s' => drop_n n' s'
  | S _, EmptyString => EmptyString
  end.

(** Does [pat$] match at the start of [rest]? *)
Definition dollar_match (pat rest : string) : bool :=
  String.prefix pat rest && at_end (drop_n (String.length pat) rest).

(** The scan of [re.sub] with an empty replacement, for a non-empty
    pattern: each step consumes at least one character, so [length name]
    steps suffice. *)
Fixpoint sub_scan (pat : string) (fuel : nat) (rest : string) : string :=
  match fuel with
  | O => rest
  | S f =>
      match rest with
      | EmptyString => EmptyString
      | String c rest' =>
          if dollar_match pat rest
          then sub_scan pat f (drop_n (String.length pat) rest)
          else String c (sub_scan pat f rest')
      end
  end.

(** An empty suffix gives the pattern [$]: its matches are empty and are
    replaced by the empty string, which leaves the name unchanged. *)
Definition re_sub_dollar (suffix name : string) : string :=
  if String.eqb suffix "" then name
  else sub_scan suffix (String.length name) name.

(* ================================================================== *)
(** ** [task_managers/postgresql.py]: class [Postgresql] *)

Section Postgresql.

(** The contents of one database, as seen by a transaction. *)
Context {DB : Type}.

(** A scrub routine receives a cursor of an open transaction.  It runs its
    statements, which change the transaction's view of the database, and
    either returns ([None]) or raises mid-way ([Some e]), in which case the
    statements it ran before raising are still in the transaction. *)
Definition routine : Type := DB -> option exc * DB.

Record Postgresql : Type := mkPostgresql {
  scrub_functions : gmap string routine;
  db_realnames : gmap string string;
  db_suffix : string;
  viable_tasks : option (gset string)
}.
(** [viable_tasks] is [list(set(...) & set(...))] in the source; it is
    only used for membership, so it is kept as the set itself. *)

(** The psycopg2 driver: [None] when the operation succeeds, [Some e] when
    it raises [e].  A failed commit leaves the database as it was. *)
Record Driver : Type := mkDriver {
  drv_connect : string -> option exc;
  drv_commit : string -> DB -> option exc;
  drv_rollback : string -> option exc
}.

(** The task manager together with the server it talks to: the committed
    contents of each database and the log of opened connections. *)
Record PgWorld : Type := mkPgWorld {
  pg : Postgresql;
  committed : string -> DB;
  connections : list string
}.

Context (driver : Driver).

Definition set_pg (p : Postgresql) (w : PgWorld) : PgWorld :=
  mkPgWorld p (committed w) (connections w).

Definition set_db_realnames (m : gmap string string) (p : Postgresql) : Postgresql :=
  mkPostgresql (scrub_functions p) m (db_suffix p) (viable_tasks p).

Definition set_viable_tasks (v : gset string) (p : Postgresql) : Postgresql :=
  mkPostgresql (scrub_functions p) (db_realnames p) (db_suffix p) (Some v).

(** A connection: its database and the open transaction's view of it. *)
Record Connection : Type := mkConnection {
  cnx_dbname : string;
  cnx_pending : DB
}.

(** [_get_connection(dbname)]: [psycopg2.connect(..., dbname=dbname)].
    The workspace instance has been provisioned by the constructor's
    discovery call, so [self.workspace.get_instance()] only returns the
    cached instance. *)
Definition _get_connection (dbname : string) : PyM PgWorld Connection :=
  fun w =>
    match drv_connect driver dbname with
    | Some e => (inl e, w)
    | None =>
        (inr (mkConnection dbname (committed w dbname)),
         mkPgWorld (pg w) (committed w) (connections w ++ [dbname]))
    end.

(** [SELECT datname FROM pg_database WHERE datname NOT IN ('template0',
    'rdsadmin', 'postgres', 'template1') AND datistemplate IS FALSE] over
    the rows [(datname, datistemplate)] of [pg_database]. *)
Definition pg_database_query (rows : list (string * bool)) : list string :=
  map fst (filter (fun r => (r.1 ∉ ["template0"; "rdsadmin"; "postgres"; "template1"])
                            ∧ (r.2 = false)) rows).

(** The loop [for database_name in available_dbs:
      self.db_realnames[r.sub('', database_name)] = database_name]. *)
Definition record_realnames (suffix : string) (available_dbs : list string)
    (m : gmap string string) : gmap string string :=
  fold_left (fun acc database_name =>
               <[re_sub_dollar suffix database_name := database_name]> acc)
            available_dbs m.

Definition _discover_available_dbs (rows : list (string * bool)) : PyM PgWorld unit :=
  let! _cnx := _get_connection "postgres" in
  let! w := py_get in
  py_modify (set_pg (set_db_realnames
    (record_realnames (db_suffix (pg w)) (pg_database_query rows)
       (db_realnames (pg w))) (pg w))).

(** [Postgresql.__init__(workspace, db_suffix)]; the source hard-codes the
    registry [{'email-alert-api': ..., 'publishing_api': ...}], here it is
    the argument [registry]. *)
Definition Postgresql_init (registry : gmap string routine) (suffix : string)
    (rows : list (string * bool)) : PyM PgWorld unit :=
  let! _ := py_modify (set_pg (mkPostgresql registry ∅ suffix None)) in
  _discover_available_dbs rows.

Definition get_viable_tasks : PyM PgWorld (gset string) :=
  let! w := py_get in
  match viable_tasks (pg w) with
  | Some v => py_ret v
  | None =>
      let v := dom (scrub_functions (pg w)) ∩ dom (db_realnames (pg w)) in
      let! _ := py_modify (set_pg (set_viable_tasks v (pg w))) in
      py_ret v
  end.

Definition commit_db (dbname : string) (v : DB) (w : PgWorld) : PgWorld :=
  mkPgWorld (pg w)
    (fun d => if String.eqb d dbname then v else committed w d)
    (connections w).

Definition run_task (task : string) : PyM PgWorld bool :=
  let! viable := get_viable_tasks in
  if decide (task ∉ viable) then py_ret false
  else
    let! w := py_get in
    let! dbname := py_getitem (db_realnames (pg w)) task in
    let! cnx := _get_connection dbname in
    py_try
      (let! f := py_getitem (scrub_functions (pg w)) task in
       let '(err, pending) := f (cnx_pending cnx) in
       match err with
       | Some e => py_raise e
       | None =>
           match drv_commit driver dbname pending with
           | Some e => py_raise e
           | None =>
               let! _ := py_modify (commit_db dbname pending) in
               py_ret true
           end
       end)
      (fun _e =>
         match drv_rollback driver dbname with
         | Some e' => py_raise e'
         | None => py_ret false
         end).

End Postgresql.

(* ================================================================== *)
(** ** [__init__.py]: RDS records as boto3 returns them *)

Record Endpoint : Type := mkEndpoint {
  Address : string;
  Port : Z
}.

Record VpcSecurityGroupMembership : Type := mkVpcSG {
  VpcSecurityGroupId : string;
  sg_Status : string
}.

(** An entry of [describe_db_instances()['DBInstances']].  [i_Endpoint] is
    [None] when the key ['Endpoint'] is absent; [PendingModifiedValues]
    is the list of keys of that dict. *)
Record DBInstance : Type := mkDBInstance {
  i_DBInstanceIdentifier : string;
  i_Endpoint : option Endpoint;
  DBInstanceStatus : string;
  PendingModifiedValues : list string;
  VpcSecurityGroups : list VpcSecurityGroupMembership;
  DBSubnetGroupName : string;
  MasterUsername : string
}.

(** An entry of [describe_db_snapshots()['DBSnapshots']].  The creation
    time is a [datetime] (here its timestamp), absent ([None]) while the
    snapshot is being created. *)
Record DBSnapshot : Type := mkDBSnapshot {
  DBSnapshotIdentifier : string;
  s_DBInstanceIdentifier : string;
  SnapshotCreateTime : option Z;
  s_Status : string;
  Engine : string
}.

(** Calls made to the RDS client and to the DNS resolver. *)
Inductive RdsCall : Type :=
| DescribeDBInstancesAll
| DescribeDBInstances (id : string)
| DescribeDBSnapshotsById (id : string)
| DescribeDBSnapshotsByInstance (id : string)
| DescribeDBSnapshotsShared
| RestoreDBInstanceFromDBSnapshot (id snap subnet_group : string)
| ModifyDBInstance (id : string) (security_groups : list string)
| DeleteDBInstance (id : string) (final_snapshot : option string)
| DeleteDBSnapshot (id : string)
| DnsQuery (hostname : string).

(** The RDS API as seen at time [t] (the value of [time.time()]): every
    call either answers or raises. *)
Record Rds : Type := mkRds {
  describe_db_instances_all : Z -> exc + list DBInstance;
  describe_db_instances : Z -> string -> exc + list DBInstance;
  describe_db_snapshots_by_id : Z -> string -> exc + list DBSnapshot;
  describe_db_snapshots_by_instance : Z -> string -> exc + list DBSnapshot;
  describe_db_snapshots_shared : Z -> exc + list DBSnapshot;
  restore_db_instance_from_db_snapshot : Z -> string -> string -> string -> option exc;
  modify_db_instance : Z -> string -> list string -> string -> option exc;
  delete_db_instance : Z -> string -> option string -> option exc;
  delete_db_snapshot : Z -> string -> option exc
}.

(** [dns.resolver.Resolver().query(hostname).canonical_name], as the list
    of labels of the absolute name (root label omitted). *)
Record Dns : Type := mkDns {
  dns_canonical_name : string -> exc + list string
}.

(** ** Sorting: [l.sort(key=lambda x: x.get('SnapshotCreateTime', 0), reverse=True)] *)

(** A sort key is either the default [0] or a [datetime]. *)
Inductive py_key : Type :=
| KInt (n : Z)
| KDatetime (t : Z).

(** Python's [<] on keys: comparing an [int] with a [datetime] raises
    [TypeError]. *)
Definition py_lt (a b : py_key) : exc + bool :=
  match a, b with
  | KInt x, KInt y => inr (x <? y)
  | KDatetime x, KDatetime y => inr (x <? y)
  | _, _ => inl TypeError
  end.

Definition snapshot_create_time_key (x : DBSnapshot) : py_key :=
  match SnapshotCreateTime x with
  | Some t => KDatetime t
  | None => KInt 0
  end.

(** Stable insertion: [x] goes before the first element greater than it. *)
Fixpoint insert_sorted {A} (key : A -> py_key) (x : A) (l : list A) : exc + list A :=
  match l with
  | [] => inr [x]
  | y :: ys =>
      match py_lt (key x) (key y) with
      | inl e => inl e
      | inr true => inr (x :: y :: ys)
      | inr false =>
          match insert_sorted key x ys with
          | inl e => inl e
          | inr r => inr (y :: r)
          end
      end
  end.

Fixpoint sort_into {A} (key : A -> py_key) (acc l : list A) : exc + list A :=
  match l with
  | [] => inr acc
  | x :: xs =>
      match insert_sorted key x acc with
      | inl e => inl e
      | inr acc' => sort_into key acc' xs
      end
  end.

(** [list.sort] is a stable comparison sort using [<]; [reverse=True]
    reverses the list, sorts it stably and reverses it back, so elements
    with equal keys keep their order.  Any correct comparison sort has to
    compare two elements that end up adjacent, so on a list mixing [int]
    and [datetime] keys every such sort raises [TypeError], as this
    insertion sort does. *)
Definition py_sort_reverse {A} (key : A -> py_key) (l : list A) : exc + list A :=
  match sort_into key [] (rev l) with
  | inl e => inl e
  | inr r => inr (rev r)
  end.

(** [l[0]] *)
Definition py_index0 {S A} (l : list A) : PyM S A :=
  match l with
  | x :: _ => py_ret x
  | [] => py_raise IndexError
  end.

(** [l[n:]] with Python's slice semantics (a negative [n] counts from the
    end). *)
Definition py_slice_from {A} (n : Z) (l : list A) : list A :=
  let len := Z.of_nat (length l) in
  let start := if n <? 0 then Z.max 0 (len + n) else Z.min n len in
  drop (Z.to_nat start) l.

(* ================================================================== *)
(** ** Class [RdsSnapshotFinder] *)

Record RdsSnapshotFinder : Type := mkFinder {
  hostname : option string;
  source_instance_identifier : option string;
  snapshot_identifier : option string;
  rds_endpoint_address : option string;
  source_instance : option DBInstance;
  snapshot : option DBSnapshot
}.

(** The finder, the wall clock and the log of external calls. *)
Record World : Type := mkWorld {
  finder : RdsSnapshotFinder;
  clock : Z;
  calls : list RdsCall
}.

Definition set_finder (f : RdsSnapshotFinder -> RdsSnapshotFinder) : PyM World unit :=
  py_modify (fun w => mkWorld (f (finder w)) (clock w) (calls w)).

Definition log_call (c : RdsCall) : PyM World unit :=
  py_modify (fun w => mkWorld (finder w) (clock w) (calls w ++ [c])).

Definition with_source_instance_identifier (x : string) (f : RdsSnapshotFinder) :=
  mkFinder (hostname f) (Some x) (snapshot_identifier f)
    (rds_endpoint_address f) (source_instance f) (snapshot f).
Definition with_snapshot_identifier (x : string) (f : RdsSnapshotFinder) :=
  mkFinder (hostname f) (source_instance_identifier f) (Some x)
    (rds_endpoint_address f) (source_instance f) (snapshot f).
Definition with_rds_endpoint_address (x : string) (f : RdsSnapshotFinder) :=
  mkFinder (hostname f) (source_instance_identifier f) (snapshot_identifier f)
    (Some x) (source_instance f) (snapshot f).
Definition with_source_instance (x : DBInstance) (f : RdsSnapshotFinder) :=
  mkFinder (hostname f) (source_instance_identifier f) (snapshot_identifier f)
    (rds_endpoint_address f) (Some x) (snapshot f).
Definition with_snapshot (x : DBSnapshot) (f : RdsSnapshotFinder) :=
  mkFinder (hostname f) (source_instance_identifier f) (snapshot_identifier f)
    (rds_endpoint_address f) (source_instance f) (Some x).

(** [RdsSnapshotFinder.__init__] *)
Definition RdsSnapshotFinder_init (hostname source_instance_identifier
    snapshot_identifier : option string) : exc + RdsSnapshotFinder :=
  match hostname, source_instance_identifier, snapshot_identifier with
  | None, None, None =>
      inl (PyException "One of hostname, source_instance_identifier, snapshot_identifier must be provided")
  | _, _, _ =>
      inr (mkFinder hostname source_instance_identifier snapshot_identifier
                    None None None)
  end.

(** [rds_domain = dns.name.from_text('rds.amazonaws.com.')] *)
Definition rds_domain : list string := ["rds"; "amazonaws"; "com"].

Definition ascii_lower (c : ascii) : ascii :=
  let n := Ascii.nat_of_ascii c in
  if (65 <=? n)%nat && (n <=? 90)%nat then Ascii.ascii_of_nat (n + 32) else c.

Fixpoint string_lower (s : string) : string :=
  match s with
  | EmptyString => EmptyString
  | String c s' => String (ascii_lower c) (string_lower s')
  end.

(** [Name.is_subdomain]: the labels of [d] end the labels of [n]; DNS
    labels compare case-insensitively. *)
Definition is_subdomain (n d : list string) : bool :=
  let ln := map string_lower n in
  let ld := map string_lower d in
  (length ld <=? length ln)%nat
  && bool_decide (drop (length ln - length ld) ln = ld).

(** [name.to_text().rstrip('.')] *)
Definition name_to_text (n : list string) : string := String.concat "." n.

Section RdsSnapshotFinder.

Context (rds : Rds) (dns : Dns).

Definition get_hostname : PyM World string :=
  let! w := py_get in
  match hostname (finder w) with
  | None => py_raise (PyException "No hostname provided")
  | Some h => py_ret h
  end.

Definition get_rds_endpoint_address : PyM World string :=
  let! w := py_get in
  match rds_endpoint_address (finder w) with
  | Some a => py_ret a
  | None =>
      let! h := get_hostname in
      let! _ := log_call (DnsQuery h) in
      let! cname := py_lift (dns_canonical_name dns h) in
      if negb (is_subdomain cname rds_domain)
      then py_raise (PyException (name_to_text cname ++ " is not a subdomain of RDS domain (rds.amazonaws.com.)"))
      else
        let! _ := set_finder (with_rds_endpoint_address (name_to_text cname)) in
        py_ret (name_to_text cname)
  end.

(** The [for instance in rds_instances['DBInstances']: ... break] loop of
    [get_source_instance]; [get_rds_endpoint_address()] is only evaluated
    for instances that have an endpoint ([and] short-circuits). *)
Fixpoint find_instance_by_endpoint (instances : list DBInstance) : PyM World unit :=
  match instances with
  | [] => py_ret tt
  | i :: rest =>
      match i_Endpoint i with
      | None => find_instance_by_endpoint rest
      | Some ep =>
          let! a := get_rds_endpoint_address in
          if String.eqb (Address ep) a
          then
            let! _ := set_finder (with_source_instance i) in
            set_finder (with_source_instance_identifier (i_DBInstanceIdentifier i))
          else find_instance_by_endpoint rest
      end
  end.

Definition get_source_instance : PyM World DBInstance :=
  let! w := py_get in
  match source_instance (finder w) with
  | Some i => py_ret i
  | None =>
      match source_instance_identifier (finder w) with
      | None =>
          let! _ := log_call DescribeDBInstancesAll in
          let! instances := py_lift (describe_db_instances_all rds (clock w)) in
          let! _ := find_instance_by_endpoint instances in
          let! w' := py_get in
          match source_instance (finder w') with
          | None =>
              let! a := get_rds_endpoint_address in
              py_raise (PyException ("Couldn't find an RDS instance matching endpoint address " ++ a))
          | Some i => py_ret i
          end
      | Some id =>
          let! _ := log_call (DescribeDBInstances id) in
          let! instances := py_lift (describe_db_instances rds (clock w) id) in
          let! i := py_index0 instances in
          let! _ := set_finder (with_source_instance i) in
          py_ret i
      end
  end.

Definition get_source_instance_identifier : PyM World string :=
  let! w := py_get in
  match source_instance_identifier (finder w) with
  | Some id => py_ret id
  | None =>
      let! i := get_source_instance in
      let! _ := set_finder (with_source_instance_identifier (i_DBInstanceIdentifier i)) in
      py_ret (i_DBInstanceIdentifier i)
  end.

Definition get_snapshot_identifier : PyM World string :=
  let! w := py_get in
  match snapshot_identifier (finder w) with
  | Some id => py_ret id
  | None =>
      let! source_instance_id := get_source_instance_identifier in
      let! _ := log_call (DescribeDBSnapshotsByInstance source_instance_id) in
      let! w' := py_get in
      let! snapshots := py_lift (describe_db_snapshots_by_instance rds (clock w') source_instance_id) in
      match snapshots with
      | [] => py_raise (PyException "No snapshots found")
      | _ =>
          let! sorted := py_lift (py_sort_reverse snapshot_create_time_key snapshots) in
          let! most_recent := py_index0 sorted in
          let! _ := set_finder (with_snapshot_identifier (DBSnapshotIdentifier most_recent)) in
          py_ret (DBSnapshotIdentifier most_recent)
      end
  end.

Definition get_snapshot : PyM World DBSnapshot :=
  let! w := py_get in
  match snapshot (finder w) with
  | Some s => py_ret s
  | None =>
      let! sid := get_snapshot_identifier in
      let! _ := log_call (DescribeDBSnapshotsById sid) in
      let! w' := py_get in
      let! snapshots := py_lift (describe_db_snapshots_by_id rds (clock w') sid) in
      match snapshots with
      | [] => py_raise (PyException ("Snapshot " ++ sid ++ " not found"))
      | s :: _ =>
          let! _ := set_finder (with_snapshot s) in
          let! _ := set_finder (with_source_instance_identifier (s_DBInstanceIdentifier s)) in
          py_ret s
      end
  end.

End RdsSnapshotFinder.

(* ================================================================== *)
(** ** Class [ScrubWorkspaceInstance] *)

(** [datetime.now()], as its calendar fields. *)
Record datetime : Type := mkDatetime {
  dt_year : nat; dt_month : nat; dt_day : nat; dt_hour : nat; dt_minute : nat
}.

Fixpoint decimal_digits (fuel n : nat) (acc : string) : string :=
  match fuel with
  | O => acc
  | S f =>
      let acc' := String (Ascii.ascii_of_nat (48 + n mod 10)) acc in
      if (n <? 10)%nat then acc' else decimal_digits f (n / 10) acc'
  end.

(** A decimal number padded with zeros to [width] digits ([%m], [%d], ...). *)
Definition zero_pad (width n : nat) : string :=
  let s := decimal_digits (S n) n "" in
  String.append (string_of_list_ascii (repeat "0"%char (width - String.length s))) s.

(** [timestamp.strftime("%Y-%m-%d-%H-%M")] *)
Definition strftime_Y_m_d_H_M (t : datetime) : string :=
  String.concat "-" [zero_pad 4 (dt_year t); zero_pad 2 (dt_month t);
                     zero_pad 2 (dt_day t); zero_pad 2 (dt_hour t);
                     zero_pad 2 (dt_minute t)].

(** ["{0:x}".format(n)] *)
Definition format_x (n : N) : string := drop_n 2 (HexString.of_N n).

(** The [security_groups] argument: a [str], a [list], or anything else
    (the default [None]). *)
Inductive SecurityGroupsArg : Type :=
| SGStr (s : string)
| SGList (l : list string)
| SGOther.

Record ScrubWorkspaceInstance : Type := mkWorkspace {
  timeout : Z;
  password : string;
  source_snapshot : DBSnapshot;
  instance_identifier : string;
  final_snapshot_identifier : string;
  ws_source_instance : DBInstance;
  instance : option DBInstance;
  deleted : bool;
  security_groups : list string
}.

(** A workspace object together with the world it lives in (the snapshot
    finder it holds, the clock and the call log). *)
Record WsWorld : Type := mkWsWorld {
  world : World;
  ws : ScrubWorkspaceInstance
}.

Definition lift_world {A} (m : PyM World A) : PyM WsWorld A :=
  fun s => let '(r, w') := m (world s) in (r, mkWsWorld w' (ws s)).

Definition set_instance (i : DBInstance) : PyM WsWorld unit :=
  py_modify (fun s => let x := ws s in
    mkWsWorld (world s)
      (mkWorkspace (timeout x) (password x) (source_snapshot x)
         (instance_identifier x) (final_snapshot_identifier x)
         (ws_source_instance x) (Some i) (deleted x) (security_groups x))).

Definition set_deleted : PyM WsWorld unit :=
  py_modify (fun s => let x := ws s in
    mkWsWorld (world s)
      (mkWorkspace (timeout x) (password x) (source_snapshot x)
         (instance_identifier x) (final_snapshot_identifier x)
         (ws_source_instance x) (instance x) true (security_groups x))).

Definition ws_log_call (c : RdsCall) : PyM WsWorld unit := lift_world (log_call c).

(** [time.time()] and [time.sleep(d)] *)
Definition time_time : PyM WsWorld Z := fun s => (inr (clock (world s)), s).
Definition time_sleep (d : Z) : PyM WsWorld unit :=
  py_modify (fun s => mkWsWorld
    (mkWorld (finder (world s)) (clock (world s) + d) (calls (world s))) (ws s)).

(** One iteration of a poll loop either returns from the method or goes
    on to [time.sleep(10)] and the next check of the deadline. *)
Inductive poll_step : Type := PollReturn | PollSleep.

(** [while time.time() <= max_end_time: <poll>] followed by [on_exit]
    (what the method does once the deadline has passed).  The fuel bounds
    the number of iterations; the polls do not move the clock, so
    [(max_end_time - now) / 10 + 2] iterations are never exhausted. *)
Fixpoint poll_loop (fuel : nat) (max_end_time : Z) (poll : PyM WsWorld poll_step)
    (on_exit : PyM WsWorld unit) : PyM WsWorld unit :=
  fun s =>
    match fuel with
    | O => on_exit s
    | S f =>
        if clock (world s) <=? max_end_time then
          match poll s with
          | (inl e, s') => (inl e, s')
          | (inr PollReturn, s') => (inr tt, s')
          | (inr PollSleep, s') =>
              let '(_, s'') := time_sleep 10 s' in
              poll_loop f max_end_time poll on_exit s''
          end
        else on_exit s
    end.

Definition while_before (max_end_time : Z) (poll : PyM WsWorld poll_step)
    (on_exit : PyM WsWorld unit) : PyM WsWorld unit :=
  fun s => poll_loop (Z.to_nat ((max_end_time - clock (world s)) / 10) + 2)
                     max_end_time poll on_exit s.

Section ScrubWorkspaceInstance.

Context (rds : Rds) (dns : Dns).
(** [hashlib.sha256(s.encode()).hexdigest()] *)
Context (sha256_hexdigest : string -> string).

(** [ScrubWorkspaceInstance.__init__(snapshot_finder, boto3_session,
    timeout, security_groups)], with [datetime.now()] = [now] and
    [random.getrandbits(41 * 4)] = [bits]. *)
Definition ScrubWorkspaceInstance_init (now : datetime) (bits : N)
    (timeout : Z) (security_groups : SecurityGroupsArg)
    : PyM World ScrubWorkspaceInstance :=
  let password := format_x bits in
  let! source_snapshot := get_snapshot rds dns in
  let instance_identifier :=
    ("scrubber-" ++ Engine source_snapshot ++ "-"
     ++ substring 0 12 (sha256_hexdigest (s_DBInstanceIdentifier source_snapshot)))%string in
  let final_snapshot_identifier :=
    ("scrubbed-" ++ s_DBInstanceIdentifier source_snapshot ++ "-"
     ++ strftime_Y_m_d_H_M now)%string in
  let! source_instance := get_source_instance rds dns in
  let groups :=
    match security_groups with
    | SGStr s => [s]
    | SGList l => l
    | SGOther =>
        map VpcSecurityGroupId
            (filter (fun sg => sg_Status sg = "active"%string)
                    (VpcSecurityGroups source_instance))
    end in
  py_ret (mkWorkspace timeout password source_snapshot instance_identifier
            final_snapshot_identifier source_instance None false groups).

(** The poll of [__create_instance]. *)
Definition poll_instance_available : PyM WsWorld poll_step :=
  let! s := py_get in
  let iid := instance_identifier (ws s) in
  let! _ := ws_log_call (DescribeDBInstances iid) in
  let! now := time_time in
  let! instances := py_lift (describe_db_instances rds now iid) in
  let! i := py_index0 instances in
  let! _ := set_instance i in
  if String.eqb (DBInstanceStatus i) "available" then py_ret PollReturn
  else py_ret PollSleep.

Definition __create_instance : PyM WsWorld unit :=
  let! source_snapshot_id := lift_world (get_snapshot_identifier rds dns) in
  let! s := py_get in
  let iid := instance_identifier (ws s) in
  let subnet_group_name := DBSubnetGroupName (ws_source_instance (ws s)) in
  let! _ := ws_log_call (RestoreDBInstanceFromDBSnapshot iid source_snapshot_id subnet_group_name) in
  let! now := time_time in
  let! _ := match restore_db_instance_from_db_snapshot rds now iid source_snapshot_id subnet_group_name with
            | Some e => py_raise e
            | None => py_ret tt
            end in
  let! now' := time_time in
  let max_end_time := now' + 60 * timeout (ws s) in
  while_before max_end_time poll_instance_available
    (py_raise (TimeoutError ("Timed out creating RDS instance " ++ iid))).

(** The poll of [__apply_instance_modifications]. *)
Definition poll_modifications_applied : PyM WsWorld poll_step :=
  let! s := py_get in
  let iid := instance_identifier (ws s) in
  let! _ := ws_log_call (DescribeDBInstances iid) in
  let! now := time_time in
  let! instances := py_lift (describe_db_instances rds now iid) in
  let! i := py_index0 instances in
  if (0 <? length (PendingModifiedValues i))%nat then py_ret PollSleep
  else py_ret PollReturn.

Definition __apply_instance_modifications : PyM WsWorld unit :=
  let! s := py_get in
  let iid := instance_identifier (ws s) in
  let! _ := ws_log_call (ModifyDBInstance iid (security_groups (ws s))) in
  let! now := time_time in
  let! _ := match modify_db_instance rds now iid (security_groups (ws s)) (password (ws s)) with
            | Some e => py_raise e
            | None => py_ret tt
            end in
  let! now' := time_time in
  let max_end_time := now' + 60 * timeout (ws s) in
  while_before max_end_time poll_modifications_applied
    (py_raise (TimeoutError ("Timed out applying changes to RDS instance " ++ iid))).

(** The body of the [try] in [__wait_for_final_snapshot]. *)
Definition poll_final_snapshot_body : PyM WsWorld poll_step :=
  let! s := py_get in
  let fid := final_snapshot_identifier (ws s) in
  let! _ := ws_log_call (DescribeDBSnapshotsById fid) in
  let! now := time_time in
  let! snapshots := py_lift (describe_db_snapshots_by_id rds now fid) in
  let! snap := py_index0 snapshots in
  if String.eqb (s_Status snap) "available" then py_ret PollReturn
  else py_ret PollSleep.

(** [except Exception as e: if e.response['Error']['Code'] ==
    'DBSnapshotNotFound': time.sleep(10) else: raise(e)]; an exception
    other than a botocore [ClientError] has no [response] attribute. *)
Definition final_snapshot_handler (e : exc) : PyM WsWorld poll_step :=
  match e with
  | ClientError code =>
      if String.eqb code "DBSnapshotNotFound" then py_ret PollSleep
      else py_raise e
  | _ => py_raise AttributeError
  end.

Definition poll_final_snapshot : PyM WsWorld poll_step :=
  py_try poll_final_snapshot_body final_snapshot_handler.

(** The source has no statement after this loop: once the deadline has
    passed the method returns [None]. *)
Definition __wait_for_final_snapshot : PyM WsWorld unit :=
  let! s := py_get in
  let! now := time_time in
  let max_end_time := now + 60 * timeout (ws s) in
  while_before max_end_time poll_final_snapshot (py_ret tt).

Definition get_instance : PyM WsWorld (option DBInstance) :=
  let! s := py_get in
  match instance (ws s) with
  | Some i => py_ret (Some i)
  | None =>
      let! _ := __create_instance in
      let! _ := __apply_instance_modifications in
      let! s' := py_get in
      py_ret (instance (ws s'))
  end.

(** [i['Endpoint']] on the value of [get_instance()]: subscripting [None]
    raises [TypeError], an instance without an endpoint [KeyError]. *)
Definition get_endpoint : PyM WsWorld Endpoint :=
  let! i := get_instance in
  match i with
  | None => py_raise TypeError
  | Some i =>
      match i_Endpoint i with
      | None => py_raise (KeyError "Endpoint")
      | Some e => py_ret e
      end
  end.

Definition get_username : PyM WsWorld string :=
  let! i := get_instance in
  match i with
  | None => py_raise TypeError
  | Some i => py_ret (MasterUsername i)
  end.

Definition get_password : PyM WsWorld string :=
  let! s := py_get in
  py_ret (password (ws s)).

Definition cleanup (create_final_snapshot : bool) : PyM WsWorld unit :=
  let! s := py_get in
  let x := ws s in
  if bool_decide (instance x ≠ None) && negb (deleted x) then
    if create_final_snapshot then
      let! _ := ws_log_call (DeleteDBInstance (instance_identifier x)
                               (Some (final_snapshot_identifier x))) in
      let! now := time_time in
      let! _ := match delete_db_instance rds now (instance_identifier x)
                        (Some (final_snapshot_identifier x)) with
                | Some e => py_raise e
                | None => py_ret tt
                end in
      let! _ := set_deleted in
      __wait_for_final_snapshot
    else
      let! _ := ws_log_call (DeleteDBInstance (instance_identifier x) None) in
      let! now := time_time in
      let! _ := match delete_db_instance rds now (instance_identifier x) None with
                | Some e => py_raise e
                | None => py_ret tt
                end in
      set_deleted
  else py_ret tt.

Fixpoint delete_snapshots (snaps : list DBSnapshot) : PyM WsWorld unit :=
  match snaps with
  | [] => py_ret tt
  | snap :: rest =>
      let! _ := ws_log_call (DeleteDBSnapshot (DBSnapshotIdentifier snap)) in
      let! now := time_time in
      let! _ := match delete_db_snapshot rds now (DBSnapshotIdentifier snap) with
                | Some e => py_raise e
                | None => py_ret tt
                end in
      delete_snapshots rest
  end.

Definition delete_old_snapshots (number_to_keep : Z) : PyM WsWorld unit :=
  let! s := py_get in
  let iid := instance_identifier (ws s) in
  let! _ := ws_log_call DescribeDBSnapshotsShared in
  let! now := time_time in
  let! response := py_lift (describe_db_snapshots_shared rds now) in
  let snapshots := filter (fun x => s_DBInstanceIdentifier x = iid) response in
  let! sorted := py_lift (py_sort_reverse snapshot_create_time_key snapshots) in
  delete_snapshots (py_slice_from number_to_keep sorted).

End ScrubWorkspaceInstance.

(* ================================================================== *)
(** * Properties *)

(** ** Helper predicates on strings (used in statements only) *)

(** Does [s] end with a newline? *)
Fixpoint ends_with_newline (s : string) : bool :=
  match s with
  | EmptyString => false
  | String c EmptyString => Ascii.eqb c newline
  | String _ r => ends_with_newline r
  end.

(** Does [s] end with [suffix]? *)
Fixpoint ends_with (suffix s : string) : bool :=
  String.eqb s suffix ||
  match s with
  | EmptyString => false
  | String _ r => ends_with suffix r
  end.

(** The logical names of a list of discovered databases. *)
Definition logical_names (suffix : string) (dbs : list string) : gset string :=
  list_to_set (map (re_sub_dollar suffix) dbs).

(** ** Lemmas on the model of [re.sub] *)

Lemma prefix_split (s x : string) :
  String.prefix s x = true -> x = (s ++ drop_n (String.length s) x)%string.
Proof.
  revert x; induction s as [|a s IH]; intros x H; [reflexivity|].
  destruct x as [|b x]; simpl in H; [discriminate|].
  destruct (ascii_dec a b) as [->|]; [|discriminate].
  change (String b x = String b (s ++ drop_n (String.length s) x)%string).
  f_equal. now apply IH.
Qed.

Lemma prefix_self (s : string) : String.prefix s s = true.
Proof.
  induction s as [|a s IH]; [reflexivity|]. simpl.
  destruct (ascii_dec a a); [exact IH|congruence].
Qed.

Lemma drop_n_self (s : string) : drop_n (String.length s) s = EmptyString.
Proof. induction s; simpl; auto. Qed.

Lemma at_end_cases (r : string) :
  at_end r = true -> r = EmptyString \/ r = String newline EmptyString.
Proof.
  destruct r as [|c [|c' r]]; simpl; intros H; auto; try discriminate.
  apply Ascii.eqb_eq in H. subst. auto.
Qed.

Lemma app_nil_str (y : string) : (EmptyString ++ y)%string = y.
Proof. reflexivity. Qed.

Lemma app_cons_str (c : ascii) (x y : string) :
  (String c x ++ y)%string = String c (x ++ y)%string.
Proof. reflexivity. Qed.

Lemma ends_with_newline_app (x : string) :
  ends_with_newline (x ++ String newline EmptyString) = true.
Proof.
  induction x as [|c x IH]; [reflexivity|].
  rewrite app_cons_str. simpl.
  destruct (x ++ String newline EmptyString)%string eqn:E.
  - destruct x; discriminate.
  - exact IH.
Qed.

Lemma ends_with_newline_cons (c : ascii) (x : string) :
  x <> EmptyString -> ends_with_newline (String c x) = ends_with_newline x.
Proof. destruct x; [congruence|reflexivity]. Qed.

Lemma length_app_str (x y : string) :
  String.length (x ++ y) = (String.length x + String.length y)%nat.
Proof. induction x as [|c x IH]; [reflexivity|]. rewrite app_cons_str. simpl. lia. Qed.

Lemma app_empty_r_str (x : string) : (x ++ EmptyString)%string = x.
Proof. induction x as [|c x IH]; [reflexivity|]. rewrite app_cons_str. congruence. Qed.

(** A match of [pat$] in a string without a final newline consumes the
    whole rest of the string. *)
Lemma dollar_match_whole (pat x : string) :
  ends_with_newline x = false -> dollar_match pat x = true -> x = pat.
Proof.
  unfold dollar_match. intros Hnl H.
  apply andb_prop in H as [Hp He].
  pose proof (prefix_split _ _ Hp) as Hx.
  destruct (at_end_cases _ He) as [E|E]; rewrite E in Hx.
  - rewrite Hx. now rewrite app_empty_r_str.
  - rewrite Hx, ends_with_newline_app in Hnl. discriminate.
Qed.

Lemma ends_with_cons (pat : string) (c : ascii) (r : string) :
  ends_with pat (String c r) = String.eqb (String c r) pat || ends_with pat r.
Proof. reflexivity. Qed.

Lemma sub_scan_not_ending (pat : string) (fuel : nat) (x : string) :
  pat <> EmptyString -> (String.length x <= fuel)%nat ->
  ends_with_newline x = false -> ends_with pat x = false ->
  sub_scan pat fuel x = x.
Proof.
  intros Hpat. revert fuel; induction x as [|c r IH]; intros fuel Hf Hnl Hend.
  - destruct fuel; reflexivity.
  - destruct fuel as [|f]; [simpl in Hf; lia|]. simpl.
    destruct (dollar_match pat (String c r)) eqn:Hm.
    + apply dollar_match_whole in Hm; [|exact Hnl]. subst.
      rewrite ends_with_cons, Stdlib.Strings.String.eqb_refl in Hend. discriminate.
    + rewrite ends_with_cons in Hend. apply orb_false_iff in Hend as [_ Hend].
      f_equal. apply IH; [simpl in Hf; lia| |exact Hend].
      destruct r; [reflexivity|]. rewrite <- Hnl. symmetry.
      apply ends_with_newline_cons. discriminate.
Qed.

Lemma sub_scan_ending (pat : string) (fuel : nat) (p : string) :
  pat <> EmptyString -> (String.length (p ++ pat) <= fuel)%nat ->
  ends_with_newline (p ++ pat) = false ->
  sub_scan pat fuel (p ++ pat) = p.
Proof.
  intros Hpat. revert fuel; induction p as [|c p IH]; intros fuel Hf Hnl.
  - destruct pat as [|a r]; [congruence|].
    destruct fuel as [|f]; [simpl in Hf; lia|].
    rewrite app_nil_str. simpl sub_scan.
    unfold dollar_match. rewrite prefix_self. simpl. rewrite drop_n_self.
    destruct f; reflexivity.
  - destruct fuel as [|f]; [simpl in Hf; lia|].
    rewrite app_cons_str. simpl sub_scan.
    destruct (dollar_match pat (String c (p ++ pat))) eqn:Hm.
    + apply dollar_match_whole in Hm; [|exact Hnl].
      apply (f_equal String.length) in Hm. simpl in Hm.
      rewrite length_app_str in Hm. lia.
    + f_equal. apply IH; [simpl in Hf; lia|].
      rewrite <- Hnl. symmetry. apply ends_with_newline_cons.
      destruct p, pat; rewrite ?app_cons_str, ?app_nil_str; congruence.
Qed.

(** ** Lemmas on [record_realnames] *)

Lemma record_realnames_dom (suffix : string) (dbs : list string)
    (m : gmap string string) :
  dom (record_realnames suffix dbs m) = dom m ∪ logical_names suffix dbs.
Proof.
  unfold logical_names, record_realnames. revert m.
  induction dbs as [|d dbs IH]; intros m; simpl.
  - set_solver.
  - rewrite IH, dom_insert_L. set_solver.
Qed.

Lemma record_realnames_other (suffix : string) (dbs : list string)
    (m : gmap string string) (k : string) :
  (forall x, x ∈ dbs -> re_sub_dollar suffix x <> k) ->
  record_realnames suffix dbs m !! k = m !! k.
Proof.
  unfold record_realnames. revert m.
  induction dbs as [|d dbs IH]; intros m Hk; simpl; [reflexivity|].
  rewrite IH by (intros x Hx; apply Hk; set_solver).
  apply lookup_insert_ne. apply Hk. set_solver.
Qed.

Lemma record_realnames_lookup_inv (suffix : string) (dbs : list string)
    (m : gmap string string) (k v : string) :
  record_realnames suffix dbs m !! k = Some v ->
  m !! k = Some v \/ (v ∈ dbs /\ re_sub_dollar suffix v = k).
Proof.
  unfold record_realnames. revert m.
  induction dbs as [|d dbs IH]; intros m H; simpl in H; [auto|].
  destruct (IH _ H) as [H1|[H1 H2]]; [|right; split; [set_solver|exact H2]].
  rewrite lookup_insert in H1. case_decide as Hd.
  - inversion H1; subst. right. split; [set_solver|reflexivity].
  - left. exact H1.
Qed.

(** ** Lemmas on the task manager *)

Definition viable_set {DB} (p : @Postgresql DB) : gset string :=
  dom (scrub_functions p) ∩ dom (db_realnames p).

Lemma Postgresql_init_pg {DB} (drv : @Driver DB) registry suffix rows w w' :
  Postgresql_init drv registry suffix rows w = (inr tt, w') ->
  pg w' = mkPostgresql registry
            (record_realnames suffix (pg_database_query rows) ∅) suffix None.
Proof.
  unfold Postgresql_init, _discover_available_dbs, _get_connection,
    py_bind, py_modify, py_get, set_pg, set_db_realnames. simpl.
  destruct (drv_connect drv "postgres"); intros H; inversion H; reflexivity.
Qed.

Lemma get_viable_tasks_fresh {DB} (w : @PgWorld DB) :
  viable_tasks (pg w) = None ->
  fst (get_viable_tasks w) = inr (viable_set (pg w)).
Proof.
  intros H. unfold get_viable_tasks, py_bind, py_get, py_modify, py_ret.
  simpl. rewrite H. reflexivity.
Qed.

Lemma pg_database_query_app rows1 rows2 :
  pg_database_query (rows1 ++ rows2) = pg_database_query rows1 ++ pg_database_query rows2.
Proof. unfold pg_database_query. now rewrite filter_app, map_app. Qed.

Lemma logical_names_app suffix dbs1 dbs2 :
  logical_names suffix (dbs1 ++ dbs2) = logical_names suffix dbs1 ∪ logical_names suffix dbs2.
Proof. unfold logical_names. now rewrite map_app, list_to_set_app_L. Qed.

Lemma logical_names_one_row suffix d :
  logical_names suffix (pg_database_query [(d, false)]) ⊆ {[re_sub_dollar suffix d]}.
Proof.
  unfold pg_database_query, logical_names. rewrite filter_cons.
  case_decide; simpl; set_solver.
Qed.

(* ================================================================== *)
(** ** C10: suffix stripping and the logical-name map *)

(** C10 (amended).  For a suffix without regular-expression
    metacharacters, and names that do not end in a newline (Python's [$]
    also matches before a final newline): a discovered name [p ++ suffix]
    has logical name [p]; a name not ending in the suffix is its own
    logical name; the map recorded by discovery sends the logical name of
    a discovered database [d] to [d] when no database discovered after it
    has the same logical name; and every entry of the map sends a logical
    name to a discovered database having that logical name. *)
Theorem discover_available_dbs_logical_names {DB} (drv : @Driver DB)
    (registry : gmap string routine) (suffix p name d : string)
    (rows : list (string * bool)) (l1 l2 : list string) (w w' : PgWorld) :
  Postgresql_init drv registry suffix rows w = (inr tt, w') ->
  pg_database_query rows = l1 ++ d :: l2 ->
  ends_with_newline (p ++ suffix) = false ->
  ends_with_newline name = false ->
  ends_with suffix name = false ->
  (forall x, x ∈ l2 -> re_sub_dollar suffix x <> re_sub_dollar suffix d) ->
  re_sub_dollar suffix (p ++ suffix) = p /\
  re_sub_dollar suffix name = name /\
  db_realnames (pg w') !! re_sub_dollar suffix d = Some d /\
  (forall k v, db_realnames (pg w') !! k = Some v ->
     v ∈ pg_database_query rows /\ re_sub_dollar suffix v = k).
Proof.
  intros Hinit Hq Hnl1 Hnl2 Hend Hl2.
  rewrite (Postgresql_init_pg _ _ _ _ _ _ Hinit). simpl. rewrite Hq.
  unfold re_sub_dollar at 1 2.
  destruct (String.eqb suffix "") eqn:Hs.
  - apply Stdlib.Strings.String.eqb_eq in Hs. subst suffix.
    split; [apply app_empty_r_str|].
    split; [reflexivity|].
    split.
    + unfold record_realnames. rewrite fold_left_app. simpl.
      change (record_realnames "" l2 (<[re_sub_dollar "" d := d]>
               (record_realnames "" l1 ∅)) !! re_sub_dollar "" d = Some d).
      rewrite record_realnames_other by exact Hl2.
      apply lookup_insert_eq.
    + intros k v Hkv.
      destruct (record_realnames_lookup_inv _ _ _ _ _ Hkv) as [H|H];
        [rewrite lookup_empty in H; discriminate|exact H].
  - apply Stdlib.Strings.String.eqb_neq in Hs.
    split; [apply sub_scan_ending; auto|].
    split; [apply sub_scan_not_ending; auto|].
    split.
    + unfold record_realnames. rewrite fold_left_app. simpl.
      change (record_realnames suffix l2 (<[re_sub_dollar suffix d := d]>
               (record_realnames suffix l1 ∅)) !! re_sub_dollar suffix d = Some d).
      rewrite record_realnames_other by exact Hl2.
      apply lookup_insert_eq.
    + intros k v Hkv.
      destruct (record_realnames_lookup_inv _ _ _ _ _ Hkv) as [H|H];
        [rewrite lookup_empty in H; discriminate|exact H].
Qed.

(** A driver on which connecting, committing and rolling back succeed. *)
Definition ok_driver {DB} : @Driver DB :=
  mkDriver (fun _ => None) (fun _ _ => None) (fun _ => None).

(** A task manager before [__init__] has run. *)
Definition blank_world : @PgWorld unit :=
  mkPgWorld (mkPostgresql ∅ ∅ "" None) (fun _ => tt) [].

Definition rows_example : list (string * bool) :=
  [("publishing_api_production", false); ("email-alert-api", false);
   ("postgres", false); ("template0", true)].

Lemma discover_available_dbs_logical_names_witness :
  pg_database_query rows_example = ["publishing_api_production"; "email-alert-api"] /\
  re_sub_dollar "_production" ("publishing_api" ++ "_production") = "publishing_api" /\
  re_sub_dollar "_production" "email-alert-api" = "email-alert-api" /\
  db_realnames (pg (snd (Postgresql_init ok_driver ∅ "_production" rows_example blank_world)))
    !! re_sub_dollar "_production" "publishing_api_production"
  = Some "publishing_api_production"%string /\
  (forall k v, db_realnames (pg (snd (Postgresql_init ok_driver ∅ "_production"
                                        rows_example blank_world))) !! k = Some v ->
     v ∈ pg_database_query rows_example /\ re_sub_dollar "_production" v = k).
Proof.
  split; [reflexivity|].
  apply (discover_available_dbs_logical_names ok_driver ∅ "_production"
           "publishing_api" "email-alert-api" "publishing_api_production"
           rows_example [] ["email-alert-api"] blank_world).
  - vm_compute. reflexivity.
  - reflexivity.
  - vm_compute. reflexivity.
  - vm_compute. reflexivity.
  - vm_compute. reflexivity.
  - intros x Hx. apply list_elem_of_singleton in Hx. subst x.
    vm_compute. discriminate.
Defined.

(** C10 does not hold as stated: when both [foo] and [foo_production] are
    discovered, both have the logical name [foo], and the map sends [foo]
    to [foo_production] only, not back to the discovered name [foo]. *)
Lemma discover_available_dbs_collision :
  re_sub_dollar "_production" "foo" = "foo" /\
  re_sub_dollar "_production" "foo_production" = "foo" /\
  db_realnames (pg (snd (Postgresql_init ok_driver ∅ "_production"
                           [("foo", false); ("foo_production", false)] blank_world)))
    !! re_sub_dollar "_production" "foo"
  = Some "foo_production"%string.
Proof. vm_compute. repeat split. Qed.

Lemma intersection_extra_name (reg L1 L2 Ld : gset string) (x : string) :
  Ld ⊆ {[x]} -> x ∉ reg -> reg ∩ (L1 ∪ (Ld ∪ L2)) = reg ∩ (L1 ∪ L2).
Proof. intros. set_solver. Qed.

Lemma intersection_extra_key (reg L : gset string) (k : string) :
  k ∉ L -> ({[k]} ∪ reg) ∩ L = reg ∩ L.
Proof. intros. set_solver. Qed.

Lemma viable_after_discovery {DB} (w' : @PgWorld DB) reg suffix rows :
  pg w' = mkPostgresql reg (record_realnames suffix (pg_database_query rows) ∅)
            suffix None ->
  fst (get_viable_tasks w')
  = inr (dom reg ∩ logical_names suffix (pg_database_query rows)).
Proof.
  intros Hp. rewrite get_viable_tasks_fresh by (rewrite Hp; reflexivity).
  unfold viable_set. rewrite Hp. simpl. rewrite record_realnames_dom, dom_empty_L.
  f_equal. set_solver.
Qed.

(* ================================================================== *)
(** ** C4: the viable task set *)

(** C4.  After discovery, [get_viable_tasks()] returns the intersection
    of the registry's task names with the logical names of the discovered
    databases, a subset of both; discovering one more database whose
    logical name is not a registry key, or registering one more task with
    no matching discovered database, gives the same viable set. *)
Theorem viable_tasks_intersection {DB} (drv : @Driver DB)
    (registry : gmap string routine) (suffix d k : string) (f : routine)
    (rows1 rows2 : list (string * bool)) (w w1 w2 w3 : PgWorld) :
  Postgresql_init drv registry suffix (rows1 ++ rows2) w = (inr tt, w1) ->
  Postgresql_init drv registry suffix (rows1 ++ (d, false) :: rows2) w = (inr tt, w2) ->
  Postgresql_init drv (<[k := f]> registry) suffix (rows1 ++ rows2) w = (inr tt, w3) ->
  re_sub_dollar suffix d ∉ dom registry ->
  k ∉ logical_names suffix (pg_database_query (rows1 ++ rows2)) ->
  fst (get_viable_tasks w1)
    = inr (dom registry ∩ logical_names suffix (pg_database_query (rows1 ++ rows2))) /\
  (forall t, fst (get_viable_tasks w1) = inr t ->
     t ⊆ dom registry /\ t ⊆ logical_names suffix (pg_database_query (rows1 ++ rows2))) /\
  fst (get_viable_tasks w2) = fst (get_viable_tasks w1) /\
  fst (get_viable_tasks w3) = fst (get_viable_tasks w1).
Proof.
  intros H1 H2 H3 Hd Hk.
  pose proof (Postgresql_init_pg _ _ _ _ _ _ H1) as P1.
  pose proof (Postgresql_init_pg _ _ _ _ _ _ H2) as P2.
  pose proof (Postgresql_init_pg _ _ _ _ _ _ H3) as P3.
  clear H1 H2 H3.
  rewrite (viable_after_discovery _ _ _ _ P1), (viable_after_discovery _ _ _ _ P2),
    (viable_after_discovery _ _ _ _ P3).
  clear P1 P2 P3.
  split; [reflexivity|].
  split; [intros t Ht; injection Ht as <-; split; set_solver|].
  rewrite !pg_database_query_app, !logical_names_app.
  change ((d, false) :: rows2) with ([(d, false)] ++ rows2).
  rewrite !pg_database_query_app, !logical_names_app.
  rewrite !pg_database_query_app, !logical_names_app in Hk.
  split; f_equal.
  - apply intersection_extra_name with (re_sub_dollar suffix d); [|exact Hd].
    apply logical_names_one_row.
  - rewrite dom_insert_L. now apply intersection_extra_key.
Qed.

Definition registry_example : gmap string (@routine unit) :=
  {[ "publishing_api" := fun db => (None, db) ]}.

Definition runner_w1 : @PgWorld unit :=
  snd (Postgresql_init ok_driver registry_example "_production" rows_example blank_world).
Definition runner_w2 : @PgWorld unit :=
  snd (Postgresql_init ok_driver registry_example "_production"
         (rows_example ++ [("search_production", false)]) blank_world).
Definition runner_w3 : @PgWorld unit :=
  snd (Postgresql_init ok_driver
         (<[ "content-store" := fun db => (None, db) ]> registry_example)
         "_production" rows_example blank_world).

Lemma viable_tasks_intersection_witness :
  fst (get_viable_tasks runner_w1)
    = inr (dom registry_example ∩ logical_names "_production"
                                    (pg_database_query (rows_example ++ []))) /\
  (forall t, fst (get_viable_tasks runner_w1) = inr t ->
     t ⊆ dom registry_example /\
     t ⊆ logical_names "_production" (pg_database_query (rows_example ++ []))) /\
  fst (get_viable_tasks runner_w2) = fst (get_viable_tasks runner_w1) /\
  fst (get_viable_tasks runner_w3) = fst (get_viable_tasks runner_w1).
Proof.
  apply (viable_tasks_intersection ok_driver registry_example "_production"
           "search_production" "content-store" (fun db => (None, db))
           rows_example [] blank_world runner_w1 runner_w2 runner_w3).
  - rewrite app_nil_r. reflexivity.
  - reflexivity.
  - rewrite app_nil_r. reflexivity.
  - unfold registry_example. rewrite dom_singleton_L, not_elem_of_singleton.
    vm_compute. discriminate.
  - rewrite app_nil_r. unfold logical_names.
    replace (map (re_sub_dollar "_production") (pg_database_query rows_example))
      with ["publishing_api"; "email-alert-api"]%string by (vm_compute; reflexivity).
    set_solver.
Defined.

(* ================================================================== *)
(** ** C1: running one scrub task *)

Lemma get_viable_tasks_frame {DB} (w w0 : @PgWorld DB) r :
  get_viable_tasks w = (r, w0) ->
  committed w0 = committed w /\ connections w0 = connections w.
Proof.
  unfold get_viable_tasks, py_bind, py_get, py_modify, py_ret, set_pg. simpl.
  destruct (viable_tasks (pg w)); intros H; inversion H; subst; auto.
Qed.

Lemma py_getitem_some {S V} (m : gmap string V) (k : string) (v : V) :
  m !! k = Some v -> @py_getitem S V m k = py_ret v.
Proof. intros H. unfold py_getitem. rewrite H. reflexivity. Qed.

(** The world once [_get_connection(dbname)] has opened a connection. *)
Definition connected {DB} (w : @PgWorld DB) (d : string) : @PgWorld DB :=
  mkPgWorld (pg w) (committed w) (connections w ++ [d]).

(** C1 (amended).  Let [get_viable_tasks()] return [V].  A task not in [V]
    gives [False] with no connection opened and no database changed.  For
    a viable task with real database [d] and routine [f]: if connecting
    raises, [run_task] raises that error; otherwise, if [f] completes and
    the commit succeeds, [run_task] commits [f]'s changes and returns
    [True]; if [f] raises or the commit raises, the transaction is rolled
    back (no committed database changes) and, when the rollback itself
    succeeds, [run_task] returns [False], while a failing rollback raises
    its error. *)
Theorem run_task_outcomes {DB} (drv : @Driver DB) (w w0 : PgWorld)
    (V : gset string) (t : string) :
  get_viable_tasks w = (inr V, w0) ->
  (t ∉ V ->
     run_task drv t w = (inr false, w0) /\
     connections w0 = connections w /\ committed w0 = committed w) /\
  (forall d f, t ∈ V ->
     db_realnames (pg w0) !! t = Some d ->
     scrub_functions (pg w0) !! t = Some f ->
     (forall e, drv_connect drv d = Some e -> run_task drv t w = (inl e, w0)) /\
     (drv_connect drv d = None ->
        (forall p, f (committed w d) = (None, p) -> drv_commit drv d p = None ->
           run_task drv t w = (inr true, commit_db d p (connected w0 d))) /\
        (forall r p, f (committed w d) = (r, p) ->
           r <> None \/ drv_commit drv d p <> None ->
           drv_rollback drv d = None ->
           run_task drv t w = (inr false, connected w0 d)) /\
        (forall r p e', f (committed w d) = (r, p) ->
           r <> None \/ drv_commit drv d p <> None ->
           drv_rollback drv d = Some e' ->
           run_task drv t w = (inl e', connected w0 d)))).
Proof.
  intros Hv.
  destruct (get_viable_tasks_frame _ _ _ Hv) as [Hc Hn].
  unfold run_task. cbv beta iota delta [py_bind]. rewrite Hv. cbv beta iota.
  split.
  - intros Ht. destruct (decide (t ∉ V)); [|contradiction]. auto.
  - intros d f Ht Hd Hf. destruct (decide (t ∉ V)); [contradiction|].
    cbv beta iota delta [py_bind py_get].
    rewrite (py_getitem_some _ _ _ Hd), (py_getitem_some _ _ _ Hf).
    cbv beta iota delta [py_bind py_ret _get_connection].
    split.
    + intros e He. rewrite He. reflexivity.
    + intros Hconn. rewrite Hconn.
      cbv beta iota delta [py_bind py_ret py_try cnx_pending].
      cbv beta iota delta [py_bind py_ret]. unfold connected.
      split; [|split].
      * intros p Hp Hcm. rewrite <- Hc in Hp. rewrite Hp, Hcm. reflexivity.
      * intros r p Hp Hfail Hrb. rewrite <- Hc in Hp. rewrite Hp.
        destruct r as [e|]; [unfold py_raise; rewrite Hrb; reflexivity|].
        destruct Hfail as [Hr|Hcm]; [congruence|].
        destruct (drv_commit drv d p); [|congruence].
        unfold py_raise. rewrite Hrb. reflexivity.
      * intros r p e' Hp Hfail Hrb. rewrite <- Hc in Hp. rewrite Hp.
        destruct r as [e|]; [unfold py_raise; rewrite Hrb; reflexivity|].
        destruct Hfail as [Hr|Hcm]; [congruence|].
        destruct (drv_commit drv d p); [|congruence].
        unfold py_raise. rewrite Hrb. reflexivity.
Qed.

(** A task manager over databases whose contents are a number: each
    committed scrub increments it. *)
Definition nat_world : @PgWorld nat :=
  mkPgWorld (mkPostgresql ∅ ∅ "" None) (fun _ => 0%nat) [].

Definition scrub_publishing_api : @routine nat := fun n => (None, S n).
Definition scrub_email_alert_api : @routine nat :=
  fun n => (Some (DriverError "relation does not exist"), S n).

Definition registry_nat : gmap string (@routine nat) :=
  {[ "publishing_api" := scrub_publishing_api;
     "email-alert-api" := scrub_email_alert_api ]}.

Definition nat_world_ready (drv : @Driver nat) : @PgWorld nat :=
  snd (Postgresql_init drv registry_nat "_production" rows_example nat_world).

(** A server on which every commit fails with a serialization error. *)
Definition serialization_driver : @Driver nat :=
  mkDriver (fun _ => None)
    (fun _ _ => Some (DriverError "could not serialize access"))
    (fun _ => None).

Lemma run_task_outcomes_witness :
  run_task ok_driver "publishing_api" (nat_world_ready ok_driver)
  = (inr true, commit_db "publishing_api_production" 1%nat
                 (connected (snd (get_viable_tasks (nat_world_ready ok_driver)))
                    "publishing_api_production")).
Proof.
  destruct (run_task_outcomes ok_driver (nat_world_ready ok_driver)
              (snd (get_viable_tasks (nat_world_ready ok_driver)))
              (viable_set (pg (nat_world_ready ok_driver))) "publishing_api")
    as [_ H]; [vm_compute; reflexivity|].
  destruct (H "publishing_api_production" scrub_publishing_api) as [_ H2].
  - apply (bool_decide_unpack _). vm_compute. exact I.
  - vm_compute. reflexivity.
  - vm_compute. reflexivity.
  - destruct (H2 eq_refl) as [H3 _]. apply H3; reflexivity.
Defined.

(** C1 does not hold as stated: [publishing_api] is viable and its routine
    completes without raising, but the commit raises, so [run_task] rolls
    back and returns [False]; nothing is committed. *)
Lemma run_task_commit_failure :
  (forall n, fst (scrub_publishing_api n) = None) /\
  match fst (get_viable_tasks (nat_world_ready serialization_driver)) with
  | inr v => bool_decide ("publishing_api" ∈ v)
  | inl _ => false
  end = true /\
  fst (run_task serialization_driver "publishing_api"
         (nat_world_ready serialization_driver)) = inr false /\
  committed (snd (run_task serialization_driver "publishing_api"
                    (nat_world_ready serialization_driver))) "publishing_api_production"
  = 0%nat.
Proof. split; [reflexivity|]. vm_compute. repeat split. Qed.

(* ================================================================== *)
(** ** C9: [cleanup] *)

(** A method that leaves the workspace object's attributes alone (it may
    log calls, move the clock or update the finder). *)
Definition keeps_ws {A} (m : PyM WsWorld A) : Prop :=
  forall s, ws (snd (m s)) = ws s.

Create HintDb keeps_ws.

Lemma keeps_ws_ret {A} (a : A) : keeps_ws (py_ret a).
Proof. intros s. reflexivity. Qed.

Lemma keeps_ws_raise {A} e : keeps_ws (@py_raise _ A e).
Proof. intros s. reflexivity. Qed.

Lemma keeps_ws_get : keeps_ws py_get.
Proof. intros s. reflexivity. Qed.

Lemma keeps_ws_lift {A} (r : exc + A) : keeps_ws (py_lift r).
Proof. intros s. reflexivity. Qed.

Lemma keeps_ws_lift_world {A} (m : PyM World A) : keeps_ws (lift_world m).
Proof. intros s. unfold lift_world. destruct (m (world s)). reflexivity. Qed.

Lemma keeps_ws_log_call c : keeps_ws (ws_log_call c).
Proof. apply keeps_ws_lift_world. Qed.

Lemma keeps_ws_time : keeps_ws time_time.
Proof. intros s. reflexivity. Qed.

Lemma keeps_ws_sleep d : keeps_ws (time_sleep d).
Proof. intros s. reflexivity. Qed.

Lemma keeps_ws_index0 {A} (l : list A) : keeps_ws (py_index0 l).
Proof. intros s. destruct l; reflexivity. Qed.

Lemma keeps_ws_bind {A B} (m : PyM WsWorld A) (k : A -> PyM WsWorld B) :
  keeps_ws m -> (forall a, keeps_ws (k a)) -> keeps_ws (py_bind m k).
Proof.
  intros Hm Hk s. unfold py_bind. specialize (Hm s).
  destruct (m s) as [[e|a] s'] eqn:E; simpl in *; [exact Hm|].
  rewrite Hk. exact Hm.
Qed.

Lemma keeps_ws_try {A} (m : PyM WsWorld A) (h : exc -> PyM WsWorld A) :
  keeps_ws m -> (forall e, keeps_ws (h e)) -> keeps_ws (py_try m h).
Proof.
  intros Hm Hh s. unfold py_try. specialize (Hm s).
  destruct (m s) as [[e|a] s'] eqn:E; simpl in *; [|exact Hm].
  rewrite Hh. exact Hm.
Qed.

#[local] Hint Resolve keeps_ws_ret keeps_ws_raise keeps_ws_get keeps_ws_lift
  keeps_ws_lift_world keeps_ws_log_call keeps_ws_time keeps_ws_sleep
  keeps_ws_index0 : keeps_ws.

Ltac solve_keeps_ws :=
  repeat first
    [ progress (eauto with keeps_ws)
    | apply keeps_ws_bind; [|intros ?; cbv zeta]
    | apply keeps_ws_try; [|intros ?]
    | match goal with
      | |- keeps_ws (if ?b then _ else _) => destruct b
      | |- keeps_ws (match ?x with _ => _ end) => destruct x
      end ].

Lemma keeps_ws_poll_loop fuel max_end_time poll on_exit :
  keeps_ws poll -> keeps_ws on_exit ->
  keeps_ws (poll_loop fuel max_end_time poll on_exit).
Proof.
  intros Hp He. induction fuel as [|f IH]; intros s; simpl; [apply He|].
  destruct (clock (world s) <=? max_end_time); [|apply He].
  specialize (Hp s). destruct (poll s) as [[e|[|]] s'] eqn:E; simpl in *;
    [exact Hp|exact Hp|].
  rewrite IH. exact Hp.
Qed.

Lemma keeps_ws_while_before max_end_time poll on_exit :
  keeps_ws poll -> keeps_ws on_exit ->
  keeps_ws (while_before max_end_time poll on_exit).
Proof. intros Hp He s. apply keeps_ws_poll_loop; assumption. Qed.

Lemma keeps_ws_wait_for_final_snapshot rds : keeps_ws (__wait_for_final_snapshot rds).
Proof.
  unfold __wait_for_final_snapshot. solve_keeps_ws.
  apply keeps_ws_while_before; [|solve_keeps_ws].
  unfold poll_final_snapshot, poll_final_snapshot_body, final_snapshot_handler.
  solve_keeps_ws.
Qed.

Lemma cleanup_guard_false (x : ScrubWorkspaceInstance) :
  bool_decide (instance x ≠ None) && negb (deleted x) = false <->
  instance x = None \/ deleted x = true.
Proof.
  destruct (instance x), (deleted x); simpl; split; intros H; auto;
    try discriminate; destruct H; discriminate.
Qed.

Lemma cleanup_finished rds b s s' :
  cleanup rds b s = (inr tt, s') ->
  instance (ws s') = None \/ deleted (ws s') = true.
Proof.
  unfold cleanup. cbv beta iota delta [py_bind py_get].
  destruct (bool_decide (instance (ws s) ≠ None) && negb (deleted (ws s))) eqn:G.
  - destruct b;
      cbv beta iota delta [py_bind py_ret py_raise ws_log_call lift_world log_call
                           py_modify time_time set_deleted];
      destruct (delete_db_instance _ _ _ _); try discriminate.
    + intros H. right.
      match type of H with
      | __wait_for_final_snapshot _ ?t = _ =>
          pose proof (keeps_ws_wait_for_final_snapshot rds t) as K
      end.
      rewrite H in K. simpl in K. rewrite K. reflexivity.
    + intros H. injection H as <-. right. reflexivity.
  - intros H. injection H as <-. apply cleanup_guard_false. exact G.
Qed.

(** C9.  [cleanup] does nothing when the workspace has no instance or has
    already been deleted: it returns with the state (workspace, finder,
    clock and call log) unchanged.  Hence after a [cleanup] that has
    returned, a second [cleanup], with either argument, does nothing. *)
Theorem cleanup_idempotent (rds : Rds) (b1 b2 : bool) (s s' : WsWorld) :
  ((instance (ws s) = None \/ deleted (ws s) = true) ->
     cleanup rds b1 s = (inr tt, s)) /\
  (cleanup rds b1 s = (inr tt, s') -> cleanup rds b2 s' = (inr tt, s')).
Proof.
  assert (Noop : forall b t, instance (ws t) = None \/ deleted (ws t) = true ->
                   cleanup rds b t = (inr tt, t)).
  { intros b t Ht. apply cleanup_guard_false in Ht.
    unfold cleanup. cbv beta iota delta [py_bind py_get]. rewrite Ht. reflexivity. }
  split; [apply Noop|].
  intros H. apply Noop. exact (cleanup_finished rds b1 s s' H).
Qed.

(** A source database, its snapshot and an RDS account holding them. *)
Definition snap_example : DBSnapshot :=
  mkDBSnapshot "snap-1" "prod-db" (Some 100) "available" "postgres".

Definition endpoint_example : Endpoint :=
  mkEndpoint "prod-db.abc123.eu-west-1.rds.amazonaws.com" 5432.

Definition inst_example : DBInstance :=
  mkDBInstance "prod-db" (Some endpoint_example) "available" []
    [mkVpcSG "sg-1" "active"; mkVpcSG "sg-2" "inactive"] "subnet-a" "aws_db_admin".

Definition rds_example : Rds :=
  mkRds (fun _ => inr [inst_example])
    (fun _ _ => inr [inst_example])
    (fun _ _ => inr [snap_example])
    (fun _ _ => inr [snap_example])
    (fun _ => inr [snap_example])
    (fun _ _ _ _ => None) (fun _ _ _ _ => None)
    (fun _ _ _ => None) (fun _ _ => None).

Definition finder_example : RdsSnapshotFinder :=
  mkFinder None None (Some "snap-1") None None None.

Definition world_example : World := mkWorld finder_example 1000 [].

(** A provisioned workspace that has not been deleted. *)
Definition ws_example : WsWorld :=
  mkWsWorld world_example
    (mkWorkspace 90 "5f3a" snap_example "scrubber-postgres-0123456789ab"
       "scrubbed-prod-db-2026-10-15-09-30" inst_example (Some inst_example)
       false ["sg-1"]).

Lemma cleanup_idempotent_witness :
  fst (cleanup rds_example true ws_example) = inr tt /\
  calls (world (snd (cleanup rds_example true ws_example))) <> [] /\
  cleanup rds_example false (snd (cleanup rds_example true ws_example))
  = (inr tt, snd (cleanup rds_example true ws_example)).
Proof.
  split; [vm_compute; reflexivity|].
  split; [vm_compute; discriminate|].
  apply (proj2 (cleanup_idempotent rds_example true false ws_example
                  (snd (cleanup rds_example true ws_example)))).
  vm_compute. reflexivity.
Defined.

(* ================================================================== *)
(** ** C7: the workspace identifier *)

Lemma ScrubWorkspaceInstance_init_identifier rds dns sha256_hexdigest now bits
    timeout sg w x w' :
  ScrubWorkspaceInstance_init rds dns sha256_hexdigest now bits timeout sg w
  = (inr x, w') ->
  instance_identifier x
  = ("scrubber-" ++ Engine (source_snapshot x) ++ "-"
     ++ substring 0 12 (sha256_hexdigest (s_DBInstanceIdentifier (source_snapshot x))))%string.
Proof.
  unfold ScrubWorkspaceInstance_init. cbv beta iota delta [py_bind].
  destruct (get_snapshot rds dns w) as [[e|snap] w1]; [discriminate|].
  destruct (get_source_instance rds dns w1) as [[e|i] w2]; [discriminate|].
  intros H. injection H as <- _. reflexivity.
Qed.

(** C7.  The workspace identifier depends only on the engine and the
    source-instance identifier of the snapshot the constructor resolves:
    two successful constructions, against any RDS accounts, DNS answers,
    finder states and clocks, with any timestamps, passwords, timeouts and
    security groups, whose snapshots agree on these two fields give the
    same [instance_identifier]. *)
Theorem instance_identifier_pure sha256_hexdigest
    (rds1 rds2 : Rds) (dns1 dns2 : Dns) (now1 now2 : datetime) (bits1 bits2 : N)
    (timeout1 timeout2 : Z) (sg1 sg2 : SecurityGroupsArg)
    (w1 w2 w1' w2' : World) (x1 x2 : ScrubWorkspaceInstance) :
  ScrubWorkspaceInstance_init rds1 dns1 sha256_hexdigest now1 bits1 timeout1 sg1 w1
  = (inr x1, w1') ->
  ScrubWorkspaceInstance_init rds2 dns2 sha256_hexdigest now2 bits2 timeout2 sg2 w2
  = (inr x2, w2') ->
  Engine (source_snapshot x1) = Engine (source_snapshot x2) ->
  s_DBInstanceIdentifier (source_snapshot x1) = s_DBInstanceIdentifier (source_snapshot x2) ->
  instance_identifier x1 = instance_identifier x2.
Proof.
  intros H1 H2 He Hi.
  rewrite (ScrubWorkspaceInstance_init_identifier _ _ _ _ _ _ _ _ _ _ H1),
    (ScrubWorkspaceInstance_init_identifier _ _ _ _ _ _ _ _ _ _ H2), He, Hi.
  reflexivity.
Qed.

(** A stand-in for [hashlib.sha256(s).hexdigest()] on the example inputs. *)
Definition sha256_example (s : string) : string :=
  if String.eqb s "prod-db"
  then "9f86d081884c7d659a2feaa0c55ad015a3bf4f1b2b0b822cd15d6c15b0f00a08"
  else "e3b0c44298fc1c149afbf4c8996fb92427ae41e4649b934ca495991b7852b855".

(** The same source database reached through a snapshot identifier and
    through a source-instance identifier, at other times and with other
    parameters. *)
Definition finder_by_instance : RdsSnapshotFinder :=
  mkFinder None (Some "prod-db") None None None None.

(** A resolver that knows no names. *)
Definition dns_none : Dns := mkDns (fun _ => inl (PyException "NXDOMAIN")).

Definition init_example1 :=
  ScrubWorkspaceInstance_init rds_example dns_none
    sha256_example (mkDatetime 2026 10 15 9 30) 12345 90 SGOther world_example.

Definition init_example2 :=
  ScrubWorkspaceInstance_init rds_example dns_none
    sha256_example (mkDatetime 2027 1 2 3 4) 999 30 (SGStr "sg-9")
    (mkWorld finder_by_instance 5000 []).

Lemma instance_identifier_pure_witness :
  exists x1 x2,
    fst init_example1 = inr x1 /\ fst init_example2 = inr x2 /\
    final_snapshot_identifier x1 <> final_snapshot_identifier x2 /\
    instance_identifier x1 = instance_identifier x2.
Proof.
  destruct init_example1 as [r1 w1'] eqn:E1.
  destruct init_example2 as [r2 w2'] eqn:E2.
  assert (R1 : r1 = fst init_example1) by (rewrite E1; reflexivity).
  assert (R2 : r2 = fst init_example2) by (rewrite E2; reflexivity).
  vm_compute in R1, R2. subst r1 r2.
  eexists. eexists. split; [reflexivity|]. split; [reflexivity|].
  split; [vm_compute; discriminate|].
  apply (instance_identifier_pure sha256_example rds_example rds_example dns_none dns_none
           (mkDatetime 2026 10 15 9 30) (mkDatetime 2027 1 2 3 4) 12345 999 90 30
           SGOther (SGStr "sg-9") world_example (mkWorld finder_by_instance 5000 [])
           w1' w2' _ _ E1 E2); reflexivity.
Defined.

(* ================================================================== *)
(** ** C3: the source-instance identifier of a finder built from a
    snapshot identifier *)

(** The finder built from a snapshot identifier only, in a world. *)
Definition fresh_world (sid : string) (clock0 : Z) : World :=
  match RdsSnapshotFinder_init None None (Some sid) with
  | inr f => mkWorld f clock0 []
  | inl _ => mkWorld finder_example clock0 []
  end.

(** On a finder with neither a hostname nor a resolved endpoint, the
    search through the listed instances ends at the first instance with an
    endpoint, raising "No hostname provided", and changes nothing. *)
Lemma find_instance_by_endpoint_no_hostname (dns : Dns) (L : list DBInstance) (w : World) :
  hostname (finder w) = None -> rds_endpoint_address (finder w) = None ->
  find_instance_by_endpoint dns L w = (inr tt, w) \/
  find_instance_by_endpoint dns L w = (inl (PyException "No hostname provided"), w).
Proof.
  intros Hh Ha. induction L as [|i L IH]; simpl; [left; reflexivity|].
  destruct (i_Endpoint i) as [ep|]; [|exact IH].
  right. unfold get_rds_endpoint_address, get_hostname.
  cbv beta iota delta [py_bind py_get py_raise]. rewrite Ha, Hh. reflexivity.
Qed.

(** C3 (amended).  For a finder that has not fetched its snapshot yet and
    knows the snapshot identifier [sid], when the provider reports that
    [sid] belongs to instance [I]: [get_snapshot()] makes exactly one
    provider call (describing [sid]), and afterwards
    [get_source_instance_identifier()] returns [I] with no provider call
    and no change of state.  Called instead on the finder freshly built
    from [sid] alone, before [get_snapshot()], with the same provider,
    [get_source_instance_identifier()] does not use the snapshot's owner:
    its one provider call is the unfiltered enumeration of instances, and
    it raises (the enumeration's error, or "No hostname provided") with
    the finder unchanged. *)
Theorem source_instance_identifier_after_get_snapshot (rds : Rds) (dns : Dns)
    (w : World) (sid : string) (snap : DBSnapshot) (rest : list DBSnapshot) :
  snapshot (finder w) = None ->
  snapshot_identifier (finder w) = Some sid ->
  describe_db_snapshots_by_id rds (clock w) sid = inr (snap :: rest) ->
  (exists w1,
     get_snapshot rds dns w = (inr snap, w1) /\
     calls w1 = calls w ++ [DescribeDBSnapshotsById sid] /\
     get_source_instance_identifier rds dns w1 = (inr (s_DBInstanceIdentifier snap), w1)) /\
  get_source_instance_identifier rds dns (fresh_world sid (clock w))
  = (inl (match describe_db_instances_all rds (clock w) with
          | inl e => e
          | inr _ => PyException "No hostname provided"
          end),
     mkWorld (finder (fresh_world sid (clock w))) (clock w) [DescribeDBInstancesAll]).
Proof.
  intros Hs Hsid Hd. split.
  - unfold get_snapshot, get_snapshot_identifier.
    cbv beta iota delta [py_bind py_get py_ret log_call py_modify py_lift].
    rewrite Hs, Hsid. cbv beta iota zeta. cbn [clock finder calls]. rewrite Hd.
    eexists. split; [reflexivity|]. split; [reflexivity|].
    reflexivity.
  - unfold get_source_instance_identifier, get_source_instance, fresh_world, RdsSnapshotFinder_init.
    cbv beta iota zeta delta [py_bind py_get py_ret py_raise log_call py_modify py_lift].
    cbn [finder clock calls source_instance source_instance_identifier app].
    destruct (describe_db_instances_all rds (clock w)) as [e|L]; [reflexivity|].
    set (w0 := mkWorld (mkFinder None None (Some sid) None None None) (clock w)
                 [DescribeDBInstancesAll]).
    destruct (find_instance_by_endpoint_no_hostname dns L w0 eq_refl eq_refl) as [E|E];
      rewrite E; [|reflexivity].
    unfold get_rds_endpoint_address, get_hostname.
    cbv beta iota delta [py_bind py_get py_raise]. reflexivity.
Qed.

(** Two calls in sequence: the state [get_snapshot()] leaves is the one
    [get_source_instance_identifier()] starts from. *)
Definition snapshot_then_identifier (rds : Rds) (dns : Dns) : PyM World string :=
  let! _ := get_snapshot rds dns in
  get_source_instance_identifier rds dns.

Lemma source_instance_identifier_after_get_snapshot_witness :
  (exists w1,
     get_snapshot rds_example dns_none (fresh_world "snap-1" 1000) = (inr snap_example, w1) /\
     calls w1 = [] ++ [DescribeDBSnapshotsById "snap-1"] /\
     get_source_instance_identifier rds_example dns_none w1 = (inr "prod-db"%string, w1)) /\
  snapshot_then_identifier rds_example dns_none (fresh_world "snap-1" 1000)
  = (inr "prod-db"%string,
     mkWorld (mkFinder None (Some "prod-db") (Some "snap-1") None None (Some snap_example))
       1000 [DescribeDBSnapshotsById "snap-1"]) /\
  get_source_instance_identifier rds_example dns_none (fresh_world "snap-1" 1000)
  = (inl (PyException "No hostname provided"),
     mkWorld (finder (fresh_world "snap-1" 1000)) 1000 [DescribeDBInstancesAll]).
Proof.
  destruct (source_instance_identifier_after_get_snapshot rds_example dns_none
              (fresh_world "snap-1" 1000) "snap-1" snap_example [] eq_refl eq_refl eq_refl)
    as [H1 H2].
  split; [exact H1|]. split; [vm_compute; reflexivity|]. exact H2.
Defined.

(** C3 does not hold as stated: on the fresh finder, calling
    [get_source_instance_identifier()] first enumerates all instances
    ([describe_db_instances()] with no filter) and then fails, since the
    finder has no hostname to match endpoints against; it does not use the
    snapshot's owner. *)
Lemma source_instance_identifier_fresh_enumerates :
  get_source_instance_identifier rds_example dns_none (fresh_world "snap-1" 1000)
  = (inl (PyException "No hostname provided"),
     mkWorld finder_example 1000 [DescribeDBInstancesAll]).
Proof. vm_compute. reflexivity. Qed.

(* ================================================================== *)
(** ** C8: what [get_snapshot] does to the source-instance identifier *)

(** C8 (amended).  When the finder already holds its snapshot,
    [get_snapshot()] returns it and changes nothing.  Otherwise, when it
    returns a snapshot [s], it has set the source-instance identifier to
    [s]'s owning instance, whatever identifier the finder had before, and
    cached [s]. *)
Theorem get_snapshot_sets_source_instance_identifier (rds : Rds) (dns : Dns)
    (w w1 : World) (s : DBSnapshot) :
  (snapshot (finder w) = Some s -> get_snapshot rds dns w = (inr s, w)) /\
  (snapshot (finder w) = None -> get_snapshot rds dns w = (inr s, w1) ->
     source_instance_identifier (finder w1) = Some (s_DBInstanceIdentifier s) /\
     snapshot (finder w1) = Some s).
Proof.
  split.
  - intros Hs. unfold get_snapshot. cbv beta iota delta [py_bind py_get].
    rewrite Hs. reflexivity.
  - intros Hs. unfold get_snapshot. cbv beta iota delta [py_bind py_get].
    rewrite Hs.
    destruct (get_snapshot_identifier rds dns w) as [[e|sid] w'];
      [discriminate|].
    cbv beta iota zeta delta [py_bind py_get py_lift log_call py_modify py_raise
                              py_ret set_finder].
    cbn [clock finder calls].
    destruct (describe_db_snapshots_by_id rds (clock w') sid) as [e|[|s0 rest]];
      try discriminate.
    intros H. injection H as <- <-. simpl. auto.
Qed.

Definition finder_known_source : RdsSnapshotFinder :=
  mkFinder None (Some "staging-db") (Some "snap-1") None None None.

Lemma get_snapshot_sets_source_instance_identifier_witness :
  source_instance_identifier
    (finder (snd (get_snapshot rds_example dns_none (mkWorld finder_example 1000 []))))
  = Some "prod-db"%string /\
  snapshot
    (finder (snd (get_snapshot rds_example dns_none (mkWorld finder_example 1000 []))))
  = Some snap_example.
Proof.
  apply (proj2 (get_snapshot_sets_source_instance_identifier rds_example dns_none
                  (mkWorld finder_example 1000 [])
                  (snd (get_snapshot rds_example dns_none (mkWorld finder_example 1000 [])))
                  snap_example)); vm_compute; reflexivity.
Defined.

(** C8 does not hold as stated: a finder that already knows the source
    instance ["staging-db"] and whose snapshot ["snap-1"] belongs to
    ["prod-db"] has its identifier overwritten by [get_snapshot()]. *)
Lemma get_snapshot_overwrites_known_identifier :
  source_instance_identifier finder_known_source = Some "staging-db"%string /\
  source_instance_identifier
    (finder (snd (get_snapshot rds_example dns_none (mkWorld finder_known_source 1000 []))))
  = Some "prod-db"%string.
Proof. split; [reflexivity|]. vm_compute. reflexivity. Qed.

(* ================================================================== *)
(** ** The snapshot sort on snapshots that all have a creation time *)

(** The creation time, for a snapshot that has one. *)
Definition ctime (x : DBSnapshot) : Z :=
  match SnapshotCreateTime x with
  | Some t => t
  | None => 0
  end.

Definition has_ctime (x : DBSnapshot) : Prop := SnapshotCreateTime x <> None.

(** [insert_sorted] once every comparison is between [datetime]s. *)
Fixpoint ins_by_ctime (x : DBSnapshot) (acc : list DBSnapshot) : list DBSnapshot :=
  match acc with
  | [] => [x]
  | y :: ys => if ctime x <? ctime y then x :: y :: ys else y :: ins_by_ctime x ys
  end.

Definition sort_by_ctime (acc l : list DBSnapshot) : list DBSnapshot :=
  fold_left (fun acc x => ins_by_ctime x acc) l acc.

Lemma key_has_ctime x :
  has_ctime x -> snapshot_create_time_key x = KDatetime (ctime x).
Proof.
  unfold has_ctime, snapshot_create_time_key, ctime.
  destruct (SnapshotCreateTime x); congruence.
Qed.

Lemma ins_by_ctime_perm x acc : ins_by_ctime x acc ≡ₚ x :: acc.
Proof.
  induction acc as [|y ys IH]; simpl; [reflexivity|].
  destruct (ctime x <? ctime y); [reflexivity|].
  rewrite IH. constructor.
Qed.

Lemma sort_by_ctime_perm acc l : sort_by_ctime acc l ≡ₚ l ++ acc.
Proof.
  revert acc. induction l as [|x l IH]; intros acc; simpl; [reflexivity|].
  unfold sort_by_ctime in *. simpl. rewrite IH, ins_by_ctime_perm.
  symmetry. apply Permutation_middle.
Qed.

Lemma insert_sorted_timed x acc :
  has_ctime x -> Forall has_ctime acc ->
  insert_sorted snapshot_create_time_key x acc = inr (ins_by_ctime x acc).
Proof.
  intros Hx Hacc. induction Hacc as [|y ys Hy Hys IH]; simpl; [reflexivity|].
  rewrite (key_has_ctime x Hx), (key_has_ctime y Hy). simpl.
  destruct (ctime x <? ctime y); [reflexivity|]. rewrite IH. reflexivity.
Qed.

Lemma sort_into_timed acc l :
  Forall has_ctime acc -> Forall has_ctime l ->
  sort_into snapshot_create_time_key acc l = inr (sort_by_ctime acc l).
Proof.
  revert acc. induction l as [|x l IH]; intros acc Hacc Hl; simpl; [reflexivity|].
  apply Forall_cons in Hl as [Hx Hl].
  rewrite insert_sorted_timed by assumption. apply IH; [|exact Hl].
  rewrite ins_by_ctime_perm. constructor; assumption.
Qed.

Lemma elem_of_rev {A} (x : A) l : x ∈ rev l <-> x ∈ l.
Proof. rewrite !list_elem_of_In. symmetry. apply in_rev. Qed.

Lemma py_sort_reverse_timed l :
  Forall has_ctime l ->
  py_sort_reverse snapshot_create_time_key l = inr (rev (sort_by_ctime [] (rev l))).
Proof.
  intros Hl. unfold py_sort_reverse. rewrite sort_into_timed; [reflexivity|constructor|].
  apply Forall_forall. intros y Hy. apply (proj1 (elem_of_rev _ _)) in Hy.
  exact (proj1 (Forall_forall _ _) Hl y Hy).
Qed.

(** Inserting an element no earlier than all others appends it. *)
Lemma ins_by_ctime_append x acc :
  Forall (fun y => ctime y <= ctime x) acc -> ins_by_ctime x acc = acc ++ [x].
Proof.
  induction 1 as [|y ys Hy Hys IH]; simpl; [reflexivity|].
  destruct (ctime x <? ctime y) eqn:E; [apply Z.ltb_lt in E; lia|].
  rewrite IH. reflexivity.
Qed.

(** Inserting an element earlier than the last one keeps the last one. *)
Lemma ins_by_ctime_before_last x r m :
  ctime x < ctime m -> exists r', ins_by_ctime x (r ++ [m]) = r' ++ [m].
Proof.
  intros Hlt. induction r as [|y ys IH]; simpl.
  - exists [x]. destruct (ctime x <? ctime m) eqn:E; [reflexivity|].
    apply Z.ltb_ge in E. lia.
  - destruct (ctime x <? ctime y).
    + exists (x :: y :: ys). reflexivity.
    + destruct IH as [r' Hr']. exists (y :: r'). rewrite Hr'. reflexivity.
Qed.

Lemma ins_by_ctime_sorted x acc :
  StronglySorted (fun a b => ctime a <= ctime b) acc ->
  StronglySorted (fun a b => ctime a <= ctime b) (ins_by_ctime x acc).
Proof.
  induction acc as [|y ys IH]; intros Hs; simpl.
  - repeat constructor.
  - apply StronglySorted_cons in Hs as [Hy Hys].
    destruct (ctime x <? ctime y) eqn:E.
    + apply Z.ltb_lt in E. apply StronglySorted_cons. split; [|constructor; assumption].
      constructor; [lia|]. eapply Forall_impl; [exact Hy|]. simpl. intros z Hz. lia.
    + apply Z.ltb_ge in E. apply StronglySorted_cons. split; [|apply IH; exact Hys].
      rewrite ins_by_ctime_perm. constructor; [lia|exact Hy].
Qed.

Lemma sort_by_ctime_sorted acc l :
  StronglySorted (fun a b => ctime a <= ctime b) acc ->
  StronglySorted (fun a b => ctime a <= ctime b) (sort_by_ctime acc l).
Proof.
  revert acc. induction l as [|x l IH]; intros acc Hs; [exact Hs|].
  apply IH. apply ins_by_ctime_sorted. exact Hs.
Qed.

(** The element [sort(..., reverse=True)] puts first is the first element,
    in the list's order, with the latest creation time. *)
Lemma sort_by_ctime_first_max l :
  l <> [] -> Forall has_ctime l ->
  exists l1 x l2,
    l = l1 ++ x :: l2 /\
    Forall (fun y => ctime y < ctime x) l1 /\
    Forall (fun y => ctime y <= ctime x) l2 /\
    last (sort_by_ctime [] (rev l)) = Some x.
Proof.
  intros Hne _. induction l as [|y l IH]; [congruence|].
  destruct l as [|z l].
  - exists [], y, []. repeat split; constructor.
  - destruct IH as (l1 & x & l2 & Hl & H1 & H2 & Hlast); [discriminate|].
    assert (Hall : Forall (fun v => ctime v <= ctime x) (sort_by_ctime [] (rev (z :: l)))).
    { apply Forall_forall. intros v Hv.
      rewrite sort_by_ctime_perm, app_nil_r in Hv. apply (proj1 (elem_of_rev _ _)) in Hv.
      rewrite Hl in Hv. apply elem_of_app in Hv as [Hv|Hv].
      - pose proof (proj1 (Forall_forall _ _) H1 v Hv). simpl in *. lia.
      - apply elem_of_cons in Hv as [->|Hv]; [lia|].
        exact (proj1 (Forall_forall _ _) H2 v Hv). }
    assert (Hstep : sort_by_ctime [] (rev (y :: z :: l))
                    = ins_by_ctime y (sort_by_ctime [] (rev (z :: l)))).
    { change (rev (y :: z :: l)) with (rev (z :: l) ++ [y]).
      unfold sort_by_ctime. rewrite fold_left_app. reflexivity. }
    destruct (Z_le_gt_dec (ctime x) (ctime y)) as [Hxy|Hxy].
    + exists [], y, (z :: l). split; [reflexivity|]. split; [constructor|].
      split.
      * rewrite Hl. apply Forall_app. split.
        -- eapply Forall_impl; [exact H1|]. simpl. intros v Hv. lia.
        -- constructor; [lia|]. eapply Forall_impl; [exact H2|]. simpl. intros v Hv. lia.
      * rewrite Hstep, ins_by_ctime_append.
        -- apply last_snoc.
        -- eapply Forall_impl; [exact Hall|]. simpl. intros v Hv. lia.
    + exists (y :: l1), x, l2. split; [rewrite Hl; reflexivity|].
      split; [constructor; [lia|exact H1]|]. split; [exact H2|].
      apply last_Some in Hlast as [r Hr].
      rewrite Hstep, Hr.
      destruct (ins_by_ctime_before_last y r x) as [r' Hr']; [lia|].
      rewrite Hr'. apply last_snoc.
Qed.

(* ================================================================== *)
(** ** C5: choosing the most recent snapshot *)

Definition snap_old : DBSnapshot :=
  mkDBSnapshot "snap-0" "prod-db" (Some 50) "available" "postgres".
Definition snap_pending : DBSnapshot :=
  mkDBSnapshot "snap-2" "prod-db" None "creating" "postgres".

(** An account whose instance [prod-db] has the given snapshots. *)
Definition rds_with_snapshots (snaps : list DBSnapshot) : Rds :=
  mkRds (fun _ => inr [inst_example])
    (fun _ _ => inr [inst_example])
    (fun _ id => inr (filter (fun x => DBSnapshotIdentifier x = id) snaps))
    (fun _ id => inr (filter (fun x => s_DBInstanceIdentifier x = id) snaps))
    (fun _ => inr snaps)
    (fun _ _ _ _ => None) (fun _ _ _ _ => None)
    (fun _ _ _ => None) (fun _ _ => None).

Definition finder_by_instance_world : World := mkWorld finder_by_instance 1000 [].

(** C5.  When [get_snapshot_identifier()] chooses among the snapshots
    listed for the source instance and all of them have a creation time,
    it chooses the first snapshot, in the provider's order, whose creation
    time is the maximum: every snapshot before it is strictly older and
    every snapshot after it is no newer.  When the list mixes snapshots
    with and without a creation time (the default key [0] is compared with
    a [datetime]), the sort raises [TypeError] instead of treating the
    snapshot without a time as the oldest: with [snap-1] (time 100) and
    [snap-2] (still being created) the call raises. *)
Theorem get_snapshot_identifier_most_recent :
  (forall (rds : Rds) (dns : Dns) (w : World) (id : string) (l : list DBSnapshot),
     snapshot_identifier (finder w) = None ->
     source_instance_identifier (finder w) = Some id ->
     describe_db_snapshots_by_instance rds (clock w) id = inr l ->
     l <> [] ->
     Forall has_ctime l ->
     exists l1 x l2,
       l = l1 ++ x :: l2 /\
       Forall (fun y => ctime y < ctime x) l1 /\
       Forall (fun y => ctime y <= ctime x) l2 /\
       fst (get_snapshot_identifier rds dns w) = inr (DBSnapshotIdentifier x)) /\
  fst (get_snapshot_identifier (rds_with_snapshots [snap_example; snap_pending]) dns_none
         finder_by_instance_world) = inl TypeError.
Proof.
  split; [|vm_compute; reflexivity].
  intros rds dns w id l Hsid Hsrc Hd Hne Hl.
  destruct (sort_by_ctime_first_max l Hne Hl) as (l1 & x & l2 & Hdec & H1 & H2 & Hlast).
  exists l1, x, l2. split; [exact Hdec|]. split; [exact H1|]. split; [exact H2|].
  unfold get_snapshot_identifier, get_source_instance_identifier.
  cbv beta iota delta [py_bind py_get py_ret log_call py_modify py_lift].
  rewrite Hsid, Hsrc. cbv beta iota zeta. cbn [clock finder calls]. rewrite Hd.
  rewrite (py_sort_reverse_timed l Hl).
  apply last_Some in Hlast as [r Hr]. rewrite Hr, rev_unit.
  destruct l as [|a l']; [congruence|]. reflexivity.
Qed.

Lemma get_snapshot_identifier_most_recent_witness :
  exists l1 x l2,
    [snap_old; snap_example] = l1 ++ x :: l2 /\
    Forall (fun y => ctime y < ctime x) l1 /\
    Forall (fun y => ctime y <= ctime x) l2 /\
    fst (get_snapshot_identifier (rds_with_snapshots [snap_old; snap_example]) dns_none
           finder_by_instance_world) = inr (DBSnapshotIdentifier x).
Proof.
  apply (proj1 get_snapshot_identifier_most_recent
           (rds_with_snapshots [snap_old; snap_example]) dns_none
           finder_by_instance_world "prod-db" [snap_old; snap_example]).
  - reflexivity.
  - reflexivity.
  - vm_compute. reflexivity.
  - discriminate.
  - repeat constructor; discriminate.
Defined.

(* ================================================================== *)
(** ** C6: deleting old snapshots *)

(** The snapshots of the workspace among those the account lists. *)
Definition own_snapshots (iid : string) (response : list DBSnapshot) : list DBSnapshot :=
  filter (fun x => s_DBInstanceIdentifier x = iid) response.

(** The world after [delete_old_snapshots] has listed the snapshots and
    deleted [D], in order. *)
Definition after_deletions (s : WsWorld) (D : list DBSnapshot) : WsWorld :=
  mkWsWorld
    (mkWorld (finder (world s)) (clock (world s))
       (calls (world s) ++ [DescribeDBSnapshotsShared]
        ++ map (fun x => DeleteDBSnapshot (DBSnapshotIdentifier x)) D))
    (ws s).

Lemma delete_snapshots_ok (rds : Rds) (D : list DBSnapshot) (s : WsWorld) :
  (forall t id, delete_db_snapshot rds t id = None) ->
  delete_snapshots rds D s
  = (inr tt, mkWsWorld
               (mkWorld (finder (world s)) (clock (world s))
                  (calls (world s) ++ map (fun x => DeleteDBSnapshot (DBSnapshotIdentifier x)) D))
               (ws s)).
Proof.
  intros Hdel. revert s. induction D as [|x D IH]; intros s; simpl.
  - rewrite app_nil_r. destruct s as [[f c l] x]. reflexivity.
  - cbv beta iota delta [py_bind py_ret ws_log_call lift_world log_call py_modify time_time].
    cbn [world ws finder clock calls]. rewrite Hdel. rewrite IH. cbn [world ws finder clock calls].
    rewrite <- app_assoc. reflexivity.
Qed.

Lemma py_slice_from_nonneg {A} (n : Z) (l : list A) :
  0 <= n -> py_slice_from n l = drop (Z.to_nat n) l.
Proof.
  intros Hn. unfold py_slice_from.
  destruct (n <? 0) eqn:E; [apply Z.ltb_lt in E; lia|].
  destruct (Z.le_gt_cases n (Z.of_nat (length l))) as [Hle|Hgt].
  - rewrite Z.min_l by exact Hle. reflexivity.
  - rewrite Z.min_r by lia. rewrite Nat2Z.id, !drop_ge by lia. reflexivity.
Qed.

(** C6 (amended).  For [keep_n >= 0], when every snapshot of the
    workspace that the account lists has a creation time and every
    deletion succeeds, [delete_old_snapshots(keep_n)] lists the snapshots
    once and then deletes, one call each, exactly the snapshots of a list
    [D] such that the workspace's snapshots split into [K] and [D]:
    [K] holds the [min keep_n (number of snapshots)] kept ones, and no
    deleted snapshot is newer than a kept one.  Snapshots of other
    instances are never deleted. *)
Theorem delete_old_snapshots_keeps_newest (rds : Rds) (keep_n : Z) (s : WsWorld)
    (response : list DBSnapshot) :
  0 <= keep_n ->
  describe_db_snapshots_shared rds (clock (world s)) = inr response ->
  Forall has_ctime (own_snapshots (instance_identifier (ws s)) response) ->
  (forall t id, delete_db_snapshot rds t id = None) ->
  exists K D,
    own_snapshots (instance_identifier (ws s)) response ≡ₚ K ++ D /\
    length K = Nat.min (Z.to_nat keep_n)
                 (length (own_snapshots (instance_identifier (ws s)) response)) /\
    (forall k d, k ∈ K -> d ∈ D -> ctime d <= ctime k) /\
    delete_old_snapshots rds keep_n s = (inr tt, after_deletions s D).
Proof.
  intros Hn Hresp Hall Hdel.
  set (L := own_snapshots (instance_identifier (ws s)) response) in *.
  set (S := rev (sort_by_ctime [] (rev L))).
  assert (HS : S ≡ₚ L).
  { unfold S. rewrite <- Permutation_rev, sort_by_ctime_perm, app_nil_r.
    symmetry. apply Permutation_rev. }
  exists (take (Z.to_nat keep_n) S), (drop (Z.to_nat keep_n) S).
  split; [rewrite take_drop; symmetry; exact HS|].
  split; [rewrite length_take, (Permutation_length HS); reflexivity|].
  split.
  - intros k d Hk Hd.
    assert (Hsorted : StronglySorted (fun a b => ctime a <= ctime b)
                        (rev (drop (Z.to_nat keep_n) S) ++ rev (take (Z.to_nat keep_n) S))).
    { rewrite <- rev_app_distr, take_drop. unfold S. rewrite rev_involutive.
      apply sort_by_ctime_sorted. constructor. }
    apply (StronglySorted_app_1_elem_of _ _ _ _ _ Hsorted);
      apply (proj2 (elem_of_rev _ _)); assumption.
  - unfold delete_old_snapshots.
    cbv beta iota zeta delta [py_bind py_get py_ret py_lift ws_log_call lift_world log_call
                              py_modify time_time].
    cbn [world ws finder clock calls]. rewrite Hresp.
    change (filter (fun x => s_DBInstanceIdentifier x = instance_identifier (ws s)) response)
      with L.
    rewrite (py_sort_reverse_timed L Hall).
    change (rev (sort_by_ctime [] (rev L))) with S.
    rewrite (py_slice_from_nonneg keep_n S Hn), (delete_snapshots_ok rds _ _ Hdel).
    unfold after_deletions. cbn [world ws finder clock calls].
    rewrite <- app_assoc. reflexivity.
Qed.

(** Three snapshots of the example workspace and one of another instance. *)
Definition ws_snap (id : string) (t : Z) : DBSnapshot :=
  mkDBSnapshot id "scrubber-postgres-0123456789ab" (Some t) "available" "postgres".

Definition shared_snapshots : list DBSnapshot :=
  [ws_snap "s-10" 10; snap_example; ws_snap "s-30" 30; ws_snap "s-20" 20].

Lemma delete_old_snapshots_keeps_newest_witness :
  exists K D,
    own_snapshots "scrubber-postgres-0123456789ab" shared_snapshots ≡ₚ K ++ D /\
    length K = Nat.min (Z.to_nat 2)
                 (length (own_snapshots "scrubber-postgres-0123456789ab" shared_snapshots)) /\
    (forall k d, k ∈ K -> d ∈ D -> ctime d <= ctime k) /\
    delete_old_snapshots (rds_with_snapshots shared_snapshots) 2 ws_example
    = (inr tt, after_deletions ws_example D).
Proof.
  apply (delete_old_snapshots_keeps_newest (rds_with_snapshots shared_snapshots) 2
           ws_example shared_snapshots).
  - lia.
  - reflexivity.
  - vm_compute. repeat constructor; discriminate.
  - reflexivity.
Defined.

(** C6 does not hold for a negative [keep_n]: Python's slice
    [snapshots[-1:]] is the last element, so [delete_old_snapshots(-1)]
    deletes only the oldest snapshot and keeps the two newest. *)
Lemma delete_old_snapshots_negative_keep :
  delete_old_snapshots (rds_with_snapshots shared_snapshots) (-1) ws_example
  = (inr tt, after_deletions ws_example [ws_snap "s-10" 10]).
Proof. vm_compute. reflexivity. Qed.

(* ================================================================== *)
(** ** C2: the three waits *)

(** What one poll at time [t] yields: an exception, the end of the wait
    ([PollReturn]) or another round after [time.sleep(10)] ([PollSleep]). *)
Definition instance_available_outcome (rds : Rds) (iid : string) (t : Z)
    : exc + poll_step :=
  match describe_db_instances rds t iid with
  | inl e => inl e
  | inr [] => inl IndexError
  | inr (i :: _) =>
      if String.eqb (DBInstanceStatus i) "available" then inr PollReturn else inr PollSleep
  end.

Definition modifications_applied_outcome (rds : Rds) (iid : string) (t : Z)
    : exc + poll_step :=
  match describe_db_instances rds t iid with
  | inl e => inl e
  | inr [] => inl IndexError
  | inr (i :: _) =>
      if (0 <? length (PendingModifiedValues i))%nat then inr PollSleep else inr PollReturn
  end.

(** A missing snapshot ([DBSnapshotNotFound]) means another round; any
    other [ClientError] is re-raised; an exception without a [response]
    attribute becomes [AttributeError] in the handler. *)
Definition final_snapshot_outcome (rds : Rds) (fid : string) (t : Z)
    : exc + poll_step :=
  match describe_db_snapshots_by_id rds t fid with
  | inl (ClientError code) =>
      if String.eqb code "DBSnapshotNotFound" then inr PollSleep
      else inl (ClientError code)
  | inl _ => inl AttributeError
  | inr [] => inl AttributeError
  | inr (x :: _) =>
      if String.eqb (s_Status x) "available" then inr PollReturn else inr PollSleep
  end.

(** The result of a wait whose polls happen at [t0], [t0 + 10], ... while
    the clock is at most [max_end_time]. *)
Fixpoint loop_result (outcome : Z -> exc + poll_step) (r_exit : exc + unit)
    (max_end_time : Z) (fuel : nat) (c : Z) : exc + unit :=
  match fuel with
  | O => r_exit
  | S f =>
      if c <=? max_end_time then
        match outcome c with
        | inl e => inl e
        | inr PollReturn => inr tt
        | inr PollSleep => loop_result outcome r_exit max_end_time f (c + 10)
        end
      else r_exit
  end.

(** The wait ends with [r_timeout] when every poll up to the deadline
    asks for another round. *)
Definition wait_times_out (outcome : Z -> exc + poll_step) (t0 deadline : Z)
    (r_timeout r : exc + unit) : Prop :=
  (forall k : nat, t0 + 10 * Z.of_nat k <= deadline ->
     outcome (t0 + 10 * Z.of_nat k) = inr PollSleep) ->
  r = r_timeout.

(** The first poll, up to the deadline, that does not ask for another
    round decides the wait: the wait returns if the condition holds there,
    and raises the poll's exception otherwise. *)
Definition wait_settles (outcome : Z -> exc + poll_step) (t0 deadline : Z)
    (r : exc + unit) : Prop :=
  forall k : nat, t0 + 10 * Z.of_nat k <= deadline ->
    (forall j : nat, (j < k)%nat -> outcome (t0 + 10 * Z.of_nat j) = inr PollSleep) ->
    match outcome (t0 + 10 * Z.of_nat k) with
    | inr PollReturn => r = inr tt
    | inl e => r = inl e
    | inr PollSleep => True
    end.

Lemma poll_loop_result (Inv : ScrubWorkspaceInstance -> Prop)
    (poll : PyM WsWorld poll_step) (outcome : Z -> exc + poll_step)
    (on_exit : PyM WsWorld unit) (r_exit : exc + unit) (max_end_time : Z) :
  (forall s, Inv (ws s) -> fst (poll s) = outcome (clock (world s))) ->
  (forall s, Inv (ws s) -> Inv (ws (snd (poll s))) /\
                           clock (world (snd (poll s))) = clock (world s)) ->
  (forall s, fst (on_exit s) = r_exit) ->
  forall fuel s, Inv (ws s) ->
    fst (poll_loop fuel max_end_time poll on_exit s)
    = loop_result outcome r_exit max_end_time fuel (clock (world s)).
Proof.
  intros Hout Hinv Hexit fuel. induction fuel as [|f IH]; intros s Hs; simpl; [apply Hexit|].
  destruct (clock (world s) <=? max_end_time); [|apply Hexit].
  specialize (Hout s Hs). destruct (Hinv s Hs) as [Hs' Hc].
  destruct (poll s) as [r s'] eqn:E. simpl in Hout, Hs', Hc. rewrite <- Hout.
  destruct r as [e|[|]]; try reflexivity.
  simpl. rewrite IH by exact Hs'. simpl. rewrite Hc. reflexivity.
Qed.

Lemma loop_result_times_out outcome r_exit max_end_time fuel c :
  (forall k : nat, c + 10 * Z.of_nat k <= max_end_time ->
     outcome (c + 10 * Z.of_nat k) = inr PollSleep) ->
  loop_result outcome r_exit max_end_time fuel c = r_exit.
Proof.
  revert c. induction fuel as [|f IH]; intros c H; simpl; [reflexivity|].
  destruct (c <=? max_end_time) eqn:E; [|reflexivity].
  apply Z.leb_le in E.
  pose proof (H 0%nat) as H0. replace (c + 10 * Z.of_nat 0) with c in H0 by lia.
  rewrite (H0 E). apply IH.
  intros k Hk. pose proof (H (S k)) as Hs.
  replace (c + 10 * Z.of_nat (S k)) with (c + 10 + 10 * Z.of_nat k) in Hs by lia.
  exact (Hs Hk).
Qed.

Lemma loop_result_settles outcome r_exit max_end_time (k : nat) :
  forall fuel c, (k < fuel)%nat ->
  c + 10 * Z.of_nat k <= max_end_time ->
  (forall j : nat, (j < k)%nat -> outcome (c + 10 * Z.of_nat j) = inr PollSleep) ->
  match outcome (c + 10 * Z.of_nat k) with
  | inr PollReturn => loop_result outcome r_exit max_end_time fuel c = inr tt
  | inl e => loop_result outcome r_exit max_end_time fuel c = inl e
  | inr PollSleep => True
  end.
Proof.
  induction k as [|k IH]; intros fuel c Hf Hk Hj;
    (destruct fuel as [|f]; [lia|]); simpl.
  - assert (Hc : c + 10 * Z.of_nat 0 = c) by lia. rewrite Hc in *.
    rewrite (proj2 (Z.leb_le _ _) Hk).
    destruct (outcome c) as [e|[|]]; reflexivity.
  - rewrite (proj2 (Z.leb_le c max_end_time)) by lia.
    pose proof (Hj 0%nat ltac:(lia)) as H0. replace (c + 10 * Z.of_nat 0) with c in H0 by lia.
    rewrite H0.
    replace (c + 10 * Z.of_nat (S k)) with (c + 10 + 10 * Z.of_nat k) by lia.
    apply IH; [lia|lia|].
    intros j Hjk. replace (c + 10 + 10 * Z.of_nat j) with (c + 10 * Z.of_nat (S j)) by lia.
    apply Hj. lia.
Qed.

Lemma while_before_fuel (t0 max_end_time : Z) (k : nat) :
  t0 + 10 * Z.of_nat k <= max_end_time ->
  (k < Z.to_nat ((max_end_time - t0) / 10) + 2)%nat.
Proof.
  intros H.
  assert (Z.of_nat k <= (max_end_time - t0) / 10)
    by (apply Z.div_le_lower_bound; lia).
  lia.
Qed.

(** A wait, from the state where the deadline is computed. *)
Lemma while_before_wait (Inv : ScrubWorkspaceInstance -> Prop) poll outcome on_exit
    r_exit (t0 max_end_time : Z) (s : WsWorld) :
  (forall s, Inv (ws s) -> fst (poll s) = outcome (clock (world s))) ->
  (forall s, Inv (ws s) -> Inv (ws (snd (poll s))) /\
                           clock (world (snd (poll s))) = clock (world s)) ->
  (forall s, fst (on_exit s) = r_exit) ->
  Inv (ws s) -> clock (world s) = t0 ->
  wait_times_out outcome t0 max_end_time r_exit
    (fst (while_before max_end_time poll on_exit s)) /\
  wait_settles outcome t0 max_end_time (fst (while_before max_end_time poll on_exit s)).
Proof.
  intros Hout Hinv Hexit Hs Ht. unfold while_before.
  rewrite (poll_loop_result Inv poll outcome on_exit r_exit max_end_time Hout Hinv Hexit _ s Hs).
  rewrite Ht. split.
  - intros H. apply loop_result_times_out. exact H.
  - intros k Hk Hj.
    apply (loop_result_settles outcome r_exit max_end_time k); [|exact Hk|exact Hj].
    apply while_before_fuel. exact Hk.
Qed.

Ltac unfold_poll :=
  cbv beta iota zeta delta [py_bind py_get ws_log_call lift_world log_call py_modify
                            time_time py_lift py_index0 set_instance py_ret py_raise
                            py_try];
  cbn [world ws clock finder calls instance_identifier final_snapshot_identifier].

Lemma poll_instance_available_outcome rds iid :
  (forall s, instance_identifier (ws s) = iid ->
     fst (poll_instance_available rds s) = instance_available_outcome rds iid (clock (world s))) /\
  (forall s, instance_identifier (ws s) = iid ->
     instance_identifier (ws (snd (poll_instance_available rds s))) = iid /\
     clock (world (snd (poll_instance_available rds s))) = clock (world s)).
Proof.
  split; intros s Hs; unfold poll_instance_available, instance_available_outcome; unfold_poll;
    rewrite Hs; destruct (describe_db_instances rds (clock (world s)) iid) as [e|[|i l]];
    try (destruct (String.eqb (DBInstanceStatus i) "available")); simpl; auto.
Qed.

Lemma poll_modifications_applied_outcome rds iid :
  (forall s, instance_identifier (ws s) = iid ->
     fst (poll_modifications_applied rds s)
     = modifications_applied_outcome rds iid (clock (world s))) /\
  (forall s, instance_identifier (ws s) = iid ->
     instance_identifier (ws (snd (poll_modifications_applied rds s))) = iid /\
     clock (world (snd (poll_modifications_applied rds s))) = clock (world s)).
Proof.
  split; intros s Hs; unfold poll_modifications_applied, modifications_applied_outcome;
    unfold_poll; rewrite Hs;
    destruct (describe_db_instances rds (clock (world s)) iid) as [e|[|i l]];
    try (destruct (0 <? length (PendingModifiedValues i))%nat); simpl; auto.
Qed.

(** A poll of the final snapshot that asks for another round: the provider
    answers [DBSnapshotNotFound], or lists the snapshot as not yet
    available. *)
Definition final_snapshot_pending (rds : Rds) (fid : string) (t : Z) : Prop :=
  describe_db_snapshots_by_id rds t fid = inl (ClientError "DBSnapshotNotFound") \/
  exists x l, describe_db_snapshots_by_id rds t fid = inr (x :: l) /\
              s_Status x <> "available"%string.

Lemma final_snapshot_pending_outcome rds fid t :
  final_snapshot_pending rds fid t -> final_snapshot_outcome rds fid t = inr PollSleep.
Proof.
  unfold final_snapshot_outcome. intros [H|(x & l & H & Hx)]; rewrite H; [reflexivity|].
  destruct (String.eqb_spec (s_Status x) "available"); [contradiction|reflexivity].
Qed.

Lemma poll_final_snapshot_outcome rds fid :
  (forall s, final_snapshot_identifier (ws s) = fid ->
     fst (poll_final_snapshot rds s) = final_snapshot_outcome rds fid (clock (world s))) /\
  (forall s, final_snapshot_identifier (ws s) = fid ->
     final_snapshot_identifier (ws (snd (poll_final_snapshot rds s))) = fid /\
     clock (world (snd (poll_final_snapshot rds s))) = clock (world s)).
Proof.
  split; intros s Hs;
    unfold poll_final_snapshot, poll_final_snapshot_body, final_snapshot_handler,
      final_snapshot_outcome; unfold_poll; rewrite Hs;
    destruct (describe_db_snapshots_by_id rds (clock (world s)) fid) as [[]|[|x l]];
    try (destruct (String.eqb code "DBSnapshotNotFound"));
    try (destruct (String.eqb (s_Status x) "available")); simpl; auto.
Qed.

(** C2 (amended).  Each wait computes its deadline once, when it starts:
    the current time [t0] plus [60 * timeout] seconds, and polls at [t0],
    [t0 + 10], ... while the clock is at most the deadline.  For the wait
    for the restored instance (started after the restore call) and the wait
    for pending modifications (started after the modify call): if every
    poll up to the deadline finds the condition not yet met, the wait
    raises [TimeoutError].  For all three waits, including the wait for
    the final snapshot: if the polls before some poll up to the deadline
    only found the condition not yet met (or, for the final snapshot, the
    snapshot not yet existing), the wait returns when that poll finds the
    condition met, and raises the poll's error when that poll raises one,
    instead of waiting for the deadline.  For the final snapshot the
    polls before are those answering [DBSnapshotNotFound] or listing the
    snapshot as not yet available, and the deciding poll either lists it
    as available or raises a provider [ClientError] other than
    [DBSnapshotNotFound]. *)
Theorem waits_deadline (rds : Rds) (dns : Dns) (s s1 : WsWorld) (sid : string) :
  (lift_world (get_snapshot_identifier rds dns) s = (inr sid, s1) ->
   restore_db_instance_from_db_snapshot rds (clock (world s1)) (instance_identifier (ws s))
     sid (DBSubnetGroupName (ws_source_instance (ws s))) = None ->
   wait_times_out (instance_available_outcome rds (instance_identifier (ws s)))
     (clock (world s1)) (clock (world s1) + 60 * timeout (ws s))
     (inl (TimeoutError ("Timed out creating RDS instance " ++ instance_identifier (ws s))))
     (fst (__create_instance rds dns s)) /\
   wait_settles (instance_available_outcome rds (instance_identifier (ws s)))
     (clock (world s1)) (clock (world s1) + 60 * timeout (ws s))
     (fst (__create_instance rds dns s))) /\
  (modify_db_instance rds (clock (world s)) (instance_identifier (ws s))
     (security_groups (ws s)) (password (ws s)) = None ->
   wait_times_out (modifications_applied_outcome rds (instance_identifier (ws s)))
     (clock (world s)) (clock (world s) + 60 * timeout (ws s))
     (inl (TimeoutError ("Timed out applying changes to RDS instance "
                         ++ instance_identifier (ws s))))
     (fst (__apply_instance_modifications rds s)) /\
   wait_settles (modifications_applied_outcome rds (instance_identifier (ws s)))
     (clock (world s)) (clock (world s) + 60 * timeout (ws s))
     (fst (__apply_instance_modifications rds s))) /\
  (forall k : nat,
     clock (world s) + 10 * Z.of_nat k <= clock (world s) + 60 * timeout (ws s) ->
     (forall j : nat, (j < k)%nat ->
        final_snapshot_pending rds (final_snapshot_identifier (ws s))
          (clock (world s) + 10 * Z.of_nat j)) ->
     (forall x l,
        describe_db_snapshots_by_id rds (clock (world s) + 10 * Z.of_nat k)
          (final_snapshot_identifier (ws s)) = inr (x :: l) ->
        s_Status x = "available"%string ->
        fst (__wait_for_final_snapshot rds s) = inr tt) /\
     (forall code,
        describe_db_snapshots_by_id rds (clock (world s) + 10 * Z.of_nat k)
          (final_snapshot_identifier (ws s)) = inl (ClientError code) ->
        code <> "DBSnapshotNotFound"%string ->
        fst (__wait_for_final_snapshot rds s) = inl (ClientError code))).
Proof.
  split; [|split].
  - intros Hg Hr.
    assert (Hws : ws s1 = ws s).
    { pose proof (keeps_ws_lift_world (get_snapshot_identifier rds dns) s) as K.
      rewrite Hg in K. exact K. }
    unfold __create_instance. cbv beta iota delta [py_bind]. rewrite Hg.
    cbv beta iota zeta delta [py_get ws_log_call lift_world log_call py_modify time_time
                              py_ret py_raise].
    cbn [world ws clock finder calls]. rewrite Hws, Hr.
    destruct (poll_instance_available_outcome rds (instance_identifier (ws s))) as [Ho Hi].
    apply (while_before_wait (fun x => instance_identifier x = instance_identifier (ws s))
             _ _ _ _ (clock (world s1)) _ _ Ho Hi); reflexivity.
  - intros Hm.
    unfold __apply_instance_modifications.
    cbv beta iota zeta delta [py_bind py_get ws_log_call lift_world log_call py_modify
                              time_time py_ret py_raise].
    cbn [world ws clock finder calls]. rewrite Hm.
    destruct (poll_modifications_applied_outcome rds (instance_identifier (ws s))) as [Ho Hi].
    apply (while_before_wait (fun x => instance_identifier x = instance_identifier (ws s))
             _ _ _ _ (clock (world s)) _ _ Ho Hi); reflexivity.
  - set (fid := final_snapshot_identifier (ws s)).
    assert (Hset : wait_settles (final_snapshot_outcome rds fid)
                     (clock (world s)) (clock (world s) + 60 * timeout (ws s))
                     (fst (__wait_for_final_snapshot rds s))).
    { unfold __wait_for_final_snapshot.
      cbv beta iota zeta delta [py_bind py_get time_time].
      destruct (poll_final_snapshot_outcome rds fid) as [Ho Hi].
      apply (while_before_wait (fun x => final_snapshot_identifier x = fid)
               _ _ _ (inr tt) (clock (world s)) _ _ Ho Hi); reflexivity. }
    intros k Hk Hj.
    assert (Hs := Hset k Hk (fun j Hjk => final_snapshot_pending_outcome _ _ _ (Hj j Hjk))).
    unfold final_snapshot_outcome in Hs. split.
    + intros x l Hd Hx. rewrite Hd, Hx in Hs. exact Hs.
    + intros code Hd Hc. rewrite Hd in Hs.
      destruct (String.eqb_spec code "DBSnapshotNotFound"); [contradiction|exact Hs].
Qed.

(** An instance that is still being created before time 1020, and a final
    snapshot that does not exist before time 1020. *)
Definition slow_instance (id : string) (t : Z) : DBInstance :=
  mkDBInstance id (Some endpoint_example) (if t <? 1020 then "creating" else "available")
    [] [] "subnet-a" "aws_db_admin".

Definition rds_slow : Rds :=
  mkRds (fun _ => inr [inst_example])
    (fun t id => inr [slow_instance id t])
    (fun t id => if t <? 1020 then inl (ClientError "DBSnapshotNotFound")
                 else inr [mkDBSnapshot id "prod-db" (Some t) "available" "postgres"])
    (fun _ _ => inr [snap_example])
    (fun _ => inr [snap_example])
    (fun _ _ _ _ => None) (fun _ _ _ _ => None)
    (fun _ _ _ => None) (fun _ _ => None).

(** An account in which the workspace's instance and final snapshot are
    never found. *)
Definition rds_missing : Rds :=
  mkRds (fun _ => inr [inst_example])
    (fun _ _ => inl (ClientError "DBInstanceNotFound"))
    (fun _ _ => inl (ClientError "DBSnapshotNotFound"))
    (fun _ _ => inr [snap_example])
    (fun _ => inr [snap_example])
    (fun _ _ _ _ => None) (fun _ _ _ _ => None)
    (fun _ _ _ => None) (fun _ _ => None).

(** A workspace that has not been provisioned yet, with a one-minute
    timeout. *)
Definition ws_new : WsWorld :=
  mkWsWorld world_example
    (mkWorkspace 1 "5f3a" snap_example "scrubber-postgres-0123456789ab"
       "scrubbed-prod-db-2026-10-15-09-30" inst_example None false ["sg-1"]).

(** An account in which the final snapshot is not found at time 1000 and
    describing it is throttled afterwards. *)
Definition rds_throttled : Rds :=
  mkRds (fun _ => inr [inst_example])
    (fun t id => inr [slow_instance id t])
    (fun t id => if t <? 1010 then inl (ClientError "DBSnapshotNotFound")
                 else inl (ClientError "Throttling"))
    (fun _ _ => inr [snap_example])
    (fun _ => inr [snap_example])
    (fun _ _ _ _ => None) (fun _ _ _ _ => None)
    (fun _ _ _ => None) (fun _ _ => None).

Lemma waits_deadline_witness :
  fst (__create_instance rds_slow dns_none ws_new) = inr tt /\
  fst (__wait_for_final_snapshot rds_slow ws_new) = inr tt /\
  fst (__wait_for_final_snapshot rds_throttled ws_new) = inl (ClientError "Throttling").
Proof.
  destruct (waits_deadline rds_slow dns_none ws_new ws_new "snap-1") as [Hc [_ Hf]].
  destruct (Hc eq_refl eq_refl) as [_ Hs].
  destruct (waits_deadline rds_throttled dns_none ws_new ws_new "snap-1") as [_ [_ Ht]].
  split; [|split].
  - refine (Hs 2%nat _ _); [vm_compute; discriminate|].
    intros j Hj. destruct j as [|[|j]]; [reflexivity|reflexivity|lia].
  - refine (proj1 (Hf 2%nat _ _) _ [] eq_refl eq_refl); [vm_compute; discriminate|].
    intros j Hj. left. destruct j as [|[|j]]; [reflexivity|reflexivity|lia].
  - refine (proj2 (Ht 1%nat _ _) "Throttling" eq_refl _);
      [vm_compute; discriminate| |discriminate].
    intros j Hj. left. destruct j as [|j]; [reflexivity|lia].
Defined.

(** C2 does not hold as stated: when every poll of the instance raises
    [DBInstanceNotFound], the awaited condition never holds, yet the wait
    raises that error at the first poll, not [TimeoutError]. *)
Lemma create_instance_propagates_poll_error :
  (forall t, instance_available_outcome rds_missing "scrubber-postgres-0123456789ab" t
             = inl (ClientError "DBInstanceNotFound")) /\
  fst (__create_instance rds_missing dns_none ws_new)
  = inl (ClientError "DBInstanceNotFound").
Proof. split; [reflexivity|vm_compute; reflexivity]. Qed.

(** The source has no [raise] after the loop of [__wait_for_final_snapshot]:
    when the final snapshot never appears, the wait returns normally once
    the deadline (time 1060) has passed. *)
Lemma wait_for_final_snapshot_returns_at_deadline :
  __wait_for_final_snapshot rds_missing ws_new
  = (inr tt,
     mkWsWorld
       (mkWorld finder_example 1070
          (repeat (DescribeDBSnapshotsById "scrubbed-prod-db-2026-10-15-09-30") 7))
       (ws ws_new)).
Proof. vm_compute. reflexivity. Qed.

(* ================================================================== *)
(** * Further properties of the workspace, the finder and the task manager *)

(** ** Provisioning: [get_instance] and the waits *)

(** A poll loop that returns normally has either met the poll's success
    condition or run its exit code. *)
Lemma poll_loop_success (P : WsWorld -> Prop) fuel max_end_time poll on_exit s s' :
  (forall t t', poll t = (inr PollReturn, t') -> P t') ->
  (forall t, fst (on_exit t) <> inr tt) ->
  poll_loop fuel max_end_time poll on_exit s = (inr tt, s') -> P s'.
Proof.
  intros Hp He. revert s. induction fuel as [|f IH]; intros s; simpl.
  - intros H. exfalso. apply (He s). rewrite H. reflexivity.
  - destruct (clock (world s) <=? max_end_time).
    + destruct (poll s) as [[e|[|]] s1] eqn:E.
      * discriminate.
      * intros H. injection H as <-. exact (Hp _ _ E).
      * apply IH.
    + intros H. exfalso. apply (He s). rewrite H. reflexivity.
Qed.

Lemma poll_instance_available_return rds s s' :
  poll_instance_available rds s = (inr PollReturn, s') ->
  exists i, instance (ws s') = Some i /\ DBInstanceStatus i = "available"%string.
Proof.
  unfold poll_instance_available. unfold_poll.
  destruct (describe_db_instances rds (clock (world s)) (instance_identifier (ws s)))
    as [e|[|i l]]; try discriminate.
  destruct (String.eqb (DBInstanceStatus i) "available") eqn:E; [|discriminate].
  intros H. injection H as <-. exists i. split; [reflexivity|].
  apply String.eqb_eq. exact E.
Qed.

Lemma create_instance_available rds dns s s' :
  __create_instance rds dns s = (inr tt, s') ->
  exists i, instance (ws s') = Some i /\ DBInstanceStatus i = "available"%string.
Proof.
  unfold __create_instance. cbv beta iota delta [py_bind].
  destruct (lift_world (get_snapshot_identifier rds dns) s) as [[e|sid] s1];
    [discriminate|].
  cbv beta iota zeta delta [py_get ws_log_call lift_world log_call py_modify time_time
                            py_ret py_raise].
  cbn [world ws clock finder calls].
  match goal with
  | |- context [match ?x with Some _ => _ | None => _ end] => destruct x
  end; [discriminate|].
  unfold while_before. intros H.
  refine (poll_loop_success
            (fun t => exists i, instance (ws t) = Some i /\ DBInstanceStatus i = "available"%string)
            _ _ _ _ _ _ _ _ H).
  - apply poll_instance_available_return.
  - intros t. discriminate.
Qed.

Lemma keeps_ws_apply_instance_modifications rds :
  keeps_ws (__apply_instance_modifications rds).
Proof.
  unfold __apply_instance_modifications. solve_keeps_ws.
  apply keeps_ws_while_before; [|solve_keeps_ws].
  unfold poll_modifications_applied. solve_keeps_ws.
Qed.

(** What a successful [get_instance] leaves behind. *)
Lemma get_instance_some rds dns s x s' :
  get_instance rds dns s = (inr x, s') ->
  exists i, x = Some i /\ instance (ws s') = Some i /\
    (instance (ws s) = None -> DBInstanceStatus i = "available"%string).
Proof.
  unfold get_instance. cbv beta iota delta [py_bind py_get].
  destruct (instance (ws s)) as [i|] eqn:Hi.
  - intros H. injection H as <- <-. exists i. rewrite Hi.
    split; [reflexivity|]. split; [reflexivity|]. discriminate.
  - destruct (__create_instance rds dns s) as [[e|[]] s1] eqn:Hc; [discriminate|].
    destruct (create_instance_available rds dns s s1 Hc) as (i & Hs1 & Ha).
    pose proof (keeps_ws_apply_instance_modifications rds s1) as K.
    destruct (__apply_instance_modifications rds s1) as [[e|[]] s2]; [discriminate|].
    simpl in K. cbv beta iota delta [py_ret]. intros H. injection H as <- <-.
    exists i. rewrite K, Hs1. auto.
Qed.

Lemma get_instance_cached rds dns s i :
  instance (ws s) = Some i -> get_instance rds dns s = (inr (Some i), s).
Proof.
  intros Hi. unfold get_instance. cbv beta iota delta [py_bind py_get].
  rewrite Hi. reflexivity.
Qed.

(** X1.  [get_instance()] never returns [None]: when it returns, it
    returns the instance it has stored on the workspace; if the workspace
    had no instance yet, that instance was last reported with status
    ['available'].  A later call returns the same instance without any
    provider call or change of state. *)
Theorem get_instance_provisioned (rds : Rds) (dns : Dns) (s s' : WsWorld)
    (x : option DBInstance) :
  get_instance rds dns s = (inr x, s') ->
  exists i, x = Some i /\ instance (ws s') = Some i /\
    (instance (ws s) = None -> DBInstanceStatus i = "available"%string) /\
    get_instance rds dns s' = (inr (Some i), s').
Proof.
  intros H. destruct (get_instance_some rds dns s x s' H) as (i & Hx & Hs' & Ha).
  exists i. split; [exact Hx|]. split; [exact Hs'|]. split; [exact Ha|].
  apply get_instance_cached. exact Hs'.
Qed.

Lemma get_instance_provisioned_witness :
  exists i,
    Some (slow_instance "scrubber-postgres-0123456789ab" 1020) = Some i /\
    instance (ws (snd (get_instance rds_slow dns_none ws_new))) = Some i /\
    (instance (ws ws_new) = None -> DBInstanceStatus i = "available"%string) /\
    get_instance rds_slow dns_none (snd (get_instance rds_slow dns_none ws_new))
    = (inr (Some i), snd (get_instance rds_slow dns_none ws_new)).
Proof.
  apply (get_instance_provisioned rds_slow dns_none ws_new
           (snd (get_instance rds_slow dns_none ws_new))
           (Some (slow_instance "scrubber-postgres-0123456789ab" 1020))).
  vm_compute. reflexivity.
Defined.

(** X2.  The endpoint and the user name that [get_endpoint()] and
    [get_username()] return are those of the instance stored on the
    workspace when they return.  On a provisioned workspace both answer
    from the stored instance without provider calls; [get_endpoint()]
    raises [KeyError] when that instance has no ['Endpoint'] key. *)
Theorem get_endpoint_username (rds : Rds) (dns : Dns) (s : WsWorld) :
  (forall e s', get_endpoint rds dns s = (inr e, s') ->
     exists i, instance (ws s') = Some i /\ i_Endpoint i = Some e) /\
  (forall u s', get_username rds dns s = (inr u, s') ->
     exists i, instance (ws s') = Some i /\ MasterUsername i = u) /\
  (forall i, instance (ws s) = Some i ->
     get_username rds dns s = (inr (MasterUsername i), s) /\
     get_endpoint rds dns s
     = (match i_Endpoint i with
        | Some e => inr e
        | None => inl (KeyError "Endpoint")
        end, s)).
Proof.
  split; [|split].
  - intros e s'. unfold get_endpoint. cbv beta iota delta [py_bind].
    destruct (get_instance rds dns s) as [[err|x] s1] eqn:G; [discriminate|].
    destruct (get_instance_some rds dns s x s1 G) as (i & -> & Hs1 & _).
    destruct (i_Endpoint i) as [ep|] eqn:He; [|discriminate].
    intros H. injection H as <- <-. exists i. auto.
  - intros u s'. unfold get_username. cbv beta iota delta [py_bind].
    destruct (get_instance rds dns s) as [[err|x] s1] eqn:G; [discriminate|].
    destruct (get_instance_some rds dns s x s1 G) as (i & -> & Hs1 & _).
    intros H. injection H as <- <-. exists i. auto.
  - intros i Hi. unfold get_username, get_endpoint. cbv beta iota delta [py_bind].
    rewrite (get_instance_cached rds dns s i Hi).
    split; [reflexivity|]. destruct (i_Endpoint i); reflexivity.
Qed.

Lemma get_endpoint_username_witness :
  get_username rds_example dns_none ws_example = (inr "aws_db_admin"%string, ws_example) /\
  get_endpoint rds_example dns_none ws_example = (inr endpoint_example, ws_example).
Proof.
  apply (proj2 (proj2 (get_endpoint_username rds_example dns_none ws_example)) inst_example).
  reflexivity.
Defined.

(** ["{0:x}".format(n)] followed by ["0x"] is Rocq's hexadecimal printer. *)
Lemma format_x_of_N (n : N) : ("0x" ++ format_x n)%string = HexString.of_N n.
Proof. destruct n; reflexivity. Qed.

(** ['0' <= c <= '9'] or ['a' <= c <= 'f'] *)
Definition is_lower_hex_digit (c : ascii) : bool :=
  let n := nat_of_ascii c in
  (Nat.leb 48 n && Nat.leb n 57) || (Nat.leb 97 n && Nat.leb n 102).

Fixpoint all_chars (f : ascii -> bool) (s : string) : bool :=
  match s with
  | EmptyString => true
  | String c s' => f c && all_chars f s'
  end.

Lemma all_chars_app f (x y : string) :
  all_chars f (x ++ y) = all_chars f x && all_chars f y.
Proof.
  induction x as [|c x IH]; [reflexivity|]. rewrite app_cons_str. simpl.
  rewrite IH. apply andb_assoc.
Qed.

Lemma str_app_assoc (x y z : string) : ((x ++ y) ++ z)%string = (x ++ (y ++ z))%string.
Proof. induction x as [|c x IH]; [reflexivity|]. rewrite !app_cons_str. congruence. Qed.

Ltac hex_base :=
  lazymatch goal with
  | |- exists d, String ?c ?rest = _ /\ _ => exists (String c "")
  end;
  split; [reflexivity|];
  split; [reflexivity|]; split; [simpl; lia|];
  split; [eexists _, _; split; [reflexivity|discriminate]|];
  let k := fresh "k" in let Hk := fresh "Hk" in
  intros k Hk; destruct k as [|k]; [simpl in Hk; lia|simpl; lia].

(** [Raw.of_pos p rest] puts in front of [rest] the lowercase hexadecimal
    digits of [p], the first one not [0]; there are at most [k] of them
    when [p < 16 ^ k]. *)
Fixpoint hex_of_pos_digits (p : positive) (rest : string) {struct p} :
  exists d, HexString.Raw.of_pos p rest = (d ++ rest)%string /\
    all_chars is_lower_hex_digit d = true /\
    (1 <= String.length d)%nat /\
    (exists c d', d = String c d' /\ c <> "0"%char) /\
    (forall k : nat, Z.pos p < 16 ^ Z.of_nat k -> (String.length d <= k)%nat).
Proof.
  do 4 try destruct p as [p|p|]; cbn [HexString.Raw.of_pos];
  first
  [ lazymatch goal with
      | |- exists d, HexString.Raw.of_pos ?q (String ?c rest) = _ /\ _ =>
          destruct (hex_of_pos_digits q (String c rest))
            as (d & Hd & Ha & H1 & (c0 & d0 & Hc0 & Hnz) & Hk);
          exists (d ++ String c "")%string; rewrite Hd, str_app_assoc;
          split; [reflexivity|];
          split; [rewrite all_chars_app, Ha; reflexivity|];
          split; [rewrite length_app_str; lia|];
          split; [exists c0, (d0 ++ String c "")%string; rewrite Hc0; split; [reflexivity|exact Hnz]|];
          let k := fresh "k" in let Hk' := fresh "Hk'" in
          intros k Hk'; destruct k as [|k];
          [ simpl in Hk'; lia
          | rewrite length_app_str; simpl String.length;
            rewrite Nat2Z.inj_succ, Z.pow_succ_r in Hk' by lia;
            assert (Hp : Z.pos q < 16 ^ Z.of_nat k) by lia;
            pose proof (Hk k Hp); lia ]
      end
  | hex_base ].
Qed.

Lemma format_x_digits (n : N) :
  all_chars is_lower_hex_digit (format_x n) = true /\
  (1 <= String.length (format_x n))%nat /\
  (format_x n = "0"%string \/ exists c d', format_x n = String c d' /\ c <> "0"%char) /\
  (forall k : nat, Z.of_N n < 16 ^ Z.of_nat k -> (String.length (format_x n) <= Nat.max 1 k)%nat).
Proof.
  destruct n as [|p].
  - split; [reflexivity|]. split; [simpl; lia|]. split; [left; reflexivity|].
    intros k _. simpl. lia.
  - change (format_x (N.pos p)) with (HexString.Raw.of_pos p "").
    destruct (hex_of_pos_digits p "") as (d & Hd & Ha & H1 & Hc & Hk).
    rewrite Hd, app_empty_r_str.
    split; [exact Ha|]. split; [exact H1|]. split; [right; exact Hc|].
    intros k Hk'. pose proof (Hk k Hk'). lia.
Qed.

(** X3.  The password the constructor stores, for the bits drawn by
    [random.getrandbits(41 * 4)], is between 1 and 41 characters long,
    every character is a lowercase hexadecimal digit ([0-9], [a-f]), it
    has no leading zero (unless it is ["0"]), and read as a hexadecimal
    number it gives the bits drawn. *)
Theorem password_lower_hex (rds : Rds) (dns : Dns) (sha256_hexdigest : string -> string)
    (now : datetime) (bits : N) (timeout : Z) (sg : SecurityGroupsArg)
    (w w' : World) (x : ScrubWorkspaceInstance) :
  (bits < 2 ^ 164)%N ->
  ScrubWorkspaceInstance_init rds dns sha256_hexdigest now bits timeout sg w = (inr x, w') ->
  all_chars is_lower_hex_digit (password x) = true /\
  (1 <= String.length (password x) <= 41)%nat /\
  (password x = "0"%string \/ exists c d', password x = String c d' /\ c <> "0"%char) /\
  HexString.to_N ("0x" ++ password x) = bits.
Proof.
  intros Hb. unfold ScrubWorkspaceInstance_init. cbv beta iota delta [py_bind].
  destruct (get_snapshot rds dns w) as [[e|snap] w1]; [discriminate|].
  destruct (get_source_instance rds dns w1) as [[e|i] w2]; [discriminate|].
  intros H. injection H as <- _. cbn [password].
  destruct (format_x_digits bits) as (Ha & H1 & Hz & Hk).
  split; [exact Ha|]. split; [split; [exact H1|]|]. 
  - apply (Nat.le_trans _ (Nat.max 1 41)); [|simpl; lia].
    apply Hk. apply N2Z.inj_lt in Hb. rewrite N2Z.inj_pow in Hb. exact Hb.
  - split; [exact Hz|]. rewrite format_x_of_N. apply HexString.to_N_of_N.
Qed.

Lemma password_lower_hex_witness :
  exists x w',
    init_example1 = (inr x, w') /\
    all_chars is_lower_hex_digit (password x) = true /\
    (1 <= String.length (password x) <= 41)%nat /\
    (password x = "0"%string \/ exists c d', password x = String c d' /\ c <> "0"%char) /\
    HexString.to_N ("0x" ++ password x) = 12345%N.
Proof.
  destruct init_example1 as [r w'] eqn:E.
  assert (R : r = fst init_example1) by (rewrite E; reflexivity).
  vm_compute in R. subst r.
  eexists. exists w'. split; [reflexivity|].
  refine (password_lower_hex rds_example dns_none sha256_example
            (mkDatetime 2026 10 15 9 30) 12345 90 SGOther world_example w' _ _ E).
  vm_compute. reflexivity.
Defined.

(** ** [cleanup] and the [deleted] flag *)

(** The world after [cleanup] has made its deletion call. *)
Definition after_delete_call (s : WsWorld) (final_snapshot : option string) : WsWorld :=
  mkWsWorld
    (mkWorld (finder (world s)) (clock (world s))
       (calls (world s) ++ [DeleteDBInstance (instance_identifier (ws s)) final_snapshot]))
    (ws s).

(** X4.  On a provisioned workspace that has not been deleted, [cleanup]
    first asks RDS to delete the workspace's instance (with a final
    snapshot when [create_final_snapshot] holds).  If that call raises,
    [cleanup] raises the same error with the workspace unchanged, so
    [deleted] stays false and a later [cleanup] tries again.  If it
    succeeds, [deleted] is true afterwards, even when the wait for the
    final snapshot then raises; without a final snapshot nothing else is
    called. *)
Theorem cleanup_sets_deleted (rds : Rds) (b : bool) (s : WsWorld) :
  instance (ws s) <> None -> deleted (ws s) = false ->
  let final_snapshot := if b then Some (final_snapshot_identifier (ws s)) else None in
  (forall e, delete_db_instance rds (clock (world s)) (instance_identifier (ws s))
               final_snapshot = Some e ->
     cleanup rds b s = (inl e, after_delete_call s final_snapshot)) /\
  (delete_db_instance rds (clock (world s)) (instance_identifier (ws s)) final_snapshot = None ->
     deleted (ws (snd (cleanup rds b s))) = true /\
     (b = false ->
        cleanup rds b s = (inr tt, snd (set_deleted (after_delete_call s None))))).
Proof.
  intros Hi Hd final_snapshot.
  assert (G : bool_decide (instance (ws s) ≠ None) && negb (deleted (ws s)) = true).
  { rewrite Hd. destruct (instance (ws s)); [reflexivity|congruence]. }
  unfold cleanup. cbv beta iota delta [py_bind py_get]. rewrite G.
  subst final_snapshot.
  destruct b;
    cbv beta iota zeta delta [py_bind py_ret py_raise ws_log_call lift_world log_call
                              py_modify time_time set_deleted];
    cbn [world ws clock finder calls].
  - split.
    + intros e He. rewrite He. reflexivity.
    + intros He. rewrite He. split; [|discriminate].
      match goal with
      | |- context [__wait_for_final_snapshot rds ?t] =>
          pose proof (keeps_ws_wait_for_final_snapshot rds t) as K
      end.
      rewrite K. reflexivity.
  - split.
    + intros e He. rewrite He. reflexivity.
    + intros He. rewrite He. split; reflexivity.
Qed.

Lemma cleanup_sets_deleted_witness :
  deleted (ws (snd (cleanup rds_example true ws_example))) = true /\
  (true = false ->
     cleanup rds_example true ws_example
     = (inr tt, snd (set_deleted (after_delete_call ws_example None)))).
Proof.
  apply (proj2 (cleanup_sets_deleted rds_example true ws_example ltac:(discriminate)
                  eq_refl)).
  reflexivity.
Defined.

(** ** How many times the waits poll *)

(** A poll loop whose every poll logs the call [c] and keeps the clock:
    it makes [n] polls, and when [n > 0] the last one was at a time
    [clock + 10 * (n - 1)] no later than the deadline; with no poll, the
    loop ends with its exit code's result. *)
Lemma poll_loop_calls (Inv : ScrubWorkspaceInstance -> Prop) (c : RdsCall)
    (poll : PyM WsWorld poll_step) (on_exit : PyM WsWorld unit) (r_exit : exc + unit)
    (max_end_time : Z) :
  (forall s, Inv (ws s) ->
     Inv (ws (snd (poll s))) /\ clock (world (snd (poll s))) = clock (world s) /\
     calls (world (snd (poll s))) = calls (world s) ++ [c]) ->
  (forall s, on_exit s = (r_exit, s)) ->
  forall fuel s, Inv (ws s) ->
  exists n,
    calls (world (snd (poll_loop fuel max_end_time poll on_exit s)))
    = calls (world s) ++ repeat c n /\
    Inv (ws (snd (poll_loop fuel max_end_time poll on_exit s))) /\
    (n = 0%nat -> fst (poll_loop fuel max_end_time poll on_exit s) = r_exit) /\
    (n <> 0%nat -> clock (world s) + 10 * (Z.of_nat n - 1) <= max_end_time).
Proof.
  intros Hp He fuel. induction fuel as [|f IH]; intros s Hs; simpl.
  - exists 0%nat. rewrite He. simpl. rewrite app_nil_r.
    split; [reflexivity|]. split; [exact Hs|]. split; [reflexivity|].
    intros H. contradiction H. reflexivity.
  - destruct (clock (world s) <=? max_end_time) eqn:Hc.
    + apply Z.leb_le in Hc.
      destruct (Hp s Hs) as (Hs1 & Hc1 & Hl1).
      destruct (poll s) as [[e|[|]] s1] eqn:E; simpl in Hs1, Hc1, Hl1.
      * exists 1%nat. simpl. rewrite Hl1. split; [reflexivity|]. split; [exact Hs1|].
        split; [discriminate|]. intros _. lia.
      * exists 1%nat. simpl. rewrite Hl1. split; [reflexivity|]. split; [exact Hs1|].
        split; [discriminate|]. intros _. lia.
      * set (s2 := mkWsWorld (mkWorld (finder (world s1)) (clock (world s1) + 10)
                                      (calls (world s1))) (ws s1)).
        change (let '(_, s'') := time_sleep 10 s1 in
                poll_loop f max_end_time poll on_exit s'')
          with (poll_loop f max_end_time poll on_exit s2).
        destruct (IH s2 Hs1) as (n & Hl & Hi & H0 & Hn).
        exists (S n). split; [|split; [exact Hi|split; [discriminate|]]].
        -- rewrite Hl. unfold s2. cbn [world calls]. rewrite Hl1, <- app_assoc.
           reflexivity.
        -- intros _. destruct n as [|n]; [lia|].
           specialize (Hn ltac:(discriminate)). unfold s2 in Hn. cbn [world clock] in Hn.
           lia.
    + exists 0%nat. rewrite He. simpl. rewrite app_nil_r.
    split; [reflexivity|]. split; [exact Hs|]. split; [reflexivity|].
    intros H. contradiction H. reflexivity.
Qed.

(** A loop started by [while_before] at [t0] with deadline
    [t0 + 60 * timeout] polls at most [6 * timeout + 1] times. *)
Lemma while_before_calls (Inv : ScrubWorkspaceInstance -> Prop) (c : RdsCall)
    poll on_exit r_exit (tmo : Z) (s : WsWorld) :
  (forall s, Inv (ws s) ->
     Inv (ws (snd (poll s))) /\ clock (world (snd (poll s))) = clock (world s) /\
     calls (world (snd (poll s))) = calls (world s) ++ [c]) ->
  (forall s, on_exit s = (r_exit, s)) ->
  Inv (ws s) ->
  exists n,
    calls (world (snd (while_before (clock (world s) + 60 * tmo) poll on_exit s)))
    = calls (world s) ++ repeat c n /\
    Inv (ws (snd (while_before (clock (world s) + 60 * tmo) poll on_exit s))) /\
    (n = 0%nat -> fst (while_before (clock (world s) + 60 * tmo) poll on_exit s) = r_exit) /\
    Z.of_nat n <= Z.max 0 (6 * tmo + 1).
Proof.
  intros Hp He Hs. unfold while_before.
  destruct (poll_loop_calls Inv c poll on_exit r_exit (clock (world s) + 60 * tmo) Hp He
              (Z.to_nat ((clock (world s) + 60 * tmo - clock (world s)) / 10) + 2) s Hs)
    as (n & Hl & Hi & H0 & Hn).
  exists n. split; [exact Hl|]. split; [exact Hi|]. split; [exact H0|].
  destruct n as [|n]; [lia|]. specialize (Hn ltac:(discriminate)). lia.
Qed.

Lemma poll_final_snapshot_calls rds fid :
  forall s, final_snapshot_identifier (ws s) = fid ->
    final_snapshot_identifier (ws (snd (poll_final_snapshot rds s))) = fid /\
    clock (world (snd (poll_final_snapshot rds s))) = clock (world s) /\
    calls (world (snd (poll_final_snapshot rds s)))
    = calls (world s) ++ [DescribeDBSnapshotsById fid].
Proof.
  intros s Hs.
  unfold poll_final_snapshot, poll_final_snapshot_body, final_snapshot_handler.
  unfold_poll; rewrite Hs;
    destruct (describe_db_snapshots_by_id rds (clock (world s)) fid) as [[]|[|x l]];
    try (destruct (String.eqb code "DBSnapshotNotFound"));
    try (destruct (String.eqb (s_Status x) "available")); simpl; auto.
Qed.

(** X5.  [__wait_for_final_snapshot] makes no provider call other than
    describing the final snapshot, and describes it at most
    [6 * timeout + 1] times (once at the start and once every 10 seconds
    up to the [60 * timeout]-second deadline), whatever the provider
    answers. *)
Theorem wait_for_final_snapshot_polls (rds : Rds) (s : WsWorld) :
  exists n,
    calls (world (snd (__wait_for_final_snapshot rds s)))
    = calls (world s) ++ repeat (DescribeDBSnapshotsById (final_snapshot_identifier (ws s))) n /\
    Z.of_nat n <= Z.max 0 (6 * timeout (ws s) + 1).
Proof.
  unfold __wait_for_final_snapshot. cbv beta iota zeta delta [py_bind py_get time_time].
  destruct (while_before_calls
              (fun x => final_snapshot_identifier x = final_snapshot_identifier (ws s))
              (DescribeDBSnapshotsById (final_snapshot_identifier (ws s)))
              (poll_final_snapshot rds) (py_ret tt) (inr tt) (timeout (ws s)) s
              (poll_final_snapshot_calls rds _) (fun _ => eq_refl) eq_refl)
    as (n & Hl & _ & _ & Hn).
  exists n. split; assumption.
Qed.

(** The attributes of the workspace that the waits read. *)
Definition same_config (x y : ScrubWorkspaceInstance) : Prop :=
  instance_identifier y = instance_identifier x /\ timeout y = timeout x /\
  security_groups y = security_groups x /\ password y = password x.

Lemma get_snapshot_identifier_cached rds dns w sid :
  snapshot_identifier (finder w) = Some sid ->
  get_snapshot_identifier rds dns w = (inr sid, w).
Proof.
  intros H. unfold get_snapshot_identifier. cbv beta iota delta [py_bind py_get].
  rewrite H. reflexivity.
Qed.

Lemma poll_instance_available_calls rds x :
  forall s, same_config x (ws s) ->
    same_config x (ws (snd (poll_instance_available rds s))) /\
    clock (world (snd (poll_instance_available rds s))) = clock (world s) /\
    calls (world (snd (poll_instance_available rds s)))
    = calls (world s) ++ [DescribeDBInstances (instance_identifier x)].
Proof.
  intros s (Hi & Ht & Hg & Hp). unfold poll_instance_available. unfold_poll. rewrite Hi.
  destruct (describe_db_instances rds (clock (world s)) (instance_identifier x))
    as [e|[|i l]];
    try (destruct (String.eqb (DBInstanceStatus i) "available"));
    simpl; unfold same_config; auto.
Qed.

Lemma poll_modifications_applied_calls rds x :
  forall s, same_config x (ws s) ->
    same_config x (ws (snd (poll_modifications_applied rds s))) /\
    clock (world (snd (poll_modifications_applied rds s))) = clock (world s) /\
    calls (world (snd (poll_modifications_applied rds s)))
    = calls (world s) ++ [DescribeDBInstances (instance_identifier x)].
Proof.
  intros s (Hi & Ht & Hg & Hp). unfold poll_modifications_applied. unfold_poll. rewrite Hi.
  destruct (describe_db_instances rds (clock (world s)) (instance_identifier x))
    as [e|[|i l]];
    try (destruct (0 <? length (PendingModifiedValues i))%nat);
    simpl; unfold same_config; auto.
Qed.

Lemma create_instance_calls rds dns w x sid :
  snapshot_identifier (finder w) = Some sid ->
  exists n,
    calls (world (snd (__create_instance rds dns (mkWsWorld w x))))
    = calls w ++ RestoreDBInstanceFromDBSnapshot (instance_identifier x) sid
                   (DBSubnetGroupName (ws_source_instance x))
              :: repeat (DescribeDBInstances (instance_identifier x)) n /\
    same_config x (ws (snd (__create_instance rds dns (mkWsWorld w x)))) /\
    (fst (__create_instance rds dns (mkWsWorld w x)) = inr tt ->
       (1 <= n)%nat /\ Z.of_nat n <= 6 * timeout x + 1).
Proof.
  intros H. unfold __create_instance. cbv beta iota delta [py_bind].
  assert (L : lift_world (get_snapshot_identifier rds dns) (mkWsWorld w x)
              = (inr sid, mkWsWorld w x)).
  { unfold lift_world. cbn [world].
    rewrite (get_snapshot_identifier_cached rds dns w sid H). reflexivity. }
  rewrite L.
  cbv beta iota zeta delta [py_get ws_log_call lift_world log_call py_modify time_time
                            py_ret py_raise].
  cbn [world ws clock finder calls].
  destruct (restore_db_instance_from_db_snapshot rds (clock w) (instance_identifier x) sid
              (DBSubnetGroupName (ws_source_instance x))) as [e|].
  - exists 0%nat. simpl. split; [reflexivity|].
    split; [unfold same_config; auto|]. intros Hr. discriminate Hr.
  - match goal with
    | |- context [while_before (clock (world ?t) + 60 * timeout x) _ ?ex ?t] =>
        destruct (while_before_calls (same_config x) (DescribeDBInstances (instance_identifier x))
                    (poll_instance_available rds) ex
                    (inl (TimeoutError ("Timed out creating RDS instance "
                                        ++ instance_identifier x)))
                    (timeout x) t (poll_instance_available_calls rds x) (fun _ => eq_refl))
          as (n & Hl & Hi & H0 & Hn);
        [unfold same_config; simpl; auto|]
    end.
    exists n. cbn [world clock calls ws] in Hl, Hi, H0 |- *. rewrite Hl.
    split; [rewrite <- app_assoc; reflexivity|]. split; [exact Hi|].
    intros Hr. destruct n as [|n]; [rewrite (H0 eq_refl) in Hr; discriminate Hr|]. lia.
Qed.

Lemma apply_instance_modifications_calls rds s :
  exists m,
    calls (world (snd (__apply_instance_modifications rds s)))
    = calls (world s) ++ ModifyDBInstance (instance_identifier (ws s)) (security_groups (ws s))
                        :: repeat (DescribeDBInstances (instance_identifier (ws s))) m /\
    same_config (ws s) (ws (snd (__apply_instance_modifications rds s))) /\
    (fst (__apply_instance_modifications rds s) = inr tt ->
       (1 <= m)%nat /\ Z.of_nat m <= 6 * timeout (ws s) + 1).
Proof.
  destruct s as [w x]. unfold __apply_instance_modifications.
  cbv beta iota zeta delta [py_bind py_get ws_log_call lift_world log_call py_modify
                            time_time py_ret py_raise].
  cbn [world ws clock finder calls].
  destruct (modify_db_instance rds (clock w) (instance_identifier x) (security_groups x)
              (password x)) as [e|].
  - exists 0%nat. simpl. split; [reflexivity|].
    split; [unfold same_config; auto|]. intros Hr. discriminate Hr.
  - match goal with
    | |- context [while_before (clock (world ?t) + 60 * timeout x) _ ?ex ?t] =>
        destruct (while_before_calls (same_config x) (DescribeDBInstances (instance_identifier x))
                    (poll_modifications_applied rds) ex
                    (inl (TimeoutError ("Timed out applying changes to RDS instance "
                                        ++ instance_identifier x)))
                    (timeout x) t (poll_modifications_applied_calls rds x) (fun _ => eq_refl))
          as (n & Hl & Hi & H0 & Hn);
        [unfold same_config; simpl; auto|]
    end.
    exists n. cbn [world clock calls ws] in Hl, Hi, H0 |- *. rewrite Hl.
    split; [rewrite <- app_assoc; reflexivity|]. split; [exact Hi|].
    intros Hr. destruct n as [|n]; [rewrite (H0 eq_refl) in Hr; discriminate Hr|]. lia.
Qed.

(** X6.  When [get_instance()] provisions a workspace whose finder already
    knows the snapshot identifier (as it does after the constructor), and
    returns, its provider calls are, in order: one restore of the
    workspace's instance from that snapshot into the source instance's
    subnet group, between 1 and [6 * timeout + 1] describes of the
    instance, one modification applying the workspace's security groups,
    and again between 1 and [6 * timeout + 1] describes. *)
Theorem get_instance_provisioning_calls (rds : Rds) (dns : Dns) (w : World)
    (x : ScrubWorkspaceInstance) (sid : string) (r : option DBInstance) (s' : WsWorld) :
  instance x = None ->
  snapshot_identifier (finder w) = Some sid ->
  get_instance rds dns (mkWsWorld w x) = (inr r, s') ->
  exists n m,
    calls (world s')
    = calls w ++ RestoreDBInstanceFromDBSnapshot (instance_identifier x) sid
                   (DBSubnetGroupName (ws_source_instance x))
              :: repeat (DescribeDBInstances (instance_identifier x)) n
              ++ ModifyDBInstance (instance_identifier x) (security_groups x)
              :: repeat (DescribeDBInstances (instance_identifier x)) m /\
    (1 <= n)%nat /\ Z.of_nat n <= 6 * timeout x + 1 /\
    (1 <= m)%nat /\ Z.of_nat m <= 6 * timeout x + 1.
Proof.
  intros Hx Hsid. unfold get_instance. cbv beta iota delta [py_bind py_get].
  cbn [ws]. rewrite Hx.
  destruct (create_instance_calls rds dns w x sid Hsid) as (n & Hl1 & Hc1 & Hr1).
  destruct (__create_instance rds dns (mkWsWorld w x)) as [[e|[]] s1] eqn:Hc;
    [discriminate|].
  cbn [fst snd] in Hl1, Hc1, Hr1. destruct (Hr1 eq_refl) as [Hn1 Hn2].
  destruct (apply_instance_modifications_calls rds s1) as (m & Hl2 & Hc2 & Hr2).
  destruct (__apply_instance_modifications rds s1) as [[e|[]] s2] eqn:Ha;
    [discriminate|].
  cbn [fst snd] in Hl2, Hc2, Hr2. destruct (Hr2 eq_refl) as [Hm1 Hm2].
  unfold py_ret. intros H. injection H as _ <-.
  destruct Hc1 as (Hi & Ht & Hg & _).
  exists n, m. rewrite Hl2, Hl1, Hi, Hg, <- app_assoc. cbn [app].
  rewrite Ht in Hm2. auto.
Qed.

Lemma get_instance_provisioning_calls_witness :
  exists n m,
    calls (world (snd (get_instance rds_slow dns_none ws_new)))
    = calls world_example
      ++ RestoreDBInstanceFromDBSnapshot "scrubber-postgres-0123456789ab" "snap-1" "subnet-a"
      :: repeat (DescribeDBInstances "scrubber-postgres-0123456789ab") n
      ++ ModifyDBInstance "scrubber-postgres-0123456789ab" ["sg-1"]
      :: repeat (DescribeDBInstances "scrubber-postgres-0123456789ab") m /\
    (1 <= n)%nat /\ Z.of_nat n <= 6 * 1 + 1 /\
    (1 <= m)%nat /\ Z.of_nat m <= 6 * 1 + 1.
Proof.
  apply (get_instance_provisioning_calls rds_slow dns_none world_example (ws ws_new) "snap-1"
           (Some (slow_instance "scrubber-postgres-0123456789ab" 1020))
           (snd (get_instance rds_slow dns_none ws_new))).
  - reflexivity.
  - reflexivity.
  - vm_compute. reflexivity.
Defined.

(** ** The finder: resolving the endpoint and the source instance *)

(** [Name.is_subdomain]: the lowercased labels of [d] end those of [n]. *)
Lemma is_subdomain_spec (n d : list string) :
  is_subdomain n d = true <-> exists p, map string_lower n = p ++ map string_lower d.
Proof.
  unfold is_subdomain.
  set (ln := map string_lower n). set (ld := map string_lower d).
  rewrite andb_true_iff, Nat.leb_le, bool_decide_eq_true. split.
  - intros [Hle Hd]. exists (take (length ln - length ld) ln).
    transitivity (take (length ln - length ld) ln ++ drop (length ln - length ld) ln);
      [symmetry; apply take_drop|]. rewrite Hd. reflexivity.
  - intros [p Hp]. rewrite Hp, length_app. split; [lia|].
    apply drop_app_length'. lia.
Qed.

Lemma rds_domain_lower : map string_lower rds_domain = rds_domain.
Proof. reflexivity. Qed.

(** The finder once the endpoint address has been resolved. *)
Definition resolved_world (w : World) (h : string) (cname : list string) : World :=
  mkWorld (with_rds_endpoint_address (name_to_text cname) (finder w)) (clock w)
    (calls w ++ [DnsQuery h]).

Lemma get_rds_endpoint_address_cached dns w a :
  rds_endpoint_address (finder w) = Some a -> get_rds_endpoint_address dns w = (inr a, w).
Proof.
  intros H. unfold get_rds_endpoint_address. cbv beta iota delta [py_bind py_get].
  rewrite H. reflexivity.
Qed.

Lemma get_rds_endpoint_address_query dns w h cname :
  rds_endpoint_address (finder w) = None -> hostname (finder w) = Some h ->
  dns_canonical_name dns h = inr cname ->
  get_rds_endpoint_address dns w
  = if is_subdomain cname rds_domain
    then (inr (name_to_text cname), resolved_world w h cname)
    else (inl (PyException (name_to_text cname
                            ++ " is not a subdomain of RDS domain (rds.amazonaws.com.)")),
          mkWorld (finder w) (clock w) (calls w ++ [DnsQuery h])).
Proof.
  intros Ha Hh Hd. unfold get_rds_endpoint_address, get_hostname.
  cbv beta iota zeta delta [py_bind py_get py_ret py_raise py_lift log_call py_modify
                            set_finder].
  rewrite Ha, Hh. cbn [finder clock calls]. rewrite Hd.
  destruct (is_subdomain cname rds_domain); reflexivity.
Qed.

(** X7.  On a finder that has not resolved its endpoint yet and has a
    hostname [h], [get_rds_endpoint_address()] makes exactly one DNS query,
    for [h].  If the canonical name's labels end, compared without case,
    in [rds.amazonaws.com], it returns the canonical name as text (labels
    joined by dots, no trailing dot) and caches it.  Otherwise it raises
    "... is not a subdomain of RDS domain ..." and caches nothing. *)
Theorem get_rds_endpoint_address_resolves (dns : Dns) (w : World) (h : string)
    (cname : list string) :
  rds_endpoint_address (finder w) = None -> hostname (finder w) = Some h ->
  dns_canonical_name dns h = inr cname ->
  ((exists p, map string_lower cname = p ++ rds_domain) ->
     get_rds_endpoint_address dns w
     = (inr (name_to_text cname),
        mkWorld (with_rds_endpoint_address (name_to_text cname) (finder w)) (clock w)
          (calls w ++ [DnsQuery h]))) /\
  (~ (exists p, map string_lower cname = p ++ rds_domain) ->
     get_rds_endpoint_address dns w
     = (inl (PyException (name_to_text cname
                          ++ " is not a subdomain of RDS domain (rds.amazonaws.com.)")),
        mkWorld (finder w) (clock w) (calls w ++ [DnsQuery h]))).
Proof.
  intros Ha Hh Hd. rewrite (get_rds_endpoint_address_query dns w h cname Ha Hh Hd).
  pose proof (is_subdomain_spec cname rds_domain) as Hs. rewrite rds_domain_lower in Hs.
  split.
  - intros Hp. apply Hs in Hp. rewrite Hp. reflexivity.
  - intros Hp. destruct (is_subdomain cname rds_domain) eqn:E; [|reflexivity].
    exfalso. apply Hp. apply Hs. reflexivity.
Qed.

(** A resolver that maps one hostname to the endpoint of [prod-db]. *)
Definition dns_example : Dns :=
  mkDns (fun h => if String.eqb h "db.example.org"
                  then inr ["prod-db"; "abc123"; "eu-west-1"; "rds"; "amazonaws"; "com"]%string
                  else inl (PyException "NXDOMAIN")).

(** A finder built from a hostname only. *)
Definition finder_by_host : RdsSnapshotFinder :=
  mkFinder (Some "db.example.org") None None None None None.

Lemma get_rds_endpoint_address_resolves_witness :
  get_rds_endpoint_address dns_example (mkWorld finder_by_host 1000 [])
  = (inr "prod-db.abc123.eu-west-1.rds.amazonaws.com"%string,
     mkWorld (with_rds_endpoint_address "prod-db.abc123.eu-west-1.rds.amazonaws.com"
                finder_by_host) 1000 [DnsQuery "db.example.org"]).
Proof.
  apply (proj1 (get_rds_endpoint_address_resolves dns_example (mkWorld finder_by_host 1000 [])
                  "db.example.org"
                  ["prod-db"; "abc123"; "eu-west-1"; "rds"; "amazonaws"; "com"]%string
                  eq_refl eq_refl eq_refl)).
  exists ["prod-db"; "abc123"; "eu-west-1"]%string. reflexivity.
Defined.

(** [instance['Endpoint']['Address'] == address], for an instance that has
    the key ['Endpoint']. *)
Definition endpoint_matches (a : string) (i : DBInstance) : bool :=
  match i_Endpoint i with
  | Some ep => String.eqb (Address ep) a
  | None => false
  end.

Definition has_endpoint (i : DBInstance) : bool :=
  match i_Endpoint i with Some _ => true | None => false end.

(** The finder once the loop has found the instance [i]. *)
Definition found_world (i : DBInstance) (w : World) : World :=
  mkWorld (with_source_instance_identifier (i_DBInstanceIdentifier i)
             (with_source_instance i (finder w))) (clock w) (calls w).

Lemma find_instance_by_endpoint_cached dns L w a :
  rds_endpoint_address (finder w) = Some a ->
  find_instance_by_endpoint dns L w
  = (inr tt, match List.find (endpoint_matches a) L with
             | Some i => found_world i w
             | None => w
             end).
Proof.
  intros Ha. induction L as [|i L IH]; [reflexivity|].
  simpl find_instance_by_endpoint. simpl List.find. unfold endpoint_matches at 1.
  destruct (i_Endpoint i) as [ep|] eqn:He; [|exact IH].
  cbv beta iota delta [py_bind]. rewrite (get_rds_endpoint_address_cached dns w a Ha).
  destruct (String.eqb (Address ep) a); [|exact IH].
  reflexivity.
Qed.

Lemma find_no_endpoint a L :
  existsb has_endpoint L = false -> List.find (endpoint_matches a) L = None.
Proof.
  induction L as [|i L IH]; simpl; [reflexivity|].
  unfold has_endpoint, endpoint_matches. destruct (i_Endpoint i); [discriminate|].
  exact IH.
Qed.

Lemma find_instance_by_endpoint_query dns L w h cname :
  rds_endpoint_address (finder w) = None -> hostname (finder w) = Some h ->
  dns_canonical_name dns h = inr cname -> is_subdomain cname rds_domain = true ->
  find_instance_by_endpoint dns L w
  = (inr tt, if existsb has_endpoint L
             then match List.find (endpoint_matches (name_to_text cname)) L with
                  | Some i => found_world i (resolved_world w h cname)
                  | None => resolved_world w h cname
                  end
             else w).
Proof.
  intros Ha Hh Hd Hs. induction L as [|i L IH]; [reflexivity|].
  simpl find_instance_by_endpoint. simpl List.find. simpl existsb.
  unfold endpoint_matches at 1, has_endpoint at 1.
  destruct (i_Endpoint i) as [ep|] eqn:He; [|exact IH].
  cbv beta iota delta [py_bind]. rewrite (get_rds_endpoint_address_query dns w h cname Ha Hh Hd), Hs.
  simpl orb. destruct (String.eqb (Address ep) (name_to_text cname)); [reflexivity|].
  apply find_instance_by_endpoint_cached. reflexivity.
Qed.

(** X8.  On a finder with neither a source instance nor its identifier,
    [get_source_instance()] enumerates all instances once and resolves the
    hostname [h] once, however many instances have an endpoint.  Suppose
    the hostname resolves to an RDS name with address [a].  If some listed
    instance has an endpoint with address [a], it returns the first such
    instance in the provider's order and records its identifier as the
    source-instance identifier.  Otherwise it raises "Couldn't find an RDS
    instance matching endpoint address [a]". *)
Theorem get_source_instance_by_endpoint (rds : Rds) (dns : Dns) (w : World) (h : string)
    (cname : list string) (L : list DBInstance) :
  source_instance (finder w) = None -> source_instance_identifier (finder w) = None ->
  rds_endpoint_address (finder w) = None -> hostname (finder w) = Some h ->
  dns_canonical_name dns h = inr cname -> is_subdomain cname rds_domain = true ->
  describe_db_instances_all rds (clock w) = inr L ->
  calls (snd (get_source_instance rds dns w)) = calls w ++ [DescribeDBInstancesAll; DnsQuery h] /\
  match List.find (endpoint_matches (name_to_text cname)) L with
  | Some i =>
      fst (get_source_instance rds dns w) = inr i /\
      source_instance_identifier (finder (snd (get_source_instance rds dns w)))
      = Some (i_DBInstanceIdentifier i)
  | None =>
      fst (get_source_instance rds dns w)
      = inl (PyException ("Couldn't find an RDS instance matching endpoint address "
                          ++ name_to_text cname))
  end.
Proof.
  intros Hsi Hid Ha Hh Hd Hs HL.
  unfold get_source_instance.
  cbv beta iota zeta delta [py_bind py_get py_ret py_raise py_lift log_call py_modify].
  rewrite Hsi, Hid. cbn [finder clock calls]. rewrite HL.
  set (w0 := mkWorld (finder w) (clock w) (calls w ++ [DescribeDBInstancesAll])).
  rewrite (find_instance_by_endpoint_query dns L w0 h cname Ha Hh Hd Hs).
  destruct (existsb has_endpoint L) eqn:Hex.
  - destruct (List.find (endpoint_matches (name_to_text cname)) L) as [i|] eqn:Hf.
    + unfold found_world, resolved_world, with_source_instance_identifier,
        with_source_instance. cbn. rewrite <- app_assoc. auto.
    + unfold resolved_world. subst w0.
      cbn [finder clock calls with_rds_endpoint_address source_instance].
      rewrite Hsi.
      erewrite (get_rds_endpoint_address_cached dns _ (name_to_text cname))
        by reflexivity.
      cbn. rewrite <- app_assoc. auto.
  - rewrite (find_no_endpoint (name_to_text cname) L Hex).
    change (source_instance (finder w0)) with (source_instance (finder w)). rewrite Hsi.
    rewrite (get_rds_endpoint_address_query dns w0 h cname Ha Hh Hd), Hs.
    cbn. rewrite <- app_assoc. auto.
Qed.

(** An account with an instance that has no endpoint yet, then [prod-db]. *)
Definition rds_two_instances : Rds :=
  mkRds (fun _ => inr [mkDBInstance "new-db" None "creating" [] [] "subnet-a" "aws_db_admin";
                       inst_example])
    (fun _ _ => inr [inst_example])
    (fun _ _ => inr [snap_example])
    (fun _ _ => inr [snap_example])
    (fun _ => inr [snap_example])
    (fun _ _ _ _ => None) (fun _ _ _ _ => None)
    (fun _ _ _ => None) (fun _ _ => None).

Lemma get_source_instance_by_endpoint_witness :
  calls (snd (get_source_instance rds_two_instances dns_example (mkWorld finder_by_host 1000 [])))
  = [] ++ [DescribeDBInstancesAll; DnsQuery "db.example.org"] /\
  fst (get_source_instance rds_two_instances dns_example (mkWorld finder_by_host 1000 []))
  = inr inst_example /\
  source_instance_identifier
    (finder (snd (get_source_instance rds_two_instances dns_example
                    (mkWorld finder_by_host 1000 []))))
  = Some "prod-db"%string.
Proof.
  exact (get_source_instance_by_endpoint rds_two_instances dns_example
           (mkWorld finder_by_host 1000 []) "db.example.org"
           ["prod-db"; "abc123"; "eu-west-1"; "rds"; "amazonaws"; "com"]%string
           [mkDBInstance "new-db" None "creating" [] [] "subnet-a" "aws_db_admin"; inst_example]
           eq_refl eq_refl eq_refl eq_refl eq_refl eq_refl eq_refl).
Defined.

(** ** The finder's getters cache what they return *)

Lemma get_rds_endpoint_address_stores dns w a w' :
  get_rds_endpoint_address dns w = (inr a, w') -> rds_endpoint_address (finder w') = Some a.
Proof.
  unfold get_rds_endpoint_address, get_hostname.
  cbv beta iota zeta delta [py_bind py_get py_ret py_raise py_lift log_call py_modify
                            set_finder].
  destruct (rds_endpoint_address (finder w)) as [a0|] eqn:Ha.
  - intros H. injection H as <- <-. exact Ha.
  - destruct (hostname (finder w)) as [h|]; [|discriminate].
    cbn [finder clock calls].
    destruct (dns_canonical_name dns h) as [e|cname]; [discriminate|].
    destruct (is_subdomain cname rds_domain); [|discriminate].
    intros H. injection H as <- <-. reflexivity.
Qed.

Lemma get_source_instance_stores rds dns w i w' :
  get_source_instance rds dns w = (inr i, w') -> source_instance (finder w') = Some i.
Proof.
  unfold get_source_instance.
  cbv beta iota zeta delta [py_bind py_get py_ret py_raise py_lift log_call py_modify
                            set_finder py_index0].
  destruct (source_instance (finder w)) as [i0|] eqn:Hs.
  - intros H. injection H as <- <-. exact Hs.
  - destruct (source_instance_identifier (finder w)) as [id|]; cbn [finder clock calls].
    + destruct (describe_db_instances rds (clock w) id) as [e|[|i1 l]]; try discriminate.
      intros H. injection H as <- <-. reflexivity.
    + destruct (describe_db_instances_all rds (clock w)) as [e|L]; [discriminate|].
      destruct (find_instance_by_endpoint dns L
                  (mkWorld (finder w) (clock w) (calls w ++ [DescribeDBInstancesAll])))
        as [[e|[]] w1]; [discriminate|].
      destruct (source_instance (finder w1)) as [i1|] eqn:H1.
      * intros H. injection H as <- <-. exact H1.
      * destruct (get_rds_endpoint_address dns w1) as [[e|a] w2]; discriminate.
Qed.

Lemma get_source_instance_identifier_stores rds dns w id w' :
  get_source_instance_identifier rds dns w = (inr id, w') ->
  source_instance_identifier (finder w') = Some id.
Proof.
  unfold get_source_instance_identifier.
  cbv beta iota zeta delta [py_bind py_get py_ret set_finder py_modify].
  destruct (source_instance_identifier (finder w)) as [id0|] eqn:Hs.
  - intros H. injection H as <- <-. exact Hs.
  - destruct (get_source_instance rds dns w) as [[e|i] w1]; [discriminate|].
    intros H. injection H as <- <-. reflexivity.
Qed.

Lemma get_snapshot_identifier_stores rds dns w id w' :
  get_snapshot_identifier rds dns w = (inr id, w') ->
  snapshot_identifier (finder w') = Some id.
Proof.
  unfold get_snapshot_identifier.
  cbv beta iota zeta delta [py_bind py_get py_ret py_raise py_lift log_call py_modify
                            set_finder py_index0].
  destruct (snapshot_identifier (finder w)) as [id0|] eqn:Hs.
  - intros H. injection H as <- <-. exact Hs.
  - destruct (get_source_instance_identifier rds dns w) as [[e|sid] w1]; [discriminate|].
    cbn [finder clock calls].
    destruct (describe_db_snapshots_by_instance rds (clock w1) sid) as [e|[|x l]];
      try discriminate.
    destruct (py_sort_reverse snapshot_create_time_key (x :: l)) as [e|[|y r]];
      try discriminate.
    intros H. injection H as <- <-. reflexivity.
Qed.

Lemma get_snapshot_stores rds dns w s w' :
  get_snapshot rds dns w = (inr s, w') -> snapshot (finder w') = Some s.
Proof.
  unfold get_snapshot.
  cbv beta iota zeta delta [py_bind py_get py_ret py_raise py_lift log_call py_modify
                            set_finder].
  destruct (snapshot (finder w)) as [s0|] eqn:Hs.
  - intros H. injection H as <- <-. exact Hs.
  - destruct (get_snapshot_identifier rds dns w) as [[e|sid] w1]; [discriminate|].
    cbn [finder clock calls].
    destruct (describe_db_snapshots_by_id rds (clock w1) sid) as [e|[|x l]];
      try discriminate.
    intros H. injection H as <- <-. reflexivity.
Qed.

(** X9.  Each lazy getter of the finder caches what it returns: once
    [get_rds_endpoint_address()], [get_source_instance()],
    [get_source_instance_identifier()], [get_snapshot_identifier()] or
    [get_snapshot()] has returned a value, calling it again returns the same
    value with no provider or DNS call and no change of state. *)
Theorem finder_getters_memoised (rds : Rds) (dns : Dns) (w w' : World) :
  (forall a, get_rds_endpoint_address dns w = (inr a, w') ->
     get_rds_endpoint_address dns w' = (inr a, w')) /\
  (forall i, get_source_instance rds dns w = (inr i, w') ->
     get_source_instance rds dns w' = (inr i, w')) /\
  (forall id, get_source_instance_identifier rds dns w = (inr id, w') ->
     get_source_instance_identifier rds dns w' = (inr id, w')) /\
  (forall id, get_snapshot_identifier rds dns w = (inr id, w') ->
     get_snapshot_identifier rds dns w' = (inr id, w')) /\
  (forall s, get_snapshot rds dns w = (inr s, w') ->
     get_snapshot rds dns w' = (inr s, w')).
Proof.
  split; [|split; [|split; [|split]]].
  - intros a H. apply get_rds_endpoint_address_cached.
    exact (get_rds_endpoint_address_stores dns w a w' H).
  - intros i H. pose proof (get_source_instance_stores rds dns w i w' H) as Hs.
    unfold get_source_instance. cbv beta iota delta [py_bind py_get].
    rewrite Hs. reflexivity.
  - intros id H. pose proof (get_source_instance_identifier_stores rds dns w id w' H) as Hs.
    unfold get_source_instance_identifier. cbv beta iota delta [py_bind py_get].
    rewrite Hs. reflexivity.
  - intros id H. apply get_snapshot_identifier_cached.
    exact (get_snapshot_identifier_stores rds dns w id w' H).
  - intros s H. pose proof (get_snapshot_stores rds dns w s w' H) as Hs.
    unfold get_snapshot. cbv beta iota delta [py_bind py_get].
    rewrite Hs. reflexivity.
Qed.

Lemma finder_getters_memoised_witness :
  get_snapshot rds_example dns_none (snd (get_snapshot rds_example dns_none world_example))
  = (inr snap_example, snd (get_snapshot rds_example dns_none world_example)).
Proof.
  apply (proj2 (proj2 (proj2 (proj2
           (finder_getters_memoised rds_example dns_none world_example
              (snd (get_snapshot rds_example dns_none world_example))))))).
  vm_compute. reflexivity.
Defined.

(** X10.  Empty answers from the provider: [get_snapshot_identifier()]
    raises "No snapshots found" when the source instance has no snapshot,
    [get_snapshot()] raises "Snapshot [sid] not found" when the snapshot
    [sid] is not listed, and [get_source_instance()] raises [IndexError]
    when the known source instance is not listed.  In each case the one
    describe call is logged and nothing is cached. *)
Theorem finder_empty_responses (rds : Rds) (dns : Dns) (w : World) :
  (forall id, snapshot_identifier (finder w) = None ->
     source_instance_identifier (finder w) = Some id ->
     describe_db_snapshots_by_instance rds (clock w) id = inr [] ->
     get_snapshot_identifier rds dns w
     = (inl (PyException "No snapshots found"),
        mkWorld (finder w) (clock w) (calls w ++ [DescribeDBSnapshotsByInstance id]))) /\
  (forall sid, snapshot (finder w) = None ->
     snapshot_identifier (finder w) = Some sid ->
     describe_db_snapshots_by_id rds (clock w) sid = inr [] ->
     get_snapshot rds dns w
     = (inl (PyException ("Snapshot " ++ sid ++ " not found")),
        mkWorld (finder w) (clock w) (calls w ++ [DescribeDBSnapshotsById sid]))) /\
  (forall id, source_instance (finder w) = None ->
     source_instance_identifier (finder w) = Some id ->
     describe_db_instances rds (clock w) id = inr [] ->
     get_source_instance rds dns w
     = (inl IndexError, mkWorld (finder w) (clock w) (calls w ++ [DescribeDBInstances id]))).
Proof.
  split; [|split].
  - intros id Hs Hid Hd. unfold get_snapshot_identifier, get_source_instance_identifier.
    cbv beta iota zeta delta [py_bind py_get py_ret py_raise py_lift log_call py_modify].
    rewrite Hs, Hid. cbn [finder clock calls]. rewrite Hd. reflexivity.
  - intros sid Hs Hsid Hd. unfold get_snapshot.
    cbv beta iota zeta delta [py_bind py_get py_ret py_raise py_lift log_call py_modify].
    rewrite Hs, (get_snapshot_identifier_cached rds dns w sid Hsid).
    cbn [finder clock calls]. rewrite Hd. reflexivity.
  - intros id Hs Hid Hd. unfold get_source_instance.
    cbv beta iota zeta delta [py_bind py_get py_ret py_raise py_lift log_call py_modify
                              py_index0].
    rewrite Hs, Hid. cbn [finder clock calls]. rewrite Hd. reflexivity.
Qed.

Lemma finder_empty_responses_witness :
  get_snapshot_identifier (rds_with_snapshots []) dns_none finder_by_instance_world
  = (inl (PyException "No snapshots found"),
     mkWorld finder_by_instance 1000 [DescribeDBSnapshotsByInstance "prod-db"]).
Proof.
  apply (proj1 (finder_empty_responses (rds_with_snapshots []) dns_none
                  finder_by_instance_world) "prod-db"); reflexivity.
Defined.

(** ** The sort on keys of both kinds *)

(** Whether a key is a [datetime] (rather than the default [int]). *)
Definition key_kind (k : py_key) : bool :=
  match k with KInt _ => false | KDatetime _ => true end.

Lemma py_lt_kind a b r : py_lt a b = inr r -> key_kind a = key_kind b.
Proof. destruct a, b; simpl; congruence. Qed.

Lemma py_lt_error a b e : py_lt a b = inl e -> e = TypeError.
Proof. destruct a, b; simpl; congruence. Qed.

Lemma insert_sorted_error {A} (key : A -> py_key) x l e :
  insert_sorted key x l = inl e -> e = TypeError.
Proof.
  induction l as [|y l IH]; simpl; [discriminate|].
  destruct (py_lt (key x) (key y)) as [e'|[|]] eqn:E.
  - intros H. injection H as <-. exact (py_lt_error _ _ _ E).
  - discriminate.
  - destruct (insert_sorted key x l); [|discriminate]. intros H. injection H as <-. auto.
Qed.

Lemma sort_into_error {A} (key : A -> py_key) acc l e :
  sort_into key acc l = inl e -> e = TypeError.
Proof.
  revert acc. induction l as [|x l IH]; intros acc; simpl; [discriminate|].
  destruct (insert_sorted key x acc) as [e'|acc'] eqn:E.
  - intros H. injection H as <-. exact (insert_sorted_error key x acc e' E).
  - apply IH.
Qed.

Lemma insert_sorted_perm {A} (key : A -> py_key) x l r :
  insert_sorted key x l = inr r -> r ≡ₚ x :: l.
Proof.
  revert r. induction l as [|y l IH]; intros r; simpl.
  - intros H. injection H as <-. reflexivity.
  - destruct (py_lt (key x) (key y)) as [e|[|]]; try discriminate.
    + intros H. injection H as <-. reflexivity.
    + destruct (insert_sorted key x l) as [e|r'] eqn:E; [discriminate|].
      intros H. injection H as <-. rewrite (IH r' eq_refl). apply perm_swap.
Qed.

Lemma insert_sorted_head_kind {A} (key : A -> py_key) x y l r :
  insert_sorted key x (y :: l) = inr r -> key_kind (key x) = key_kind (key y).
Proof.
  simpl. destruct (py_lt (key x) (key y)) as [e|b] eqn:E; [discriminate|].
  intros _. exact (py_lt_kind _ _ _ E).
Qed.

(** All elements of [l] have keys of the same kind. *)
Definition same_kind {A} (key : A -> py_key) (l : list A) : Prop :=
  forall y z, y ∈ l -> z ∈ l -> key_kind (key y) = key_kind (key z).

Lemma same_kind_perm {A} (key : A -> py_key) l1 l2 :
  l1 ≡ₚ l2 -> same_kind key l1 -> same_kind key l2.
Proof.
  intros Hp H y z Hy Hz. apply H; rewrite Hp; assumption.
Qed.

Lemma same_kind_cons {A} (key : A -> py_key) x l :
  same_kind key l -> (forall y, y ∈ l -> key_kind (key x) = key_kind (key y)) ->
  same_kind key (x :: l).
Proof.
  intros Hl Hx y z Hy Hz.
  apply elem_of_cons in Hy as [->|Hy]; apply elem_of_cons in Hz as [->|Hz].
  - reflexivity.
  - apply Hx. exact Hz.
  - symmetry. apply Hx. exact Hy.
  - apply Hl; assumption.
Qed.

(** A sort that returns has compared all keys successfully: they are all
    [int]s or all [datetime]s. *)
Lemma sort_into_same_kind {A} (key : A -> py_key) acc l r :
  sort_into key acc l = inr r -> same_kind key acc -> same_kind key (l ++ acc).
Proof.
  revert acc. induction l as [|x l IH]; intros acc; simpl; [intros _ H; exact H|].
  destruct (insert_sorted key x acc) as [e|acc'] eqn:E; [discriminate|].
  intros Hs Hacc.
  assert (Hacc' : same_kind key acc').
  { apply (same_kind_perm key (x :: acc)); [symmetry; exact (insert_sorted_perm key x acc acc' E)|].
    apply same_kind_cons; [exact Hacc|].
    destruct acc as [|y l']; [intros y Hy; apply elem_of_nil in Hy; contradiction|].
    intros z Hz. rewrite (insert_sorted_head_kind key x y l' acc' E).
    apply Hacc; [apply elem_of_cons; left; reflexivity|exact Hz]. }
  pose proof (IH acc' Hs Hacc') as H.
  apply (same_kind_perm key (l ++ acc')); [|exact H].
  rewrite (insert_sorted_perm key x acc acc' E). symmetry. apply Permutation_middle.
Qed.

(** A list mixing [int] and [datetime] keys makes the sort raise
    [TypeError]. *)
Lemma py_sort_reverse_mixed {A} (key : A -> py_key) (l : list A) x y :
  x ∈ l -> y ∈ l -> key_kind (key x) <> key_kind (key y) ->
  py_sort_reverse key l = inl TypeError.
Proof.
  intros Hx Hy Hk. unfold py_sort_reverse.
  destruct (sort_into key [] (rev l)) as [e|r] eqn:E.
  - rewrite (sort_into_error key [] (rev l) e E). reflexivity.
  - exfalso. apply Hk.
    apply (sort_into_same_kind key [] (rev l) r E).
    + intros a b Ha. apply elem_of_nil in Ha. contradiction.
    + rewrite app_nil_r. apply elem_of_rev. exact Hx.
    + rewrite app_nil_r. apply elem_of_rev. exact Hy.
Qed.

Lemma snapshot_key_kind x :
  key_kind (snapshot_create_time_key x) = match SnapshotCreateTime x with
                                          | Some _ => true
                                          | None => false
                                          end.
Proof. unfold snapshot_create_time_key. destruct (SnapshotCreateTime x); reflexivity. Qed.

Lemma snapshot_key_kinds_differ x y :
  SnapshotCreateTime x <> None -> SnapshotCreateTime y = None ->
  key_kind (snapshot_create_time_key x) <> key_kind (snapshot_create_time_key y).
Proof.
  intros Hx Hy. rewrite !snapshot_key_kind, Hy.
  destruct (SnapshotCreateTime x); [discriminate|contradiction].
Qed.

(** X11.  When the snapshots listed for the source instance include one
    with a creation time and one without (still being created),
    [get_snapshot_identifier()] raises [TypeError] after its one listing
    call, for any order and number of snapshots, and chooses nothing: the
    finder is left as it was. *)
Theorem get_snapshot_identifier_mixed_times (rds : Rds) (dns : Dns) (w : World) (id : string)
    (l : list DBSnapshot) (x y : DBSnapshot) :
  snapshot_identifier (finder w) = None ->
  source_instance_identifier (finder w) = Some id ->
  describe_db_snapshots_by_instance rds (clock w) id = inr l ->
  x ∈ l -> y ∈ l -> SnapshotCreateTime x <> None -> SnapshotCreateTime y = None ->
  get_snapshot_identifier rds dns w
  = (inl TypeError,
     mkWorld (finder w) (clock w) (calls w ++ [DescribeDBSnapshotsByInstance id])).
Proof.
  intros Hs Hid Hd Hx Hy Htx Hty.
  unfold get_snapshot_identifier, get_source_instance_identifier.
  cbv beta iota zeta delta [py_bind py_get py_ret py_raise py_lift log_call py_modify].
  rewrite Hs, Hid. cbn [finder clock calls]. rewrite Hd.
  rewrite (py_sort_reverse_mixed snapshot_create_time_key l x y Hx Hy
             (snapshot_key_kinds_differ x y Htx Hty)).
  destruct l; [apply elem_of_nil in Hx; contradiction|]. reflexivity.
Qed.

Lemma get_snapshot_identifier_mixed_times_witness :
  get_snapshot_identifier (rds_with_snapshots [snap_old; snap_pending; snap_example]) dns_none
    finder_by_instance_world
  = (inl TypeError,
     mkWorld finder_by_instance 1000 [DescribeDBSnapshotsByInstance "prod-db"]).
Proof.
  apply (get_snapshot_identifier_mixed_times
           (rds_with_snapshots [snap_old; snap_pending; snap_example]) dns_none
           finder_by_instance_world "prod-db" [snap_old; snap_pending; snap_example]
           snap_example snap_pending).
  - reflexivity.
  - reflexivity.
  - vm_compute. reflexivity.
  - right. right. left.
  - right. left.
  - discriminate.
  - reflexivity.
Defined.

(** ** Which snapshots [delete_old_snapshots] can delete *)

Lemma sort_into_perm {A} (key : A -> py_key) acc l r :
  sort_into key acc l = inr r -> r ≡ₚ l ++ acc.
Proof.
  revert acc. induction l as [|x l IH]; intros acc; simpl.
  - intros H. injection H as <-. reflexivity.
  - destruct (insert_sorted key x acc) as [e|acc'] eqn:E; [discriminate|].
    intros H. rewrite (IH acc' H), (insert_sorted_perm key x acc acc' E).
    symmetry. apply Permutation_middle.
Qed.

Lemma py_sort_reverse_perm {A} (key : A -> py_key) l r :
  py_sort_reverse key l = inr r -> r ≡ₚ l.
Proof.
  unfold py_sort_reverse.
  destruct (sort_into key [] (rev l)) as [e|r'] eqn:E; [discriminate|].
  intros H. injection H as <-.
  rewrite <- Permutation_rev, (sort_into_perm key [] (rev l) r' E), app_nil_r.
  symmetry. apply Permutation_rev.
Qed.

(** The deletion loop stops at the first failing deletion: whatever the
    provider answers, it has tried to delete a prefix of its list. *)
Lemma delete_snapshots_prefix (rds : Rds) (L : list DBSnapshot) (s : WsWorld) :
  exists k,
    snd (delete_snapshots rds L s)
    = mkWsWorld
        (mkWorld (finder (world s)) (clock (world s))
           (calls (world s) ++ map (fun x => DeleteDBSnapshot (DBSnapshotIdentifier x)) (take k L)))
        (ws s).
Proof.
  revert s. induction L as [|x L IH]; intros s; simpl.
  - exists 0%nat. simpl. rewrite app_nil_r. destruct s as [[f c l] y]. reflexivity.
  - cbv beta iota delta [py_bind py_ret py_raise ws_log_call lift_world log_call py_modify
                         time_time].
    cbn [world ws finder clock calls].
    destruct (delete_db_snapshot rds (clock (world s)) (DBSnapshotIdentifier x)).
    + exists 1%nat. reflexivity.
    + edestruct IH as [k Hk]. exists (S k). rewrite Hk. cbn [world ws finder clock calls].
      rewrite <- app_assoc. reflexivity.
Qed.

Lemma py_slice_from_drop {A} (n : Z) (l : list A) : exists j, py_slice_from n l = drop j l.
Proof. unfold py_slice_from. eexists. reflexivity. Qed.

(** X12.  When the workspace's snapshots include one with a creation time
    and one without, [delete_old_snapshots(keep_n)] raises [TypeError]
    after listing the snapshots and deletes nothing, whatever [keep_n]. *)
Theorem delete_old_snapshots_mixed_times (rds : Rds) (keep_n : Z) (s : WsWorld)
    (response : list DBSnapshot) (x y : DBSnapshot) :
  describe_db_snapshots_shared rds (clock (world s)) = inr response ->
  x ∈ own_snapshots (instance_identifier (ws s)) response ->
  y ∈ own_snapshots (instance_identifier (ws s)) response ->
  SnapshotCreateTime x <> None -> SnapshotCreateTime y = None ->
  delete_old_snapshots rds keep_n s = (inl TypeError, after_deletions s []).
Proof.
  intros Hresp Hx Hy Htx Hty. unfold delete_old_snapshots.
  cbv beta iota zeta delta [py_bind py_get py_ret py_lift ws_log_call lift_world log_call
                            py_modify time_time].
  cbn [world ws finder clock calls]. rewrite Hresp.
  change (filter (fun x => s_DBInstanceIdentifier x = instance_identifier (ws s)) response)
    with (own_snapshots (instance_identifier (ws s)) response).
  rewrite (py_sort_reverse_mixed snapshot_create_time_key _ x y Hx Hy
             (snapshot_key_kinds_differ x y Htx Hty)).
  reflexivity.
Qed.

Definition ws_snap_pending : DBSnapshot :=
  mkDBSnapshot "s-40" "scrubber-postgres-0123456789ab" None "creating" "postgres".

Lemma delete_old_snapshots_mixed_times_witness :
  delete_old_snapshots (rds_with_snapshots (shared_snapshots ++ [ws_snap_pending])) 2 ws_example
  = (inl TypeError, after_deletions ws_example []).
Proof.
  apply (delete_old_snapshots_mixed_times
           (rds_with_snapshots (shared_snapshots ++ [ws_snap_pending])) 2 ws_example
           (shared_snapshots ++ [ws_snap_pending]) (ws_snap "s-30" 30) ws_snap_pending).
  - reflexivity.
  - vm_compute. right. left.
  - vm_compute. right. right. right. left.
  - discriminate.
  - reflexivity.
Defined.

(** X13.  Whatever [keep_n] is (negative included) and whichever
    deletions fail, [delete_old_snapshots(keep_n)] makes one listing call
    and then only [delete_db_snapshot] calls, for snapshots of this
    workspace's instance, each at most as often as the listing names it;
    the workspace object is left unchanged. *)
Theorem delete_old_snapshots_only_own (rds : Rds) (keep_n : Z) (s : WsWorld)
    (response : list DBSnapshot) :
  describe_db_snapshots_shared rds (clock (world s)) = inr response ->
  exists D,
    D ⊆+ own_snapshots (instance_identifier (ws s)) response /\
    snd (delete_old_snapshots rds keep_n s) = after_deletions s D.
Proof.
  intros Hresp. unfold delete_old_snapshots.
  cbv beta iota zeta delta [py_bind py_get py_ret py_lift ws_log_call lift_world log_call
                            py_modify time_time].
  cbn [world ws finder clock calls]. rewrite Hresp.
  change (filter (fun x => s_DBInstanceIdentifier x = instance_identifier (ws s)) response)
    with (own_snapshots (instance_identifier (ws s)) response).
  set (L := own_snapshots (instance_identifier (ws s)) response).
  destruct (py_sort_reverse snapshot_create_time_key L) as [e|S] eqn:E.
  - exists []. split; [apply submseteq_nil_l|]. reflexivity.
  - destruct (py_slice_from_drop keep_n S) as [j Hj]. rewrite Hj.
    match goal with
    | |- exists D, _ /\ snd (delete_snapshots rds _ ?s1) = _ =>
        destruct (delete_snapshots_prefix rds (drop j S) s1) as [k Hk]
    end.
    exists (take k (drop j S)). split.
    + transitivity S.
      * apply sublist_submseteq. transitivity (drop j S); [apply sublist_take|apply sublist_drop].
      * apply Permutation_submseteq. exact (py_sort_reverse_perm _ _ _ E).
    + rewrite Hk. unfold after_deletions. cbn [world ws finder clock calls].
      rewrite <- app_assoc. reflexivity.
Qed.

(** An account in which deleting snapshot [s-20] fails. *)
Definition rds_delete_fails : Rds :=
  mkRds (fun _ => inr [inst_example])
    (fun _ _ => inr [inst_example])
    (fun _ id => inr (filter (fun x => DBSnapshotIdentifier x = id) shared_snapshots))
    (fun _ id => inr (filter (fun x => s_DBInstanceIdentifier x = id) shared_snapshots))
    (fun _ => inr shared_snapshots)
    (fun _ _ _ _ => None) (fun _ _ _ _ => None) (fun _ _ _ => None)
    (fun _ id => if String.eqb id "s-20" then Some (ClientError "InvalidDBSnapshotState")
                 else None).

Lemma delete_old_snapshots_only_own_witness :
  exists D,
    D ⊆+ own_snapshots "scrubber-postgres-0123456789ab" shared_snapshots /\
    snd (delete_old_snapshots rds_delete_fails 0 ws_example) = after_deletions ws_example D.
Proof.
  apply (delete_old_snapshots_only_own rds_delete_fails 0 ws_example shared_snapshots).
  reflexivity.
Defined.

(** ** What the finder and the workspace constructor may change *)

(** The provider calls that only read: listings and DNS queries. *)
Definition read_only_call (c : RdsCall) : bool :=
  match c with
  | DescribeDBInstancesAll | DescribeDBInstances _ | DescribeDBSnapshotsById _
  | DescribeDBSnapshotsByInstance _ | DescribeDBSnapshotsShared | DnsQuery _ => true
  | RestoreDBInstanceFromDBSnapshot _ _ _ | ModifyDBInstance _ _ | DeleteDBInstance _ _
  | DeleteDBSnapshot _ => false
  end.

(** From [w] to [w']: the clock has not moved and only read-only calls
    were added to the log. *)
Definition ro_step (w w' : World) : Prop :=
  clock w' = clock w /\
  exists cs, calls w' = calls w ++ cs /\ Forall (fun c => read_only_call c = true) cs.

(** From [w] to [w']: the finder's cached snapshot is unchanged. *)
Definition snapshot_kept (w w' : World) : Prop := snapshot (finder w') = snapshot (finder w).

(** Every run of [m] relates its start and end worlds by [R]. *)
Definition frames {A} (R : World -> World -> Prop) (m : PyM World A) : Prop :=
  forall w, R w (snd (m w)).

Section Frames.

Context (R : World -> World -> Prop) `{!PreOrder R}.

Lemma frames_ret {A} (a : A) : frames R (py_ret a).
Proof. intros w. reflexivity. Qed.

Lemma frames_raise {A} e : frames R (A := A) (py_raise e).
Proof. intros w. reflexivity. Qed.

Lemma frames_get : frames R py_get.
Proof. intros w. reflexivity. Qed.

Lemma frames_lift {A} (r : exc + A) : frames R (py_lift r).
Proof. intros w. reflexivity. Qed.

Lemma frames_bind {A B} (m : PyM World A) (k : A -> PyM World B) :
  frames R m -> (forall a, frames R (k a)) -> frames R (py_bind m k).
Proof.
  intros Hm Hk w. unfold py_bind. pose proof (Hm w) as H1.
  destruct (m w) as [[e|a] w'] eqn:E; simpl in *; [exact H1|].
  transitivity w'; [exact H1|apply Hk].
Qed.

End Frames.

Global Instance ro_step_preorder : PreOrder ro_step.
Proof.
  split.
  - intros w. split; [reflexivity|]. exists []. rewrite app_nil_r. split; constructor.
  - intros a b c [Hab [cs1 [H1 F1]]] [Hbc [cs2 [H2 F2]]]. split; [congruence|].
    exists (cs1 ++ cs2). rewrite H2, H1, app_assoc. split; [reflexivity|].
    apply Forall_app. split; assumption.
Qed.

Global Instance snapshot_kept_preorder : PreOrder snapshot_kept.
Proof.
  unfold snapshot_kept. split.
  - intros w. reflexivity.
  - intros a b c H1 H2. congruence.
Qed.

Lemma ro_log_call c : read_only_call c = true -> frames ro_step (log_call c).
Proof. intros Hc w. split; [reflexivity|]. exists [c]. split; [reflexivity|]. repeat constructor; exact Hc. Qed.

Lemma ro_set_finder f : frames ro_step (set_finder f).
Proof. intros w. split; [reflexivity|]. exists []. rewrite app_nil_r. split; constructor. Qed.

Lemma snapshot_kept_log_call c : frames snapshot_kept (log_call c).
Proof. intros w. reflexivity. Qed.

Lemma snapshot_kept_set_finder f :
  (forall x, snapshot (f x) = snapshot x) -> frames snapshot_kept (set_finder f).
Proof. intros Hf w. apply Hf. Qed.

Ltac frames_tac :=
  repeat match goal with
  | |- PreOrder _ => exact _
  | |- frames _ (py_bind _ _) => apply frames_bind; [..|intros ?]
  | |- frames _ py_get => apply frames_get
  | |- frames _ (py_ret _) => apply frames_ret
  | |- frames _ (py_raise _) => apply frames_raise
  | |- frames _ (py_lift _) => apply frames_lift
  | |- frames _ (py_index0 ?l) => unfold py_index0
  | |- frames ro_step (log_call _) => apply ro_log_call; reflexivity
  | |- frames ro_step (set_finder _) => apply ro_set_finder
  | |- frames snapshot_kept (log_call _) => apply snapshot_kept_log_call
  | |- frames snapshot_kept (set_finder _) =>
      apply snapshot_kept_set_finder; intros; reflexivity
  | |- frames _ (match ?x with _ => _ end) => destruct x
  end.

Section FinderFrames.

Context (rds : Rds) (dns : Dns).

Lemma get_rds_endpoint_address_frames R `{!PreOrder R} :
  (forall h, frames R (log_call (DnsQuery h))) ->
  (forall x, frames R (set_finder (with_rds_endpoint_address x))) ->
  frames R (get_rds_endpoint_address dns).
Proof.
  intros Hq Hs. unfold get_rds_endpoint_address, get_hostname.
  repeat match goal with
  | |- PreOrder _ => exact _
  | |- frames _ (py_bind _ _) => apply frames_bind; [..|intros ?]
  | |- frames _ py_get => apply frames_get
  | |- frames _ (py_ret _) => apply frames_ret
  | |- frames _ (py_raise _) => apply frames_raise
  | |- frames _ (py_lift _) => apply frames_lift
  | |- frames _ (match ?x with _ => _ end) => destruct x
  end; auto.
Qed.

Lemma get_source_instance_ro : frames ro_step (get_source_instance rds dns).
Proof.
  assert (Ha : frames ro_step (get_rds_endpoint_address dns)).
  { apply get_rds_endpoint_address_frames; intros; frames_tac. }
  assert (Hf : forall l, frames ro_step (find_instance_by_endpoint dns l)).
  { induction l as [|i l IH]; simpl; frames_tac; assumption. }
  unfold get_source_instance. frames_tac; auto.
Qed.

Lemma get_source_instance_snapshot_kept : frames snapshot_kept (get_source_instance rds dns).
Proof.
  assert (Ha : frames snapshot_kept (get_rds_endpoint_address dns)).
  { apply get_rds_endpoint_address_frames; intros; frames_tac. }
  assert (Hf : forall l, frames snapshot_kept (find_instance_by_endpoint dns l)).
  { induction l as [|i l IH]; simpl; frames_tac; assumption. }
  unfold get_source_instance. frames_tac; auto.
Qed.

Lemma get_source_instance_identifier_ro : frames ro_step (get_source_instance_identifier rds dns).
Proof.
  pose proof get_source_instance_ro.
  unfold get_source_instance_identifier. frames_tac; auto.
Qed.

Lemma get_snapshot_identifier_ro : frames ro_step (get_snapshot_identifier rds dns).
Proof.
  pose proof get_source_instance_identifier_ro.
  unfold get_snapshot_identifier. frames_tac; auto.
Qed.

Lemma get_snapshot_ro : frames ro_step (get_snapshot rds dns).
Proof.
  pose proof get_snapshot_identifier_ro.
  unfold get_snapshot. frames_tac; auto.
Qed.

End FinderFrames.

(** X14.  Building a scrub workspace only reads: whether it succeeds or
    raises, the clock has not moved and the provider calls it made are
    listings and DNS queries, never a restore, modification or deletion.
    A workspace it returns has no instance yet, is not deleted, keeps the
    given timeout, and its source snapshot and source instance are the
    objects the finder now caches. *)
Theorem ScrubWorkspaceInstance_init_reads_only (rds : Rds) (dns : Dns)
    (sha256_hexdigest : string -> string) (now : datetime) (bits : N) (tmo : Z)
    (sg : SecurityGroupsArg) (w : World) :
  let r := ScrubWorkspaceInstance_init rds dns sha256_hexdigest now bits tmo sg w in
  ro_step w (snd r) /\
  (forall x, fst r = inr x ->
     instance x = None /\ deleted x = false /\ timeout x = tmo /\
     snapshot (finder (snd r)) = Some (source_snapshot x) /\
     source_instance (finder (snd r)) = Some (ws_source_instance x)).
Proof.
  cbv zeta. split.
  - assert (H : frames ro_step (ScrubWorkspaceInstance_init rds dns sha256_hexdigest now bits tmo sg)).
    { pose proof (get_snapshot_ro rds dns). pose proof (get_source_instance_ro rds dns).
      unfold ScrubWorkspaceInstance_init. frames_tac; auto. }
    exact (H w).
  - intros x. unfold ScrubWorkspaceInstance_init.
    cbv beta iota zeta delta [py_bind py_ret].
    destruct (get_snapshot rds dns w) as [[e|s] w1] eqn:E1; cbv beta iota; [discriminate|].
    destruct (get_source_instance rds dns w1) as [[e|i] w2] eqn:E2; cbv beta iota;
      [discriminate|].
    intros Hx. injection Hx as <-. cbn [instance deleted timeout source_snapshot
                                         ws_source_instance].
    split; [reflexivity|]. split; [reflexivity|]. split; [reflexivity|]. split.
    + pose proof (get_source_instance_snapshot_kept rds dns w1) as Hk.
      unfold snapshot_kept in Hk. rewrite E2 in Hk. simpl in Hk |- *. rewrite Hk.
      exact (get_snapshot_stores rds dns w s w1 E1).
    + exact (get_source_instance_stores rds dns w1 i w2 E2).
Qed.

Lemma ScrubWorkspaceInstance_init_reads_only_witness :
  let r := ScrubWorkspaceInstance_init rds_example dns_none sha256_example
             (mkDatetime 2026 10 15 9 30) 12345 90 SGOther world_example in
  exists x, fst r = inr x /\ ro_step world_example (snd r) /\
    instance x = None /\ deleted x = false /\ timeout x = 90 /\
    snapshot (finder (snd r)) = Some (source_snapshot x) /\
    source_instance (finder (snd r)) = Some (ws_source_instance x).
Proof.
  pose proof (ScrubWorkspaceInstance_init_reads_only rds_example dns_none sha256_example
                (mkDatetime 2026 10 15 9 30) 12345 90 SGOther world_example) as [H1 H2].
  cbv zeta in *.
  match goal with |- exists x, fst ?r = _ /\ _ => destruct (fst r) as [e|x] eqn:E end.
  - vm_compute in E. discriminate.
  - exists x. split; [reflexivity|]. split; [exact H1|]. exact (H2 x eq_refl).
Defined.

(** ** Which databases a scrub task can touch *)

(** Every real database name the task manager maps to is one that the
    discovery query returned. *)
Definition realnames_discovered {DB} (rows : list (string * bool)) (p : @Postgresql DB) : Prop :=
  forall k d, db_realnames p !! k = Some d -> d ∈ pg_database_query rows.

Lemma pg_database_query_excludes (rows : list (string * bool)) d :
  d ∈ ["template0"; "rdsadmin"; "postgres"; "template1"] -> d ∉ pg_database_query rows.
Proof.
  intros Hd Hq. unfold pg_database_query in Hq.
  apply list_elem_of_In, in_map_iff in Hq as [[n b] [Hnd Hf]]. simpl in Hnd. subst n.
  apply list_elem_of_In, list_elem_of_filter in Hf as [[Hn _] _]. simpl in *. contradiction.
Qed.

Lemma Postgresql_init_discovered {DB} (drv : @Driver DB) registry suffix rows w :
  realnames_discovered rows (pg (snd (Postgresql_init drv registry suffix rows w))).
Proof.
  unfold Postgresql_init, _discover_available_dbs, _get_connection.
  cbv beta iota zeta delta [py_bind py_get py_ret py_modify].
  destruct (drv_connect drv "postgres"); simpl; intros k d Hk; cbn [db_realnames] in Hk.
  - rewrite lookup_empty in Hk. discriminate.
  - destruct (record_realnames_lookup_inv _ _ _ _ _ Hk) as [H|[H _]]; [|exact H].
    rewrite lookup_empty in H. discriminate.
Qed.

(** The world after [run_task] is the one [get_viable_tasks()] left, or
    that world with one more connection to the task's real database, and
    possibly that database's new committed contents. *)
Lemma run_task_final_world {DB} (drv : @Driver DB) (t : string) (w : PgWorld) :
  let w0 := snd (get_viable_tasks w) in
  snd (run_task drv t w) = w0 \/
  exists d p, db_realnames (pg w0) !! t = Some d /\
    (snd (run_task drv t w) = connected w0 d \/
     snd (run_task drv t w) = commit_db d p (connected w0 d)).
Proof.
  cbv zeta. unfold run_task.
  cbv beta iota zeta delta [py_bind py_get py_ret py_raise py_modify py_try].
  destruct (get_viable_tasks w) as [[e|V] w0]; simpl; [left; reflexivity|].
  destruct (decide (t ∉ V)); [left; reflexivity|].
  unfold py_getitem. destruct (db_realnames (pg w0) !! t) as [d|] eqn:Ed;
    [|left; reflexivity].
  unfold py_ret, _get_connection. destruct (drv_connect drv d); [left; reflexivity|].
  cbn [pg cnx_pending committed connections].
  right. exists d.
  destruct (scrub_functions (pg w0) !! t) as [f|].
  - destruct (f (committed w0 d)) as [[e|] p].
    + exists p. split; [reflexivity|]. left.
      destruct (drv_rollback drv d); reflexivity.
    + exists p. split; [reflexivity|].
      destruct (drv_commit drv d p).
      * left. destruct (drv_rollback drv d); reflexivity.
      * right. reflexivity.
  - exists (committed w0 d). split; [reflexivity|]. left.
    destruct (drv_rollback drv d); reflexivity.
Qed.

Lemma get_viable_tasks_pg {DB} (w : @PgWorld DB) :
  let w0 := snd (get_viable_tasks w) in
  db_realnames (pg w0) = db_realnames (pg w) /\
  scrub_functions (pg w0) = scrub_functions (pg w) /\
  committed w0 = committed w /\ connections w0 = connections w.
Proof.
  unfold get_viable_tasks, py_bind, py_get, py_modify, py_ret, set_pg.
  destruct (viable_tasks (pg w)); simpl; auto.
Qed.

(** X15.  Once the database mapping only names databases that discovery
    returned (as after [__init__]), [run_task(task)], whatever the task and
    whatever the driver and routine do, keeps the mapping and the
    registry, opens at most one connection and only to a discovered
    database, and changes no committed database outside the discovered
    ones: in particular never [postgres], [rdsadmin] or a template. *)
Theorem run_task_touches_discovered_only {DB} (drv : @Driver DB) (rows : list (string * bool))
    (t : string) (w : PgWorld) :
  realnames_discovered rows (pg w) ->
  let w' := snd (run_task drv t w) in
  db_realnames (pg w') = db_realnames (pg w) /\
  scrub_functions (pg w') = scrub_functions (pg w) /\
  (exists cs, connections w' = connections w ++ cs /\ (length cs <= 1)%nat /\
     Forall (fun d => d ∈ pg_database_query rows) cs) /\
  (forall d, d ∉ pg_database_query rows -> committed w' d = committed w d) /\
  (forall d, d ∈ ["template0"; "rdsadmin"; "postgres"; "template1"] ->
     committed w' d = committed w d).
Proof.
  intros Hok. cbv zeta.
  destruct (get_viable_tasks_pg w) as (Hn & Hs & Hc & Hcn).
  assert (Hcommit : forall d, d ∉ pg_database_query rows ->
                      committed (snd (run_task drv t w)) d = committed w d).
  { intros d' Hd'.
    destruct (run_task_final_world drv t w) as [H|(d & p & Hd & [H|H])]; rewrite H.
    - rewrite Hc. reflexivity.
    - unfold connected. simpl. rewrite Hc. reflexivity.
    - unfold commit_db, connected. simpl.
      destruct (String.eqb_spec d' d) as [->|_]; [|rewrite Hc; reflexivity].
      rewrite Hn in Hd. exfalso. exact (Hd' (Hok _ _ Hd)). }
  destruct (run_task_final_world drv t w) as [H|(d & p & Hd & Hw)].
  - split; [rewrite H; exact Hn|]. split; [rewrite H; exact Hs|]. split.
    + exists []. rewrite H, Hcn, app_nil_r. split; [reflexivity|]. split; [simpl; lia|constructor].
    + split; [exact Hcommit|]. intros d' Hd'.
      apply Hcommit. apply pg_database_query_excludes. exact Hd'.
  - assert (Hw' : pg (snd (run_task drv t w)) = pg (snd (get_viable_tasks w)) /\
                  connections (snd (run_task drv t w))
                  = connections (snd (get_viable_tasks w)) ++ [d]).
    { destruct Hw as [H|H]; rewrite H; split; reflexivity. }
    destruct Hw' as [Hpg Hcs]. rewrite Hpg.
    split; [exact Hn|]. split; [exact Hs|]. split.
    + exists [d]. rewrite Hcs, Hcn. split; [reflexivity|]. split; [simpl; lia|].
      constructor; [|constructor]. rewrite Hn in Hd. exact (Hok _ _ Hd).
    + split; [exact Hcommit|]. intros d' Hd'.
      apply Hcommit. apply pg_database_query_excludes. exact Hd'.
Qed.

Lemma run_task_touches_discovered_only_witness :
  let w' := snd (run_task ok_driver "publishing_api" (nat_world_ready ok_driver)) in
  db_realnames (pg w') = db_realnames (pg (nat_world_ready ok_driver)) /\
  scrub_functions (pg w') = scrub_functions (pg (nat_world_ready ok_driver)) /\
  (exists cs, connections w' = connections (nat_world_ready ok_driver) ++ cs /\
     (length cs <= 1)%nat /\ Forall (fun d => d ∈ pg_database_query rows_example) cs) /\
  (forall d, d ∉ pg_database_query rows_example ->
     committed w' d = committed (nat_world_ready ok_driver) d) /\
  (forall d, d ∈ ["template0"; "rdsadmin"; "postgres"; "template1"] ->
     committed w' d = committed (nat_world_ready ok_driver) d).
Proof.
  apply (run_task_touches_discovered_only ok_driver rows_example "publishing_api"
           (nat_world_ready ok_driver)).
  apply Postgresql_init_discovered.
Defined.
